(** * Mylly Input library: the hook and bind dispatcher of [Input.c]

    A shallow embedding of [src/Input.c].  The file-scope variables of the
    translation unit become the fields of one record, [InputState], that
    every operation takes and returns.  Records obtained from
    [mem_alloc_clean] live in a heap indexed by their address; the lists of
    the library hold node addresses, so a bind handle and the list entry it
    was pushed as name the same heap cell.

    An operation that dereferences a pointer returns [None] where the C
    program would dereference a null or a freed pointer.

    Handlers are function pointers, and every function pointer handed to
    the library is taken to be callable.  A handler may read the library's
    accessors ([input_get_cursor_pos], [input_is_cursor_showing]) and may
    change the application's own state, here a type [W]; a handler that
    calls back into the registration or removal functions while a dispatch
    is running is outside this model. *)

From stdpp Require Import option gmap fin_maps list.

Local Open Scope Z_scope.

(** ** Values *)

(** Addresses returned by the allocator; a nullable pointer is an
    [option addr]. *)
Abbreviation addr := positive (only parsing).

(** [input_handler_t], [keybind_func_t], [mousebind_func_t]: a function
    pointer is known by its address only. *)
Abbreviation fnptr := Z (only parsing).

(** [INPUT_EVENT] is an enumeration counted from zero. *)
Abbreviation INPUT_EVENT := nat (only parsing).

(** [MOUSEBTN] and [MOUSEWHEEL] are enumerations of [Input.h]. *)
Abbreviation MOUSEBTN := Z (only parsing).
Abbreviation MOUSEWHEEL := Z (only parsing).

Inductive BINDTYPE_KB := BIND_KEYUP | BIND_KEYDOWN | BIND_CHAR.

Inductive BINDTYPE_MOUSE := BIND_BTNUP | BIND_BTNDOWN | BIND_MOVE.

#[global] Instance BINDTYPE_KB_eq_dec : EqDecision BINDTYPE_KB.
Proof. solve_decision. Defined.

#[global] Instance BINDTYPE_MOUSE_eq_dec : EqDecision BINDTYPE_MOUSE.
Proof. solve_decision. Defined.

(** Modelled from the spec: [rectangle_t] and [rect_is_point_in] are
    declared by the geometry collaborator, which is not part of
    [Input.c].  The spec writes a rectangle as [[0,0]-[10,10]], two
    corners, and says that containment is closed on the edges. *)
Record rectangle_t := {
  rect_min_x : Z;
  rect_min_y : Z;
  rect_max_x : Z;
  rect_max_y : Z
}.

Definition rect_is_point_in (r : rectangle_t) (x y : Z) : bool :=
  (rect_min_x r <=? x) && (x <=? rect_max_x r) &&
  (rect_min_y r <=? y) && (y <=? rect_max_y r).

Module InputHookFunc.
Record t := { handler : fnptr }.
End InputHookFunc.

Module KeyBind.
Record t := {
  type : BINDTYPE_KB;
  key : Z;
  handler : fnptr;
  userdata : Z
}.
End KeyBind.

Module MouseBind.
Record t := {
  type : BINDTYPE_MOUSE;
  bounds : rectangle_t;
  button : MOUSEBTN;
  handler : fnptr;
  userdata : Z
}.

Definition with_button (v : MOUSEBTN) (b : t) : t :=
  {| type := type b; bounds := bounds b; button := v;
     handler := handler b; userdata := userdata b |}.

Definition with_bounds (v : rectangle_t) (b : t) : t :=
  {| type := type b; bounds := v; button := button b;
     handler := handler b; userdata := userdata b |}.

Definition with_handler (v : fnptr) (b : t) : t :=
  {| type := type b; bounds := bounds b; button := button b;
     handler := v; userdata := userdata b |}.

Definition with_userdata (v : Z) (b : t) : t :=
  {| type := type b; bounds := bounds b; button := button b;
     handler := handler b; userdata := v |}.
End MouseBind.

(** Modelled from the spec: [InputEvent] is declared in [Input.h], which
    is not part of [Input.c].  The keyboard path fills [type] and
    [keyboard.key]; the mouse path fills [type] and the six members of
    [mouse].  The spec gives [dx = x - last_x] and [dy = y - last_y]; the
    members hold these differences as the C expression computes them,
    in [int]. *)
Inductive InputEvent :=
  | KeyboardEvent (type : INPUT_EVENT) (key : Z)
  | MouseEvent (type : INPUT_EVENT) (x y dx dy : Z) (button wheel : Z).

(** The [(uint8)] cast applied to the button and the wheel. *)
Definition to_uint8 (v : Z) : Z := v mod 256.

(** ** Memory *)

Inductive object :=
  | ObjHook (hook : InputHookFunc.t)
  | ObjKeyBind (bind : KeyBind.t)
  | ObjMouseBind (bind : MouseBind.t).

Abbreviation memory := (gmap positive object) (only parsing).

(** [mem_alloc_clean]: an address that is not in use.  Allocation is
    taken to succeed. *)
Definition mem_alloc_clean (m : memory) : addr :=
  fresh (dom m : gset positive).

(** [mem_free]: releasing an address that is not allocated is an error. *)
Definition mem_free (p : addr) (m : memory) : option memory :=
  match m !! p with
  | Some _ => Some (delete p m)
  | None => None
  end.

Definition load_hook (m : memory) (p : addr) : option InputHookFunc.t :=
  match m !! p with
  | Some (ObjHook h) => Some h
  | _ => None
  end.

Definition load_keybind (m : memory) (p : addr) : option KeyBind.t :=
  match m !! p with
  | Some (ObjKeyBind b) => Some b
  | _ => None
  end.

Definition load_mousebind (m : memory) (p : addr) : option MouseBind.t :=
  match m !! p with
  | Some (ObjMouseBind b) => Some b
  | _ => None
  end.

(** ** Lists

    Modelled from the spec: [Types/List.h] is not part of [Input.c].  The
    spec asks for an ordered collection in which insertion order is
    dispatch order; a [list_t] is the sequence of its node addresses,
    first registered first.  A [list_t*] is an [option]: [None] is
    [NULL]. *)
Abbreviation list_t := (list positive) (only parsing).

Definition list_create : list_t := [].

Definition list_push (l : list_t) (node : addr) : list_t := l ++ [node].

Definition list_remove (l : list_t) (node : addr) : list_t :=
  filter (λ n, n ≠ node) l.

Definition list_empty (l : list_t) : bool :=
  match l with
  | [] => true
  | _ :: _ => false
  end.

(** [list_foreach (list, node) { body }], where the body may [return]:
    the body yields [inl st] to go on with the next node and [inr r] to
    leave the function with [r]. *)
Fixpoint list_foreach {S R : Type} (nodes : list_t)
    (body : addr → S → option (S + R)) (st : S) : option (S + R) :=
  match nodes with
  | [] => Some (inl st)
  | node :: rest =>
      match body node st with
      | None => None
      | Some (inr r) => Some (inr r)
      | Some (inl st') => list_foreach rest body st'
      end
  end.

(** [list_foreach_safe (list, node, tmp) { body }]: the successor is read
    before the body runs, so the body may unlink and free [node]. *)
Fixpoint list_foreach_safe {S : Type} (nodes : list_t)
    (body : addr → S → option S) (st : S) : option S :=
  match nodes with
  | [] => Some st
  | node :: rest =>
      match body node st with
      | None => None
      | Some st' => list_foreach_safe rest body st'
      end
  end.

(** ** The variables of [Input.c] *)

Record InputState := {
  input_initialized : bool;
  block_keys : bool;
  show_cursor : bool;
  mouse_x : Z;
  mouse_y : Z;
  input_hooks : list (option (list positive));
  char_binds : option (list positive);
  key_up_binds : option (list positive);
  key_down_binds : option (list positive);
  mouse_up_binds : option (list positive);
  mouse_down_binds : option (list positive);
  mouse_move_binds : option (list positive);
  heap : gmap positive object
}.

Definition set_input_initialized (v : bool) (s : InputState) : InputState :=
  {| input_initialized := v; block_keys := block_keys s;
     show_cursor := show_cursor s; mouse_x := mouse_x s; mouse_y := mouse_y s;
     input_hooks := input_hooks s; char_binds := char_binds s;
     key_up_binds := key_up_binds s; key_down_binds := key_down_binds s;
     mouse_up_binds := mouse_up_binds s; mouse_down_binds := mouse_down_binds s;
     mouse_move_binds := mouse_move_binds s; heap := heap s |}.

Definition set_block_keys (v : bool) (s : InputState) : InputState :=
  {| input_initialized := input_initialized s; block_keys := v;
     show_cursor := show_cursor s; mouse_x := mouse_x s; mouse_y := mouse_y s;
     input_hooks := input_hooks s; char_binds := char_binds s;
     key_up_binds := key_up_binds s; key_down_binds := key_down_binds s;
     mouse_up_binds := mouse_up_binds s; mouse_down_binds := mouse_down_binds s;
     mouse_move_binds := mouse_move_binds s; heap := heap s |}.

Definition set_mouse_pos (x y : Z) (s : InputState) : InputState :=
  {| input_initialized := input_initialized s; block_keys := block_keys s;
     show_cursor := show_cursor s; mouse_x := x; mouse_y := y;
     input_hooks := input_hooks s; char_binds := char_binds s;
     key_up_binds := key_up_binds s; key_down_binds := key_down_binds s;
     mouse_up_binds := mouse_up_binds s; mouse_down_binds := mouse_down_binds s;
     mouse_move_binds := mouse_move_binds s; heap := heap s |}.

Definition set_input_hooks (v : list (option (list positive)))
    (s : InputState) : InputState :=
  {| input_initialized := input_initialized s; block_keys := block_keys s;
     show_cursor := show_cursor s; mouse_x := mouse_x s; mouse_y := mouse_y s;
     input_hooks := v; char_binds := char_binds s;
     key_up_binds := key_up_binds s; key_down_binds := key_down_binds s;
     mouse_up_binds := mouse_up_binds s; mouse_down_binds := mouse_down_binds s;
     mouse_move_binds := mouse_move_binds s; heap := heap s |}.

Definition set_heap (v : gmap positive object) (s : InputState) : InputState :=
  {| input_initialized := input_initialized s; block_keys := block_keys s;
     show_cursor := show_cursor s; mouse_x := mouse_x s; mouse_y := mouse_y s;
     input_hooks := input_hooks s; char_binds := char_binds s;
     key_up_binds := key_up_binds s; key_down_binds := key_down_binds s;
     mouse_up_binds := mouse_up_binds s; mouse_down_binds := mouse_down_binds s;
     mouse_move_binds := mouse_move_binds s; heap := v |}.

(** The [switch (type)] of the key bind functions: the list a bind type
    selects, and the assignment to it. *)
Definition key_bind_list (type : BINDTYPE_KB) (s : InputState)
    : option (list positive) :=
  match type with
  | BIND_CHAR => char_binds s
  | BIND_KEYUP => key_up_binds s
  | BIND_KEYDOWN => key_down_binds s
  end.

Definition set_key_bind_list (type : BINDTYPE_KB)
    (v : option (list positive)) (s : InputState) : InputState :=
  {| input_initialized := input_initialized s; block_keys := block_keys s;
     show_cursor := show_cursor s; mouse_x := mouse_x s; mouse_y := mouse_y s;
     input_hooks := input_hooks s;
     char_binds := match type with BIND_CHAR => v | _ => char_binds s end;
     key_up_binds := match type with BIND_KEYUP => v | _ => key_up_binds s end;
     key_down_binds :=
       match type with BIND_KEYDOWN => v | _ => key_down_binds s end;
     mouse_up_binds := mouse_up_binds s; mouse_down_binds := mouse_down_binds s;
     mouse_move_binds := mouse_move_binds s; heap := heap s |}.

Definition mouse_bind_list (type : BINDTYPE_MOUSE) (s : InputState)
    : option (list positive) :=
  match type with
  | BIND_MOVE => mouse_move_binds s
  | BIND_BTNUP => mouse_up_binds s
  | BIND_BTNDOWN => mouse_down_binds s
  end.

Definition set_mouse_bind_list (type : BINDTYPE_MOUSE)
    (v : option (list positive)) (s : InputState) : InputState :=
  {| input_initialized := input_initialized s; block_keys := block_keys s;
     show_cursor := show_cursor s; mouse_x := mouse_x s; mouse_y := mouse_y s;
     input_hooks := input_hooks s; char_binds := char_binds s;
     key_up_binds := key_up_binds s; key_down_binds := key_down_binds s;
     mouse_up_binds :=
       match type with BIND_BTNUP => v | _ => mouse_up_binds s end;
     mouse_down_binds :=
       match type with BIND_BTNDOWN => v | _ => mouse_down_binds s end;
     mouse_move_binds :=
       match type with BIND_MOVE => v | _ => mouse_move_binds s end;
     heap := heap s |}.

(** The static initialisers, for an event table of [n] entries. *)
Definition initial_state (n : nat) : InputState :=
  {| input_initialized := false; block_keys := false; show_cursor := true;
     mouse_x := 0; mouse_y := 0; input_hooks := replicate n None;
     char_binds := None; key_up_binds := None; key_down_binds := None;
     mouse_up_binds := None; mouse_down_binds := None;
     mouse_move_binds := None; heap := ∅ |}.

(** ** Handler calls *)

(** What a handler can read back from the library while it runs. *)
Record View := {
  cursor_x : Z;
  cursor_y : Z;
  cursor_showing : bool
}.

(** One handler invocation: the list node it was made for, the function
    called, its arguments, what the library's accessors answered at that
    moment, and the value the handler returned. *)
Inductive Call :=
  | HookCall (node : addr) (handler : fnptr) (event : InputEvent)
      (seen : View) (result : bool)
  | KeyBindCall (node : addr) (handler : fnptr) (key : Z) (userdata : Z)
      (seen : View) (result : bool)
  | MouseBindCall (node : addr) (handler : fnptr) (button : MOUSEBTN)
      (x y : Z) (userdata : Z) (seen : View) (result : bool).

Definition call_node (c : Call) : addr :=
  match c with
  | HookCall n _ _ _ _ => n
  | KeyBindCall n _ _ _ _ _ => n
  | MouseBindCall n _ _ _ _ _ _ _ => n
  end.

Definition call_result (c : Call) : bool :=
  match c with
  | HookCall _ _ _ _ r => r
  | KeyBindCall _ _ _ _ _ r => r
  | MouseBindCall _ _ _ _ _ _ _ r => r
  end.

(** The nodes an entry point made calls for, in call order. *)
Definition called_nodes {W : Type} (outcome : option (bool * W * list Call))
    : option (list positive) :=
  match outcome with
  | Some (_, _, calls) => Some (call_node <$> calls)
  | None => None
  end.

(** ** Accessors and the keyboard block *)

Definition input_block_keys (block : bool) (s : InputState) : InputState :=
  set_block_keys block s.

Definition input_is_cursor_showing (s : InputState) : bool := show_cursor s.

Definition input_get_cursor_pos (s : InputState) : Z * Z :=
  (mouse_x s, mouse_y s).

Definition view_of (s : InputState) : View :=
  {| cursor_x := fst (input_get_cursor_pos s);
     cursor_y := snd (input_get_cursor_pos s);
     cursor_showing := input_is_cursor_showing s |}.

(** ** Key binds *)

Definition input_add_key_bind (key : Z) (func : fnptr) (data : Z)
    (type : BINDTYPE_KB) (s : InputState) : option addr * InputState :=
  if negb (input_initialized s) then (None, s) else
  match key_bind_list type s with
  | None => (None, s)
  | Some bindlist =>
      let bind := mem_alloc_clean (heap s) in
      let record := {| KeyBind.type := type; KeyBind.key := key;
                       KeyBind.handler := func; KeyBind.userdata := data |} in
      (Some bind,
       set_key_bind_list type (Some (list_push bindlist bind))
         (set_heap (<[bind := ObjKeyBind record]> (heap s)) s))
  end.

Definition input_add_char_bind (key : Z) (func : fnptr) (data : Z) :=
  input_add_key_bind key func data BIND_CHAR.

Definition input_add_key_up_bind (key : Z) (func : fnptr) (data : Z) :=
  input_add_key_bind key func data BIND_KEYUP.

Definition input_add_key_down_bind (key : Z) (func : fnptr) (data : Z) :=
  input_add_key_bind key func data BIND_KEYDOWN.

Definition input_remove_key_bind_from_list (key : Z) (func : fnptr)
    (type : BINDTYPE_KB) (s : InputState) : option InputState :=
  if negb (input_initialized s) then Some s else
  match key_bind_list type s with
  | None => Some s
  | Some bindlist =>
      '(l, m) ← list_foreach_safe bindlist
        (λ node '(l, m),
           bind ← load_keybind m node;
           if (KeyBind.key bind =? key) && (KeyBind.handler bind =? func)
           then m' ← mem_free node m; Some (list_remove l node, m')
           else Some (l, m))
        (bindlist, heap s);
      Some (set_key_bind_list type (Some l) (set_heap m s))
  end.

Definition input_remove_char_bind (key : Z) (func : fnptr) :=
  input_remove_key_bind_from_list key func BIND_CHAR.

Definition input_remove_key_up_bind (key : Z) (func : fnptr) :=
  input_remove_key_bind_from_list key func BIND_KEYUP.


(** The arguments [bind->key], [bind->handler] and [bind->type] are read
    through the handle before anything else happens. *)
Definition input_remove_key_bind (bind : option addr) (s : InputState)
    : option InputState :=
  p ← bind;
  b ← load_keybind (heap s) p;
  input_remove_key_bind_from_list (KeyBind.key b) (KeyBind.handler b)
    (KeyBind.type b) s.

(** ** Mouse binds *)

Definition input_add_mouse_bind (button : MOUSEBTN)
    (area : option rectangle_t) (func : fnptr) (data : Z)
    (type : BINDTYPE_MOUSE) (s : InputState)
    : option (option addr * InputState) :=
  if negb (input_initialized s) then Some (None, s) else
  match mouse_bind_list type s with
  | None => Some (None, s)
  | Some bindlist =>
      let bind := mem_alloc_clean (heap s) in
      bounds ← area;
      let record := {| MouseBind.type := type; MouseBind.bounds := bounds;
                       MouseBind.button := button;
                       MouseBind.handler := func;
                       MouseBind.userdata := data |} in
      Some (Some bind,
            set_mouse_bind_list type (Some (list_push bindlist bind))
              (set_heap (<[bind := ObjMouseBind record]> (heap s)) s))
  end.

Definition input_remove_mouse_bind_from_list (button : MOUSEBTN)
    (func : fnptr) (type : BINDTYPE_MOUSE) (s : InputState)
    : option InputState :=
  if negb (input_initialized s) then Some s else
  match mouse_bind_list type s with
  | None => Some s
  | Some bindlist =>
      '(l, m) ← list_foreach_safe bindlist
        (λ node '(l, m),
           bind ← load_mousebind m node;
           if (MouseBind.button bind =? button) &&
              negb (MouseBind.handler bind =? func)
           then m' ← mem_free node m; Some (list_remove l node, m')
           else Some (l, m))
        (bindlist, heap s);
      Some (set_mouse_bind_list type (Some l) (set_heap m s))
  end.

Definition input_remove_mousebtn_up_bind (button : MOUSEBTN) (func : fnptr) :=
  input_remove_mouse_bind_from_list button func BIND_BTNUP.

Definition input_remove_mousebtn_down_bind (button : MOUSEBTN)
    (func : fnptr) :=
  input_remove_mouse_bind_from_list button func BIND_BTNDOWN.

Definition input_remove_mouse_bind (bind : option addr) (s : InputState)
    : option InputState :=
  p ← bind;
  b ← load_mousebind (heap s) p;
  input_remove_mouse_bind_from_list (MouseBind.button b)
    (MouseBind.handler b) (MouseBind.type b) s.

(** The four mutators: a null check, then a store through the handle. *)
Definition input_set_mousebind_button (bind : option addr)
    (button : MOUSEBTN) (s : InputState) : option InputState :=
  match bind with
  | None => Some s
  | Some p =>
      b ← load_mousebind (heap s) p;
      Some (set_heap
              (<[p := ObjMouseBind (MouseBind.with_button button b)]> (heap s))
              s)
  end.

Definition input_set_mousebind_rect (bind : option addr)
    (area : option rectangle_t) (s : InputState) : option InputState :=
  match bind with
  | None => Some s
  | Some p =>
      bounds ← area;
      b ← load_mousebind (heap s) p;
      Some (set_heap
              (<[p := ObjMouseBind (MouseBind.with_bounds bounds b)]> (heap s))
              s)
  end.

Definition input_set_mousebind_func (bind : option addr) (func : fnptr)
    (s : InputState) : option InputState :=
  match bind with
  | None => Some s
  | Some p =>
      b ← load_mousebind (heap s) p;
      Some (set_heap
              (<[p := ObjMouseBind (MouseBind.with_handler func b)]> (heap s))
              s)
  end.

Definition input_set_mousebind_param (bind : option addr) (data : Z)
    (s : InputState) : option InputState :=
  match bind with
  | None => Some s
  | Some p =>
      b ← load_mousebind (heap s) p;
      Some (set_heap
              (<[p := ObjMouseBind (MouseBind.with_userdata data b)]> (heap s))
              s)
  end.

Section Input.

#[local] Set Default Proof Using "Type".

(** [NUM_INPUT_EVENTS] and [MOUSE_NONE] are enumerators of [Input.h]. *)
Variable NUM_INPUT_EVENTS : nat.
Variable MOUSE_NONE : MOUSEBTN.

(** The application's own state, and what calling a function pointer
    does: the handler sees its arguments and the library's accessors,
    returns a [bool] and leaves a new application state. *)
Variable W : Type.
Variable call_input_handler : fnptr → InputEvent → View → W → bool * W.
Variable call_keybind_func : fnptr → Z → Z → View → W → bool * W.
Variable call_mousebind_func :
  fnptr → MOUSEBTN → Z → Z → Z → View → W → bool * W.

(** ** Mouse bind wrappers that name [MOUSE_NONE] *)

Definition input_add_mouse_move_bind (area : option rectangle_t)
    (func : fnptr) (data : Z) :=
  input_add_mouse_bind MOUSE_NONE area func data BIND_MOVE.

Definition input_add_mousebtn_up_bind (button : MOUSEBTN)
    (area : option rectangle_t) (func : fnptr) (data : Z) :=
  input_add_mouse_bind button area func data BIND_BTNUP.

Definition input_add_mousebtn_down_bind (button : MOUSEBTN)
    (area : option rectangle_t) (func : fnptr) (data : Z) :=
  input_add_mouse_bind button area func data BIND_BTNDOWN.

Definition input_remove_mouse_move_bind (func : fnptr) :=
  input_remove_mouse_bind_from_list MOUSE_NONE func BIND_MOVE.

(** ** Lifecycle *)

(** [for ( i = NUM_INPUT_EVENTS; i--; ) input_hooks[i] = list_create();]
    the body runs for [i - 1] down to [0]. *)
Fixpoint create_hook_lists (i : nat)
    (hooks : list (option (list positive))) : list (option (list positive)) :=
  match i with
  | O => hooks
  | S j => create_hook_lists j (<[j := Some list_create]> hooks)
  end.

(** [input_platform_initialize] belongs to the platform layer and does
    not touch the variables of [Input.c]. *)
Definition input_initialize (window : option addr) (s : InputState)
    : InputState :=
  match window with
  | None => s
  | Some _ =>
      let s := set_input_hooks
                 (create_hook_lists NUM_INPUT_EVENTS (input_hooks s)) s in
      let s := set_key_bind_list BIND_CHAR (Some list_create) s in
      let s := set_key_bind_list BIND_KEYUP (Some list_create) s in
      let s := set_key_bind_list BIND_KEYDOWN (Some list_create) s in
      let s := set_mouse_bind_list BIND_BTNUP (Some list_create) s in
      let s := set_mouse_bind_list BIND_BTNDOWN (Some list_create) s in
      let s := set_mouse_bind_list BIND_MOVE (Some list_create) s in
      set_input_initialized true s
  end.

(** [input_cleanup_list]: unlink and free every node, then destroy the
    list; what is left is the memory. *)
Definition input_cleanup_list (list : option (list positive))
    (m : gmap positive object) : option (gmap positive object) :=
  l ← list;
  '(_, m') ← list_foreach_safe l
    (λ node '(l, m), m' ← mem_free node m; Some (list_remove l node, m'))
    (l, m);
  Some m'.

(** The first loop of [input_shutdown], again from [i - 1] down to [0]. *)
Fixpoint destroy_hook_lists (i : nat)
    (hooks : list (option (list positive))) (m : gmap positive object)
    : option (list (option (list positive)) * gmap positive object) :=
  match i with
  | O => Some (hooks, m)
  | S j =>
      entry ← hooks !! j;
      match entry with
      | Some l =>
          m' ← input_cleanup_list (Some l) m;
          destroy_hook_lists j (<[j := None]> hooks) m'
      | None => destroy_hook_lists j hooks m
      end
  end.

(** [input_platform_shutdown], like [input_platform_initialize], is the
    platform layer's and leaves the variables of [Input.c] alone. *)
Definition input_shutdown (s : InputState) : option InputState :=
  if negb (input_initialized s) then Some s else
  '(hooks, m) ← destroy_hook_lists NUM_INPUT_EVENTS (input_hooks s) (heap s);
  m ← input_cleanup_list (char_binds s) m;
  m ← input_cleanup_list (key_up_binds s) m;
  m ← input_cleanup_list (key_down_binds s) m;
  m ← input_cleanup_list (mouse_up_binds s) m;
  m ← input_cleanup_list (mouse_down_binds s) m;
  m ← input_cleanup_list (mouse_move_binds s) m;
  let s := set_heap m (set_input_hooks hooks s) in
  let s := set_key_bind_list BIND_CHAR None s in
  let s := set_key_bind_list BIND_KEYUP None s in
  let s := set_key_bind_list BIND_KEYDOWN None s in
  let s := set_mouse_bind_list BIND_BTNUP None s in
  let s := set_mouse_bind_list BIND_BTNDOWN None s in
  let s := set_mouse_bind_list BIND_MOVE None s in
  Some (set_input_initialized false s).

(** ** Hooks *)

(** [input_hooks[event_id]], dereferenced as a list. *)
Definition hook_list (event_id : INPUT_EVENT) (s : InputState)
    : option (list positive) :=
  entry ← input_hooks s !! event_id; entry.

Definition input_add_hook (event_id : INPUT_EVENT) (handler : fnptr)
    (s : InputState) : option InputState :=
  if negb (input_initialized s) then Some s else
  if (NUM_INPUT_EVENTS <=? event_id)%nat then Some s else
  let hook := mem_alloc_clean (heap s) in
  let record := {| InputHookFunc.handler := handler |} in
  l ← hook_list event_id s;
  Some (set_input_hooks
          (<[event_id := Some (list_push l hook)]> (input_hooks s))
          (set_heap (<[hook := ObjHook record]> (heap s)) s)).

Definition input_remove_hook (event_id : INPUT_EVENT) (handler : fnptr)
    (s : InputState) : option InputState :=
  if negb (input_initialized s) then Some s else
  if (NUM_INPUT_EVENTS <=? event_id)%nat then Some s else
  l ← hook_list event_id s;
  r ← list_foreach l
    (λ node (_ : unit),
       hook ← load_hook (heap s) node;
       if handler =? InputHookFunc.handler hook
       then m' ← mem_free node (heap s);
            Some (inr (set_input_hooks
                         (<[event_id := Some (list_remove l node)]>
                            (input_hooks s))
                         (set_heap m' s)))
       else Some (inl ()))
    ();
  match r with
  | inr s' => Some s'
  | inl _ => Some s
  end.

(** ** Hook dispatch *)

(** The hook loop shared by the two event entry points: call each
    handler in turn and [return false] at the first one that answers
    false.  The loop state is the application state and the calls made
    so far. *)
Definition hook_step (m : gmap positive object) (event : InputEvent)
    (seen : View) (node : positive) (st : W * list Call)
    : option (W * list Call + bool * W * list Call) :=
  let '(w, calls) := st in
  hook ← load_hook m node;
  let '(r, w') :=
    call_input_handler (InputHookFunc.handler hook) event seen w in
  let calls' :=
    calls ++ [HookCall node (InputHookFunc.handler hook) event seen r] in
  if negb r then Some (inr (false, w', calls'))
  else Some (inl (w', calls')).

Definition call_hooks (m : gmap positive object) (event : InputEvent)
    (seen : View) (l : list positive) (w : W)
    : option (W * list Call + bool * W * list Call) :=
  list_foreach l (hook_step m event seen) (w, []).

Definition input_handle_keyboard_event (type : INPUT_EVENT) (key : Z)
    (s : InputState) (w : W) : option (bool * W * list Call) :=
  if negb (input_initialized s) then Some (true, w, []) else
  if (NUM_INPUT_EVENTS <=? type)%nat then Some (true, w, []) else
  list ← hook_list type s;
  if list_empty list then Some (true, w, []) else
  let event := KeyboardEvent type key in
  r ← call_hooks (heap s) event (view_of s) list w;
  match r with
  | inr ret => Some ret
  | inl (w', calls) =>
      if block_keys s then Some (false, w', calls)
      else Some (true, w', calls)
  end.

Definition input_handle_mouse_event (type : INPUT_EVENT) (x y : Z)
    (button : MOUSEBTN) (wheel : MOUSEWHEEL) (s : InputState) (w : W)
    : option (bool * InputState * W * list Call) :=
  if negb (input_initialized s) then Some (true, s, w, []) else
  if (NUM_INPUT_EVENTS <=? type)%nat then Some (true, s, w, []) else
  list ← hook_list type s;
  if list_empty list then Some (true, s, w, []) else
  let event := MouseEvent type x y (x - mouse_x s) (y - mouse_y s)
                 (to_uint8 button) (to_uint8 wheel) in
  let s := set_mouse_pos x y s in
  r ← call_hooks (heap s) event (view_of s) list w;
  match r with
  | inr (ret, w', calls) => Some (ret, s, w', calls)
  | inl (w', calls) => Some (true, s, w', calls)
  end.

(** ** Bind dispatch *)

(** The loop of the three keyboard bind entry points.  They differ in
    the test made on each record, [applies]; the loop state is [ret],
    the application state and the calls made so far. *)
Definition call_key_binds (applies : KeyBind.t → bool) (key : Z)
    (m : gmap positive object) (seen : View) (l : list positive) (w : W)
    : option (bool * W * list Call) :=
  list_foreach_safe l
    (λ node '(ret, w, calls),
       bind ← load_keybind m node;
       if applies bind then
         let '(r, w') :=
           call_keybind_func (KeyBind.handler bind) key
             (KeyBind.userdata bind) seen w in
         Some (if negb r then false else ret, w',
               calls ++ [KeyBindCall node (KeyBind.handler bind) key
                           (KeyBind.userdata bind) seen r])
       else Some (ret, w, calls))
    (true, w, []).

Definition input_handle_char_bind (key : Z) (s : InputState) (w : W)
    : option (bool * W * list Call) :=
  if negb (input_initialized s) then Some (true, w, []) else
  l ← char_binds s;
  call_key_binds (λ _, true) key (heap s) (view_of s) l w.

Definition input_handle_key_down_bind (key : Z) (s : InputState) (w : W)
    : option (bool * W * list Call) :=
  if negb (input_initialized s) then Some (true, w, []) else
  l ← key_down_binds s;
  call_key_binds (λ bind, key =? KeyBind.key bind) key
    (heap s) (view_of s) l w.

Definition input_handle_key_up_bind (key : Z) (s : InputState) (w : W)
    : option (bool * W * list Call) :=
  if negb (input_initialized s) then Some (true, w, []) else
  l ← key_up_binds s;
  call_key_binds (λ bind, key =? KeyBind.key bind) key
    (heap s) (view_of s) l w.

(** The loop of the three mouse bind entry points; [button] is the
    first argument handed to the handler. *)
Definition call_mouse_binds (applies : MouseBind.t → bool)
    (button : MOUSEBTN) (x y : Z) (m : gmap positive object) (seen : View)
    (l : list positive) (w : W) : option (bool * W * list Call) :=
  list_foreach_safe l
    (λ node '(ret, w, calls),
       bind ← load_mousebind m node;
       if applies bind then
         let '(r, w') :=
           call_mousebind_func (MouseBind.handler bind) button x y
             (MouseBind.userdata bind) seen w in
         Some (if negb r then false else ret, w',
               calls ++ [MouseBindCall node (MouseBind.handler bind) button
                           x y (MouseBind.userdata bind) seen r])
       else Some (ret, w, calls))
    (true, w, []).

Definition input_handle_mouse_move_bind (x y : Z) (s : InputState) (w : W)
    : option (bool * W * list Call) :=
  if negb (input_initialized s) then Some (true, w, []) else
  l ← mouse_move_binds s;
  call_mouse_binds
    (λ bind, rect_is_point_in (MouseBind.bounds bind) x y)
    MOUSE_NONE x y (heap s) (view_of s) l w.

Definition input_handle_mouse_up_bind (button : MOUSEBTN) (x y : Z)
    (s : InputState) (w : W) : option (bool * W * list Call) :=
  if negb (input_initialized s) then Some (true, w, []) else
  l ← mouse_up_binds s;
  call_mouse_binds
    (λ bind, (MouseBind.button bind =? button) &&
             rect_is_point_in (MouseBind.bounds bind) x y)
    button x y (heap s) (view_of s) l w.

Definition input_handle_mouse_down_bind (button : MOUSEBTN) (x y : Z)
    (s : InputState) (w : W) : option (bool * W * list Call) :=
  if negb (input_initialized s) then Some (true, w, []) else
  l ← mouse_down_binds s;
  call_mouse_binds
    (λ bind, (MouseBind.button bind =? button) &&
             rect_is_point_in (MouseBind.bounds bind) x y)
    button x y (heap s) (view_of s) l w.

(** ** Well-formed states

    What the library maintains between calls: the event table has
    [NUM_INPUT_EVENTS] entries; once initialised, no list pointer is
    null; a node sits in one list, once; the nodes of a hook list are
    live hook records and the nodes of a bind list are live bind
    records whose [type] names that list. *)

Definition bind_lists (s : InputState) : list (option (list positive)) :=
  [char_binds s; key_up_binds s; key_down_binds s;
   mouse_up_binds s; mouse_down_binds s; mouse_move_binds s].

Definition nodes_of (lists : list (option (list positive)))
    : list positive :=
  mjoin (default [] <$> lists).

Definition hook_at (m : gmap positive object) (p : addr) : Prop :=
  is_Some (load_hook m p).

Definition keybind_at (m : gmap positive object) (t : BINDTYPE_KB)
    (p : addr) : Prop :=
  KeyBind.type <$> load_keybind m p = Some t.

Definition mousebind_at (m : gmap positive object) (t : BINDTYPE_MOUSE)
    (p : addr) : Prop :=
  MouseBind.type <$> load_mousebind m p = Some t.

Definition wf (s : InputState) : Prop :=
  length (input_hooks s) = NUM_INPUT_EVENTS ∧
  (input_initialized s = true →
     Forall is_Some (input_hooks s ++ bind_lists s)) ∧
  NoDup (nodes_of (input_hooks s ++ bind_lists s)) ∧
  Forall (hook_at (heap s)) (nodes_of (input_hooks s)) ∧
  Forall (λ t, Forall (keybind_at (heap s) t)
                 (default [] (key_bind_list t s)))
    [BIND_KEYUP; BIND_KEYDOWN; BIND_CHAR] ∧
  Forall (λ t, Forall (mousebind_at (heap s) t)
                 (default [] (mouse_bind_list t s)))
    [BIND_BTNUP; BIND_BTNDOWN; BIND_MOVE].

#[global] Instance wf_dec (s : InputState) : Decision (wf s).
Proof. unfold wf, hook_at, keybind_at, mousebind_at. apply _. Defined.

(** ** Reading a list of calls

    [calls_from w calls w']: made one after another from application
    state [w], the calls of the list return the results recorded in it
    and leave the application state [w']. *)

Definition exec_call (c : Call) (w : W) : bool * W :=
  match c with
  | HookCall _ h event seen _ => call_input_handler h event seen w
  | KeyBindCall _ h key data seen _ => call_keybind_func h key data seen w
  | MouseBindCall _ h button x y data seen _ =>
      call_mousebind_func h button x y data seen w
  end.

Inductive calls_from : W → list Call → W → Prop :=
  | calls_from_nil w : calls_from w [] w
  | calls_from_cons w c w' calls w'' :
      exec_call c w = (call_result c, w') →
      calls_from w' calls w'' →
      calls_from w (c :: calls) w''.

(** The answers a row of hook handlers gives to one event when the
    handlers are called one after another, each in the application
    state its predecessor left. *)
Fixpoint hook_answers (handlers : list Z) (event : InputEvent)
    (seen : View) (w : W) : list bool :=
  match handlers with
  | [] => []
  | h :: rest =>
      let '(r, w') := call_input_handler h event seen w in
      r :: hook_answers rest event seen w'
  end.

(** The handler stored in each record of a hook list. *)
Definition hook_handlers (m : gmap positive object) (l : list positive)
    : list Z :=
  omap (λ p, InputHookFunc.handler <$> load_hook m p) l.

(** The tests of the two bulk removal loops, on a node address. *)
Definition key_bind_selected (m : gmap positive object) (key : Z)
    (func : fnptr) (p : addr) : bool :=
  match load_keybind m p with
  | Some bind => (KeyBind.key bind =? key) && (KeyBind.handler bind =? func)
  | None => false
  end.

Definition mouse_bind_selected (m : gmap positive object)
    (button : MOUSEBTN) (func : fnptr) (p : addr) : bool :=
  match load_mousebind m p with
  | Some bind =>
      (MouseBind.button bind =? button) &&
      negb (MouseBind.handler bind =? func)
  | None => false
  end.

(** The test of the hook removal loop, on a node address. *)
Definition hook_has_handler (m : gmap positive object) (handler : fnptr)
    (p : addr) : bool :=
  match load_hook m p with
  | Some hook => handler =? InputHookFunc.handler hook
  | None => false
  end.

(** The call a bind entry point makes for a record. *)
Definition key_bind_call (m : gmap positive object) (key : Z) (seen : View)
    (p : addr) (c : Call) : Prop :=
  ∃ bind, load_keybind m p = Some bind ∧
    c = KeyBindCall p (KeyBind.handler bind) key (KeyBind.userdata bind)
          seen (call_result c).

Definition mouse_bind_call (m : gmap positive object) (button : MOUSEBTN)
    (x y : Z) (seen : View) (p : addr) (c : Call) : Prop :=
  ∃ bind, load_mousebind m p = Some bind ∧
    c = MouseBindCall p (MouseBind.handler bind) button x y
          (MouseBind.userdata bind) seen (call_result c).

Definition hook_call (m : gmap positive object) (event : InputEvent)
    (seen : View) (p : addr) (c : Call) : Prop :=
  ∃ hook, load_hook m p = Some hook ∧
    c = HookCall p (InputHookFunc.handler hook) event seen (call_result c).

(** The test a bind entry point makes on a node address. *)
Definition key_bind_applies (applies : KeyBind.t → bool)
    (m : gmap positive object) (p : addr) : bool :=
  from_option applies false (load_keybind m p).

Definition mouse_bind_applies (applies : MouseBind.t → bool)
    (m : gmap positive object) (p : addr) : bool :=
  from_option applies false (load_mousebind m p).

(** The step of the two bulk removal loops, written once for a record
    kind read by [load] and the condition [test] of the [if], so that
    both loops are covered by one lemma; and the nodes the condition
    holds for. *)
Definition removal_body {B : Type}
    (load : gmap positive object → positive → option B) (test : B → bool)
    (node : positive) (st : list positive * gmap positive object)
    : option (list positive * gmap positive object) :=
  let '(l, m) := st in
  bind ← load m node;
  if test bind
  then m' ← mem_free node m; Some (list_remove l node, m')
  else Some (l, m).

Definition removal_hit {B : Type}
    (load : gmap positive object → positive → option B) (test : B → bool)
    (m : gmap positive object) (p : positive) : bool :=
  from_option test false (load m p).

(** The step of the bind dispatch loops, written once for a record kind
    read by [load], the test [applies], the handler call [run] and the
    record [mk] of that call, so that the keyboard and the mouse loop are
    covered by one lemma. *)
Definition bind_step {B : Type} (load : positive → option B)
    (applies : B → bool) (run : B → W → bool * W)
    (mk : positive → B → bool → Call)
    (node : positive) (st : bool * W * list Call)
    : option (bool * W * list Call) :=
  let '(ret, w, calls) := st in
  bind ← load node;
  if applies bind then
    let '(r, w') := run bind w in
    Some (if negb r then false else ret, w', calls ++ [mk node bind r])
  else Some (ret, w, calls).

(** Hook [k] is the first to answer false: the answers before it are
    true and its own is false. *)
Definition first_veto (answers : list bool) (k : nat) : Prop :=
  take (S k) answers = replicate k true ++ [false].


(** The records a bind entry point chooses from a list. *)
Definition chosen_key_binds (applies : KeyBind.t → bool)
    (m : gmap positive object) (from : option (list positive))
    : list positive :=
  filter (λ p, key_bind_applies applies m p) (default [] from).

Definition chosen_mouse_binds (applies : MouseBind.t → bool)
    (m : gmap positive object) (from : option (list positive))
    : list positive :=
  filter (λ p, mouse_bind_applies applies m p) (default [] from).

(** An entry point makes, for the records [chosen], the calls that
    [R] describes, in list order. *)
Definition dispatches_to (outcome : option (bool * W * list Call))
    (R : positive → Call → Prop) (chosen : list positive) : Prop :=
  ∃ ret w' calls,
    outcome = Some (ret, w', calls) ∧ Forall2 R chosen calls.

(** ** Reachable states

    One call of the library that changes its variables.  The keyboard
    event entry point and the six bind entry points leave them as they
    are. *)
Inductive api_call : InputState → InputState → Prop :=
  | call_initialize window s :
      api_call s (input_initialize window s)
  | call_shutdown s s' :
      input_shutdown s = Some s' → api_call s s'
  | call_add_hook event_id handler s s' :
      input_add_hook event_id handler s = Some s' → api_call s s'
  | call_remove_hook event_id handler s s' :
      input_remove_hook event_id handler s = Some s' → api_call s s'
  | call_add_key_bind key func data type s :
      api_call s (input_add_key_bind key func data type s).2
  | call_remove_key_bind_from_list key func type s s' :
      input_remove_key_bind_from_list key func type s = Some s' →
      api_call s s'
  | call_remove_key_bind bind s s' :
      input_remove_key_bind bind s = Some s' → api_call s s'
  | call_add_mouse_bind button area func data type s handle s' :
      input_add_mouse_bind button area func data type s = Some (handle, s') →
      api_call s s'
  | call_remove_mouse_bind_from_list button func type s s' :
      input_remove_mouse_bind_from_list button func type s = Some s' →
      api_call s s'
  | call_remove_mouse_bind bind s s' :
      input_remove_mouse_bind bind s = Some s' → api_call s s'
  | call_set_mousebind_button bind button s s' :
      input_set_mousebind_button bind button s = Some s' → api_call s s'
  | call_set_mousebind_rect bind area s s' :
      input_set_mousebind_rect bind area s = Some s' → api_call s s'
  | call_set_mousebind_func bind func s s' :
      input_set_mousebind_func bind func s = Some s' → api_call s s'
  | call_set_mousebind_param bind data s s' :
      input_set_mousebind_param bind data s = Some s' → api_call s s'
  | call_block_keys block s :
      api_call s (input_block_keys block s)
  | call_mouse_event type x y button wheel s w ret s' w' calls :
      input_handle_mouse_event type x y button wheel s w
      = Some (ret, s', w', calls) →
      api_call s s'.

(** The states the library can be in: those a run of calls leads to
    from the static initialisers. *)
Definition reachable (s : InputState) : Prop :=
  rtc api_call (initial_state NUM_INPUT_EVENTS) s.

(** ** A sample configuration

    Four event types; three hooks on event 0, the second of which
    vetoes; key and mouse binds in every list, two of the key-down
    binds registered with the same key and handler. *)

Definition sample_rect : rectangle_t :=
  {| rect_min_x := 0; rect_min_y := 0; rect_max_x := 10; rect_max_y := 10 |}.

Definition sample_key_bind (type : BINDTYPE_KB) (key : Z) (handler : fnptr)
    (data : Z) : object :=
  ObjKeyBind {| KeyBind.type := type; KeyBind.key := key;
                KeyBind.handler := handler; KeyBind.userdata := data |}.

Definition sample_mouse_bind (type : BINDTYPE_MOUSE) (button : MOUSEBTN)
    (handler : fnptr) (data : Z) : object :=
  ObjMouseBind {| MouseBind.type := type; MouseBind.bounds := sample_rect;
                  MouseBind.button := button; MouseBind.handler := handler;
                  MouseBind.userdata := data |}.

Definition sample_heap : gmap positive object :=
  list_to_map
    [(1%positive, ObjHook {| InputHookFunc.handler := 101 |});
     (2%positive, ObjHook {| InputHookFunc.handler := 102 |});
     (3%positive, ObjHook {| InputHookFunc.handler := 103 |});
     (4%positive, ObjHook {| InputHookFunc.handler := 101 |});
     (5%positive, sample_key_bind BIND_CHAR 13 201 900);
     (6%positive, sample_key_bind BIND_KEYUP 65 202 901);
     (7%positive, sample_key_bind BIND_KEYDOWN 65 201 902);
     (8%positive, sample_key_bind BIND_KEYDOWN 66 201 903);
     (9%positive, sample_key_bind BIND_KEYDOWN 65 201 904);
     (10%positive, sample_mouse_bind BIND_BTNUP 1 301 905);
     (11%positive, sample_mouse_bind BIND_BTNUP 1 302 906);
     (12%positive, sample_mouse_bind BIND_BTNDOWN 2 301 907);
     (13%positive, sample_mouse_bind BIND_MOVE 0 301 908)].

Definition sample_state : InputState :=
  {| input_initialized := true; block_keys := false; show_cursor := true;
     mouse_x := 3; mouse_y := 4;
     input_hooks :=
       [Some [1; 2; 3]; Some []; Some [4]; Some []]%positive;
     char_binds := Some [5%positive];
     key_up_binds := Some [6%positive];
     key_down_binds := Some [7; 8; 9]%positive;
     mouse_up_binds := Some [10; 11]%positive;
     mouse_down_binds := Some [12%positive];
     mouse_move_binds := Some [13%positive];
     heap := sample_heap |}.

(** The sample state with the keyboard block switched on. *)
Definition blocked_state : InputState := input_block_keys true sample_state.

(** Sample handlers over a call counter: hook 102, key handler 202 and
    mouse handler 302 answer false, every other handler true. *)
Definition sample_input_handler (h : fnptr) (_ : InputEvent) (_ : View)
    (w : nat) : bool * nat :=
  (negb (h =? 102), S w).

Definition sample_keybind_func (h : fnptr) (_ _ : Z) (_ : View) (w : nat)
    : bool * nat :=
  (negb (h =? 202), S w).

Definition sample_mousebind_func (h : fnptr) (_ : MOUSEBTN) (_ _ _ : Z)
    (_ : View) (w : nat) : bool * nat :=
  (negb (h =? 302), S w).

(** ** Entry points by bind kind

    The dispatch entry point that walks the list of a key bind kind, and
    whether a record registered with [key] passes its test when [k] is
    dispatched. *)
Definition key_bind_entry_point (type : BINDTYPE_KB)
    : Z → InputState → W → option (bool * W * list Call) :=
  match type with
  | BIND_CHAR => input_handle_char_bind
  | BIND_KEYUP => input_handle_key_up_bind
  | BIND_KEYDOWN => input_handle_key_down_bind
  end.

Definition key_bind_fires (type : BINDTYPE_KB) (key k : Z) : bool :=
  match type with
  | BIND_CHAR => true
  | BIND_KEYUP | BIND_KEYDOWN => k =? key
  end.

(** The same for the mouse bind kinds: the entry point of a kind, the
    test it makes on a record when [button] is dispatched at [(x, y)],
    and the button it hands to the handlers. *)
Definition mouse_bind_entry_point (type : BINDTYPE_MOUSE)
    (button : MOUSEBTN) (x y : Z)
    : InputState → W → option (bool * W * list Call) :=
  match type with
  | BIND_MOVE => input_handle_mouse_move_bind x y
  | BIND_BTNUP => input_handle_mouse_up_bind button x y
  | BIND_BTNDOWN => input_handle_mouse_down_bind button x y
  end.

Definition mouse_bind_fires (type : BINDTYPE_MOUSE) (button : MOUSEBTN)
    (x y : Z) (bind : MouseBind.t) : bool :=
  match type with
  | BIND_MOVE => rect_is_point_in (MouseBind.bounds bind) x y
  | BIND_BTNUP | BIND_BTNDOWN =>
      (MouseBind.button bind =? button) &&
      rect_is_point_in (MouseBind.bounds bind) x y
  end.

Definition mouse_bind_argument (type : BINDTYPE_MOUSE) (button : MOUSEBTN)
    : MOUSEBTN :=
  match type with
  | BIND_MOVE => MOUSE_NONE
  | BIND_BTNUP | BIND_BTNDOWN => button
  end.

(** What one of the four stores through a mouse bind handle does to the
    record [b] at [p]. *)
Definition stores_field (p : addr) (b b' : MouseBind.t) (s s' : InputState)
    : Prop :=
  (∃ button, input_set_mousebind_button (Some p) button s = Some s' ∧
             b' = MouseBind.with_button button b) ∨
  (∃ area, input_set_mousebind_rect (Some p) (Some area) s = Some s' ∧
           b' = MouseBind.with_bounds area b) ∨
  (∃ func, input_set_mousebind_func (Some p) func s = Some s' ∧
           b' = MouseBind.with_handler func b) ∨
  (∃ data, input_set_mousebind_param (Some p) data s = Some s' ∧
           b' = MouseBind.with_userdata data b).

(** Proof helper: drop the section's parameters from the context
    before a solver that would otherwise record them. *)
Ltac forget_handlers :=
  try clear call_mousebind_func; try clear call_keybind_func;
  try clear call_input_handler; try clear W; try clear MOUSE_NONE.

(** ** Memory lemmas *)

Lemma mem_alloc_clean_fresh (m : gmap positive object) :
  m !! mem_alloc_clean m = None.
Proof.
  unfold mem_alloc_clean.
  apply (not_elem_of_dom (D:=gset positive)), is_fresh.
Qed.

Lemma mem_free_live (m : gmap positive object) p o :
  m !! p = Some o → mem_free p m = Some (delete p m).
Proof. unfold mem_free. by intros ->. Qed.

Lemma load_keybind_live (m : gmap positive object) p b :
  load_keybind m p = Some b → m !! p = Some (ObjKeyBind b).
Proof.
  unfold load_keybind. destruct (m !! p) as [[]|]; congruence.
Qed.

Lemma load_mousebind_live (m : gmap positive object) p b :
  load_mousebind m p = Some b → m !! p = Some (ObjMouseBind b).
Proof.
  unfold load_mousebind. destruct (m !! p) as [[]|]; congruence.
Qed.

Lemma load_hook_live (m : gmap positive object) p h :
  load_hook m p = Some h → m !! p = Some (ObjHook h).
Proof.
  unfold load_hook. destruct (m !! p) as [[]|]; congruence.
Qed.

Lemma foldr_delete_commute (m : gmap positive object) p l :
  foldr delete (delete p m) l = delete p (foldr delete m l).
Proof.
  induction l as [|q l IH]; simpl; [done|].
  by rewrite IH, delete_delete.
Qed.

Lemma lookup_foldr_delete_elem (m : gmap positive object) l p :
  p ∈ l → foldr delete m l !! p = None.
Proof.
  induction l as [|q l IH]; simpl; [by intros ?%elem_of_nil|].
  intros [->|Hin]%elem_of_cons.
  - apply lookup_delete_eq.
  - destruct (decide (q = p)) as [->|Hne].
    + apply lookup_delete_eq.
    + rewrite lookup_delete_ne by done. by apply IH.
Qed.

Lemma lookup_foldr_delete_other (m : gmap positive object) l p :
  p ∉ l → foldr delete m l !! p = m !! p.
Proof.
  induction l as [|q l IH]; simpl; [done|].
  intros [Hne Hnin]%not_elem_of_cons.
  rewrite lookup_delete_ne by done. by apply IH.
Qed.

(** ** List lemmas *)

Lemma filter_ext_elem {A} (P1 P2 : A → Prop)
    `{!∀ x, Decision (P1 x), !∀ x, Decision (P2 x)} (l : list A) :
  (∀ x, x ∈ l → P1 x ↔ P2 x) → filter P1 l = filter P2 l.
Proof.
  induction l as [|a l IH]; intros Hiff; [done|].
  assert (filter P1 l = filter P2 l) as Hl.
  { apply IH. intros x Hx. apply Hiff. by right. }
  destruct (decide (P1 a)) as [Ha|Ha].
  - rewrite !filter_cons_True; [by rewrite Hl| |done].
    apply Hiff; [by left|done].
  - rewrite !filter_cons_False; [done| |done].
    intros Ha'. apply Ha, Hiff; [by left|done].
Qed.

(** ** The bulk removal loop

    One statement for both removal routines: [load] reads a record of
    the list's kind and [test] is the condition of the [if]. *)
Section removal_loop.
Context {B : Type} (load : gmap positive object → positive → option B).
Context (test : B → bool).
Hypothesis load_live :
  ∀ m p b, load m p = Some b → is_Some (m !! p).
Hypothesis load_delete_ne :
  ∀ m p q, p ≠ q → load (delete q m) p = load m p.

Lemma removal_hits_delete m q (rest : list positive) :
  q ∉ rest →
  filter (λ p, removal_hit load test (delete q m) p) rest
  = filter (λ p, removal_hit load test m p) rest.
Proof using load_delete_ne.
  intros Hq. apply filter_ext_elem. intros p Hp. unfold removal_hit.
  rewrite load_delete_ne; [done|]. intros ->. done.
Qed.

Lemma filter_not_in_nil (cur : list positive) :
  filter (λ p, p ∉ @nil positive) cur = cur.
Proof.
  induction cur as [|c cur IH]; [done|].
  rewrite filter_cons_True by apply not_elem_of_nil. by rewrite IH.
Qed.

Lemma filter_not_in_cons (a : positive) hits (cur : list positive) :
  filter (λ p, p ∉ a :: hits) cur
  = filter (λ p, p ∉ hits) (list_remove cur a).
Proof.
  unfold list_remove. rewrite list_filter_filter.
  apply list_filter_iff. intros p. rewrite not_elem_of_cons. (forget_handlers; tauto).
Qed.

Lemma removal_loop_spec (rest : list positive) :
  ∀ cur m,
    NoDup rest →
    Forall (λ p, is_Some (load m p)) rest →
    list_foreach_safe rest (removal_body load test) (cur, m)
    = Some (filter (λ p, p ∉ filter (λ q, removal_hit load test m q) rest) cur,
            foldr delete m (filter (λ q, removal_hit load test m q) rest)).
Proof using load_live load_delete_ne.
  induction rest as [|a rest IH]; intros cur m Hnd Hlive.
  - simpl. by rewrite filter_not_in_nil.
  - apply NoDup_cons in Hnd as [Ha Hnd].
    apply Forall_cons in Hlive as [[b Hb] Hlive].
    cbn [list_foreach_safe]. unfold removal_body at 1.
    rewrite Hb. cbn [mbind option_bind].
    destruct (test b) eqn:Ht.
    + destruct (load_live _ _ _ Hb) as [o Ho].
      rewrite (mem_free_live _ _ _ Ho). cbn [mbind option_bind].
      rewrite IH; [|done|].
      2:{ apply Forall_forall. intros p Hp.
          rewrite load_delete_ne by (intros ->; done).
          by eapply Forall_forall in Hlive. }
      rewrite removal_hits_delete by done.
      rewrite (filter_cons_True _ a rest)
        by (unfold removal_hit; rewrite Hb; simpl; by rewrite Ht).
      cbn [foldr].
      rewrite filter_not_in_cons, foldr_delete_commute.
      reflexivity.
    + rewrite IH by done.
      rewrite (filter_cons_False _ a rest)
        by (unfold removal_hit; rewrite Hb; simpl; rewrite Ht; (forget_handlers; tauto)).
      done.
Qed.

(** Over the list itself the loop is a filter. *)
Lemma removal_loop_filter (l : list positive) m :
  NoDup l →
  Forall (λ p, is_Some (load m p)) l →
  list_foreach_safe l (removal_body load test) (l, m)
  = Some (filter (λ p, negb (removal_hit load test m p)) l,
          foldr delete m (filter (λ q, removal_hit load test m q) l)).
Proof using load_live load_delete_ne.
  intros Hnd Hlive. rewrite removal_loop_spec by done.
  f_equal. f_equal. apply filter_ext_elem.
  intros p Hp. rewrite list_elem_of_filter.
  destruct (removal_hit load test m p); simpl; (forget_handlers; tauto).
Qed.
End removal_loop.

(** ** Reading the invariant *)

Lemma nodes_of_app (l1 l2 : list (option (list positive))) :
  nodes_of (l1 ++ l2) = nodes_of l1 ++ nodes_of l2.
Proof. unfold nodes_of. by rewrite fmap_app, join_app. Qed.

Lemma nodes_of_elem (lists : list (option (list positive))) l p :
  Some l ∈ lists → p ∈ l → p ∈ nodes_of lists.
Proof.
  intros Hl Hp. unfold nodes_of. apply list_elem_of_join.
  exists l. split; [done|].
  apply list_elem_of_fmap. by exists (Some l).
Qed.

Lemma nodes_of_NoDup (lists : list (option (list positive))) l :
  NoDup (nodes_of lists) → Some l ∈ lists → NoDup l.
Proof.
  induction lists as [|o lists IH]; [by intros _ ?%elem_of_nil|].
  change (nodes_of (o :: lists)) with (default [] o ++ nodes_of lists).
  intros [H1 [_ H2]]%NoDup_app [<-|Hin]%elem_of_cons; [done|by apply IH].
Qed.

Lemma key_bind_list_elem t s l :
  key_bind_list t s = Some l → Some l ∈ input_hooks s ++ bind_lists s.
Proof.
  intros <-. apply elem_of_app. right. unfold bind_lists.
  destruct t; simpl; (forget_handlers; set_solver).
Qed.

Lemma mouse_bind_list_elem t s l :
  mouse_bind_list t s = Some l → Some l ∈ input_hooks s ++ bind_lists s.
Proof.
  intros <-. apply elem_of_app. right. unfold bind_lists.
  destruct t; simpl; (forget_handlers; set_solver).
Qed.

Lemma hook_list_elem i s l :
  hook_list i s = Some l → Some l ∈ input_hooks s.
Proof.
  unfold hook_list. destruct (input_hooks s !! i) as [o|] eqn:Hi; [|done].
  simpl. intros ->. by eapply list_elem_of_lookup_2.
Qed.

Lemma wf_key_bind_list s t l :
  wf s → key_bind_list t s = Some l →
  NoDup l ∧ Forall (keybind_at (heap s) t) l.
Proof.
  intros (_ & _ & Hnd & _ & Hk & _) Hl. split.
  - eapply nodes_of_NoDup; [exact Hnd|by eapply key_bind_list_elem].
  - rewrite Forall_forall in Hk. specialize (Hk t).
    rewrite Hl in Hk. apply Hk. destruct t; (forget_handlers; set_solver).
Qed.

Lemma wf_mouse_bind_list s t l :
  wf s → mouse_bind_list t s = Some l →
  NoDup l ∧ Forall (mousebind_at (heap s) t) l.
Proof.
  intros (_ & _ & Hnd & _ & _ & Hm) Hl. split.
  - eapply nodes_of_NoDup; [exact Hnd|by eapply mouse_bind_list_elem].
  - rewrite Forall_forall in Hm. specialize (Hm t).
    rewrite Hl in Hm. apply Hm. destruct t; (forget_handlers; set_solver).
Qed.

Lemma wf_hook_list s i l :
  wf s → hook_list i s = Some l →
  NoDup l ∧ Forall (hook_at (heap s)) l.
Proof.
  intros (_ & _ & Hnd & Hh & _) Hl%hook_list_elem. split.
  - eapply nodes_of_NoDup; [exact Hnd|]. apply elem_of_app. by left.
  - rewrite Forall_forall in Hh. apply Forall_forall. intros p Hp.
    apply Hh. by eapply nodes_of_elem.
Qed.

Lemma wf_hook_list_some s i :
  wf s → input_initialized s = true → (i < NUM_INPUT_EVENTS)%nat →
  is_Some (hook_list i s).
Proof.
  intros (Hlen & Hinit & _) Hi Hlt.
  specialize (Hinit Hi). apply Forall_app in Hinit as [Hh _].
  unfold hook_list.
  destruct (lookup_lt_is_Some_2 (input_hooks s) i) as [o Ho]; [lia|].
  rewrite Ho. simpl. rewrite Forall_forall in Hh. apply Hh.
  by eapply list_elem_of_lookup_2.
Qed.

Lemma keybind_at_load m t p :
  keybind_at m t p → ∃ b, load_keybind m p = Some b ∧ KeyBind.type b = t.
Proof.
  unfold keybind_at. destruct (load_keybind m p) as [b|]; [|done].
  simpl. intros [= <-]. by exists b.
Qed.

Lemma mousebind_at_load m t p :
  mousebind_at m t p →
  ∃ b, load_mousebind m p = Some b ∧ MouseBind.type b = t.
Proof.
  unfold mousebind_at. destruct (load_mousebind m p) as [b|]; [|done].
  simpl. intros [= <-]. by exists b.
Qed.

Lemma load_keybind_delete_ne (m : gmap positive object) p q :
  p ≠ q → load_keybind (delete q m) p = load_keybind m p.
Proof. intros Hne. unfold load_keybind. by rewrite lookup_delete_ne. Qed.

Lemma load_mousebind_delete_ne (m : gmap positive object) p q :
  p ≠ q → load_mousebind (delete q m) p = load_mousebind m p.
Proof. intros Hne. unfold load_mousebind. by rewrite lookup_delete_ne. Qed.

(** ** Bulk removal *)

Lemma input_remove_key_bind_from_list_spec s key func type l :
  wf s → input_initialized s = true → key_bind_list type s = Some l →
  input_remove_key_bind_from_list key func type s
  = Some (set_key_bind_list type
            (Some (filter (λ p, negb (key_bind_selected (heap s) key func p))
                     l))
            (set_heap
               (foldr delete (heap s)
                  (filter (λ p, key_bind_selected (heap s) key func p) l))
               s)).
Proof.
  intros Hwf Hinit Hl.
  destruct (wf_key_bind_list _ _ _ Hwf Hl) as [Hnd Hat].
  unfold input_remove_key_bind_from_list. rewrite Hinit, Hl. simpl.
  change (list_foreach_safe l _ (l, heap s)) with
    (list_foreach_safe l
       (removal_body load_keybind
          (λ bind, (KeyBind.key bind =? key) &&
                   (KeyBind.handler bind =? func)))
       (l, heap s)).
  rewrite removal_loop_filter; [done| | |done|].
  - intros m p b Hb. rewrite (load_keybind_live _ _ _ Hb). by eexists.
  - apply load_keybind_delete_ne.
  - eapply Forall_impl; [exact Hat|]. intros p Hp.
    destruct (keybind_at_load _ _ _ Hp) as (b & -> & _). by eexists.
Qed.

Lemma input_remove_mouse_bind_from_list_spec s button func type l :
  wf s → input_initialized s = true → mouse_bind_list type s = Some l →
  input_remove_mouse_bind_from_list button func type s
  = Some (set_mouse_bind_list type
            (Some (filter
                     (λ p, negb (mouse_bind_selected (heap s) button func p))
                     l))
            (set_heap
               (foldr delete (heap s)
                  (filter (λ p, mouse_bind_selected (heap s) button func p)
                     l))
               s)).
Proof.
  intros Hwf Hinit Hl.
  destruct (wf_mouse_bind_list _ _ _ Hwf Hl) as [Hnd Hat].
  unfold input_remove_mouse_bind_from_list. rewrite Hinit, Hl. simpl.
  change (list_foreach_safe l _ (l, heap s)) with
    (list_foreach_safe l
       (removal_body load_mousebind
          (λ bind, (MouseBind.button bind =? button) &&
                   negb (MouseBind.handler bind =? func)))
       (l, heap s)).
  rewrite removal_loop_filter; [done| | |done|].
  - intros m p b Hb. rewrite (load_mousebind_live _ _ _ Hb). by eexists.
  - apply load_mousebind_delete_ne.
  - eapply Forall_impl; [exact Hat|]. intros p Hp.
    destruct (mousebind_at_load _ _ _ Hp) as (b & -> & _). by eexists.
Qed.

(** ** Sequences of calls *)

Lemma calls_from_app w1 c1 w2 c2 w3 :
  calls_from w1 c1 w2 → calls_from w2 c2 w3 → calls_from w1 (c1 ++ c2) w3.
Proof.
  induction 1 as [|w c w' calls w'' Hc _ IH]; intros H2; [done|].
  simpl. econstructor; [exact Hc|by apply IH].
Qed.

Lemma calls_from_one w c w' :
  exec_call c w = (call_result c, w') → calls_from w [c] w'.
Proof. intros Hc. econstructor; [exact Hc|constructor]. Qed.

(** ** The bind dispatch loop *)
Section bind_loop.
Context {B : Type} (load : positive → option B) (applies : B → bool).
Context (run : B → W → bool * W) (mk : positive → B → bool → Call).
Hypothesis mk_result : ∀ p b r, call_result (mk p b r) = r.
Hypothesis mk_exec : ∀ p b r w, exec_call (mk p b r) w = run b w.

Lemma bind_loop_spec (l : list positive) :
  ∀ ret w calls,
    Forall (λ p, is_Some (load p)) l →
    ∃ w' new,
      list_foreach_safe l (bind_step load applies run mk) (ret, w, calls)
      = Some (ret && forallb call_result new, w', calls ++ new) ∧
      calls_from w new w' ∧
      Forall2 (λ p c, ∃ b, load p = Some b ∧ c = mk p b (call_result c))
        (filter (λ p, from_option applies false (load p)) l) new.
Proof using mk_result mk_exec.
  induction l as [|a l IH]; intros ret w calls Hl.
  - exists w, []. simpl. rewrite andb_true_r, app_nil_r.
    repeat split; constructor.
  - apply Forall_cons in Hl as [[b Hb] Hl].
    cbn [list_foreach_safe]. unfold bind_step at 1.
    rewrite Hb. cbn [mbind option_bind].
    destruct (applies b) eqn:Happ.
    + destruct (run b w) as [r w1] eqn:Hrun.
      destruct (IH (if negb r then false else ret) w1
                  (calls ++ [mk a b r]) Hl)
        as (w' & new & -> & Hfrom & Hcalls).
      exists w', (mk a b r :: new). split; [|split].
      * f_equal. rewrite <- app_assoc. simpl.
        rewrite mk_result. by destruct r, ret.
      * econstructor; [|exact Hfrom].
        by rewrite mk_exec, mk_result.
      * rewrite filter_cons_True by (rewrite Hb; simpl; by rewrite Happ).
        constructor; [|done]. exists b. by rewrite mk_result.
    + destruct (IH ret w calls Hl) as (w' & new & -> & Hfrom & Hcalls).
      exists w', new. split; [done|]. split; [done|].
      by rewrite filter_cons_False
        by (rewrite Hb; simpl; rewrite Happ; (forget_handlers; tauto)).
Qed.
End bind_loop.

Lemma call_key_binds_spec applies key m seen l w :
  Forall (λ p, is_Some (load_keybind m p)) l →
  ∃ w' calls,
    call_key_binds applies key m seen l w
    = Some (forallb call_result calls, w', calls) ∧
    calls_from w calls w' ∧
    Forall2 (key_bind_call m key seen)
      (filter (λ p, key_bind_applies applies m p) l) calls.
Proof.
  intros Hl.
  destruct (bind_loop_spec (load_keybind m) applies
              (λ bind, call_keybind_func (KeyBind.handler bind) key
                         (KeyBind.userdata bind) seen)
              (λ node bind r, KeyBindCall node (KeyBind.handler bind) key
                                (KeyBind.userdata bind) seen r)
              ltac:(done) ltac:(done) l true w [] Hl)
    as (w' & calls & Heq & Hfrom & Hcalls).
  exists w', calls. split; [exact Heq|]. split; [done|].
  exact Hcalls.
Qed.

Lemma call_mouse_binds_spec applies button x y m seen l w :
  Forall (λ p, is_Some (load_mousebind m p)) l →
  ∃ w' calls,
    call_mouse_binds applies button x y m seen l w
    = Some (forallb call_result calls, w', calls) ∧
    calls_from w calls w' ∧
    Forall2 (mouse_bind_call m button x y seen)
      (filter (λ p, mouse_bind_applies applies m p) l) calls.
Proof.
  intros Hl.
  destruct (bind_loop_spec (load_mousebind m) applies
              (λ bind, call_mousebind_func (MouseBind.handler bind) button
                         x y (MouseBind.userdata bind) seen)
              (λ node bind r, MouseBindCall node (MouseBind.handler bind)
                                button x y (MouseBind.userdata bind) seen r)
              ltac:(done) ltac:(done) l true w [] Hl)
    as (w' & calls & Heq & Hfrom & Hcalls).
  exists w', calls. split; [exact Heq|]. split; [done|].
  exact Hcalls.
Qed.

(** ** The hook loop *)

Lemma hook_handlers_cons m a l hook :
  load_hook m a = Some hook →
  hook_handlers m (a :: l) = InputHookFunc.handler hook :: hook_handlers m l.
Proof. intros Ha. unfold hook_handlers. simpl. by rewrite Ha. Qed.

Lemma hook_loop_spec m event seen (l : list positive) :
  ∀ w calls,
    Forall (hook_at m) l →
    ∃ w' new,
      calls_from w new w' ∧
      Forall2 (hook_call m event seen) (take (length new) l) new ∧
      ((list_foreach l (hook_step m event seen) (w, calls)
        = Some (inl (w', calls ++ new)) ∧
        length new = length l ∧ forallb call_result new = true)
       ∨
       (list_foreach l (hook_step m event seen) (w, calls)
        = Some (inr (false, w', calls ++ new)) ∧
        forallb call_result new = false)).
Proof.
  induction l as [|a l IH]; intros w calls Hl.
  - exists w, []. split; [constructor|]. split; [constructor|].
    left. simpl. by rewrite app_nil_r.
  - apply Forall_cons in Hl as [[hook Ha] Hl].
    cbn [list_foreach]. unfold hook_step at 1 3.
    rewrite Ha. cbn [mbind option_bind].
    destruct (call_input_handler (InputHookFunc.handler hook) event seen w)
      as [r w1] eqn:Hrun.
    set (c := HookCall a (InputHookFunc.handler hook) event seen r).
    assert (hook_call m event seen a c) as Hc by (by exists hook).
    destruct r; cbn [negb].
    + destruct (IH w1 (calls ++ [c]) Hl)
        as (w' & new & Hfrom & Hcalls & Hres).
      exists w', (c :: new). split.
      { econstructor; [exact Hrun|exact Hfrom]. }
      split; [by constructor|].
      rewrite <- !app_assoc in Hres. simpl in *.
      destruct Hres as [(-> & Hlen & Hall)|(-> & Hany)];
        [left|right]; repeat split; auto.
    + exists w1, [c]. split; [by apply calls_from_one|].
      split; [by repeat constructor|]. right. done.
Qed.

(** When the answer of hook [k] is the first false one, the loop calls
    the hooks up to [k] and returns false. *)
Lemma hook_loop_veto m event seen (l : list positive) :
  ∀ k w calls,
    Forall (hook_at m) l →
    hook_answers (hook_handlers m l) event seen w !! k = Some false →
    (∀ i, (i < k)%nat →
       hook_answers (hook_handlers m l) event seen w !! i = Some true) →
    ∃ w' new,
      list_foreach l (hook_step m event seen) (w, calls)
      = Some (inr (false, w', calls ++ new)) ∧
      calls_from w new w' ∧
      Forall2 (hook_call m event seen) (take (S k) l) new ∧
      call_result <$> new = replicate k true ++ [false].
Proof.
  induction l as [|a l IH]; intros k w calls Hl Hk Hlt.
  - simpl in Hk. done.
  - apply Forall_cons in Hl as [[hook Ha] Hl].
    rewrite (hook_handlers_cons _ _ _ _ Ha) in Hk, Hlt.
    cbn [hook_answers] in Hk, Hlt.
    cbn [list_foreach]. unfold hook_step at 1.
    rewrite Ha. cbn [mbind option_bind].
    destruct (call_input_handler (InputHookFunc.handler hook) event seen w)
      as [r w1] eqn:Hrun.
    set (c := HookCall a (InputHookFunc.handler hook) event seen r).
    assert (hook_call m event seen a c) as Hc by (by exists hook).
    destruct k as [|k].
    + simpl in Hk. injection Hk as ->. cbn [negb].
      exists w1, [c]. split; [done|]. split; [by apply calls_from_one|].
      split; [|done]. rewrite firstn_cons, take_0. by repeat constructor.
    + assert (r = true) as ->.
      { specialize (Hlt 0%nat ltac:(lia)). by injection Hlt. }
      cbn [negb]. simpl in Hk.
      destruct (IH k w1 (calls ++ [c]) Hl Hk) as (w' & new & -> & Hfrom & Hcalls & Hres).
      { intros i Hi. apply (Hlt (S i)). lia. }
      exists w', (c :: new). rewrite <- app_assoc.
      split; [done|]. split; [econstructor; [exact Hrun|exact Hfrom]|].
      split; [by constructor|]. rewrite fmap_cons, Hres. done.
Qed.

(** ** Bind dispatch entry points *)

Lemma wf_key_bind_list_some s t :
  wf s → input_initialized s = true → is_Some (key_bind_list t s).
Proof.
  intros (_ & Hinit & _) Hi. specialize (Hinit Hi).
  rewrite Forall_forall in Hinit. apply Hinit, elem_of_app. right.
  unfold bind_lists. destruct t; simpl; (forget_handlers; set_solver).
Qed.

Lemma wf_mouse_bind_list_some s t :
  wf s → input_initialized s = true → is_Some (mouse_bind_list t s).
Proof.
  intros (_ & Hinit & _) Hi. specialize (Hinit Hi).
  rewrite Forall_forall in Hinit. apply Hinit, elem_of_app. right.
  unfold bind_lists. destruct t; simpl; (forget_handlers; set_solver).
Qed.


Lemma mouse_bind_calls_nodes m button x y seen chosen calls :
  Forall2 (mouse_bind_call m button x y seen) chosen calls →
  call_node <$> calls = chosen.
Proof.
  induction 1 as [|p c chosen calls (b & _ & Hc) _ IH]; [done|].
  rewrite fmap_cons, IH. f_equal. by rewrite Hc.
Qed.

Lemma hook_calls_nodes m event seen chosen calls :
  Forall2 (hook_call m event seen) chosen calls →
  call_node <$> calls = chosen.
Proof.
  induction 1 as [|p c chosen calls (b & _ & Hc) _ IH]; [done|].
  rewrite fmap_cons, IH. f_equal. by rewrite Hc.
Qed.

(** The loop of a keyboard bind entry point on the list of kind [t]. *)
Lemma key_bind_dispatch_spec s t applies key w :
  wf s → input_initialized s = true →
  ∃ l w' calls,
    key_bind_list t s = Some l ∧
    call_key_binds applies key (heap s) (view_of s) l w
    = Some (forallb call_result calls, w', calls) ∧
    calls_from w calls w' ∧
    Forall2 (key_bind_call (heap s) key (view_of s))
      (chosen_key_binds applies (heap s) (key_bind_list t s)) calls.
Proof.
  intros Hwf Hinit.
  destruct (wf_key_bind_list_some s t Hwf Hinit) as [l Hl].
  destruct (wf_key_bind_list _ _ _ Hwf Hl) as [_ Hat].
  destruct (call_key_binds_spec applies key (heap s) (view_of s) l w)
    as (w' & calls & Heq & Hfrom & Hcalls).
  { eapply Forall_impl; [exact Hat|]. intros p Hp.
    destruct (keybind_at_load _ _ _ Hp) as (b & -> & _). by eexists. }
  exists l, w', calls. unfold chosen_key_binds. rewrite Hl. done.
Qed.

Lemma mouse_bind_dispatch_spec s t applies button x y w :
  wf s → input_initialized s = true →
  ∃ l w' calls,
    mouse_bind_list t s = Some l ∧
    call_mouse_binds applies button x y (heap s) (view_of s) l w
    = Some (forallb call_result calls, w', calls) ∧
    calls_from w calls w' ∧
    Forall2 (mouse_bind_call (heap s) button x y (view_of s))
      (chosen_mouse_binds applies (heap s) (mouse_bind_list t s)) calls.
Proof.
  intros Hwf Hinit.
  destruct (wf_mouse_bind_list_some s t Hwf Hinit) as [l Hl].
  destruct (wf_mouse_bind_list _ _ _ Hwf Hl) as [_ Hat].
  destruct (call_mouse_binds_spec applies button x y (heap s) (view_of s)
              l w)
    as (w' & calls & Heq & Hfrom & Hcalls).
  { eapply Forall_impl; [exact Hat|]. intros p Hp.
    destruct (mousebind_at_load _ _ _ Hp) as (b & -> & _). by eexists. }
  exists l, w', calls. unfold chosen_mouse_binds. rewrite Hl. done.
Qed.



Ltac bind_entry_point_calls spec :=
  let l := fresh "l" in
  let w' := fresh "w'" in
  let calls := fresh "calls" in
  let Hl := fresh "Hl" in
  let Heq := fresh "Heq" in
  let Hfrom := fresh "Hfrom" in
  let Hcalls := fresh "Hcalls" in
  destruct spec as (l & w' & calls & Hl & Heq & Hfrom & Hcalls);
  simpl in Hl, Hcalls; rewrite Hl in Hcalls |- *;
  exists (forallb call_result calls), w', calls; simpl;
  split; [exact Heq|exact Hcalls].

Lemma rect_is_point_in_closed r x y :
  rect_is_point_in r x y = true ↔
  rect_min_x r ≤ x ≤ rect_max_x r ∧ rect_min_y r ≤ y ≤ rect_max_y r.
Proof.
  unfold rect_is_point_in. rewrite !andb_true_iff, !Z.leb_le. (forget_handlers; tauto).
Qed.

(** Dispatch by the record stored: on an initialised system the
    key-down and key-up entry points call the records whose stored key
    is the input key, the char entry point every record, the move entry
    point the records whose rectangle holds [(x, y)], with [MOUSE_NONE]
    as the button, and the button entry points the records whose stored
    button is the dispatched one and whose rectangle holds [(x, y)]; the
    rectangle test is closed on the edges.  Each call is made with the
    handler and the userdata stored in the record. *)
Lemma bind_dispatch_by_stored_record s w key button x y :
  wf s → input_initialized s = true →
  dispatches_to (input_handle_key_down_bind key s w)
    (key_bind_call (heap s) key (view_of s))
    (chosen_key_binds (λ bind, key =? KeyBind.key bind) (heap s)
       (key_down_binds s)) ∧
  dispatches_to (input_handle_key_up_bind key s w)
    (key_bind_call (heap s) key (view_of s))
    (chosen_key_binds (λ bind, key =? KeyBind.key bind) (heap s)
       (key_up_binds s)) ∧
  dispatches_to (input_handle_char_bind key s w)
    (key_bind_call (heap s) key (view_of s))
    (chosen_key_binds (λ _, true) (heap s) (char_binds s)) ∧
  dispatches_to (input_handle_mouse_move_bind x y s w)
    (mouse_bind_call (heap s) MOUSE_NONE x y (view_of s))
    (chosen_mouse_binds
       (λ bind, rect_is_point_in (MouseBind.bounds bind) x y) (heap s)
       (mouse_move_binds s)) ∧
  dispatches_to (input_handle_mouse_up_bind button x y s w)
    (mouse_bind_call (heap s) button x y (view_of s))
    (chosen_mouse_binds
       (λ bind, (MouseBind.button bind =? button) &&
                rect_is_point_in (MouseBind.bounds bind) x y) (heap s)
       (mouse_up_binds s)) ∧
  dispatches_to (input_handle_mouse_down_bind button x y s w)
    (mouse_bind_call (heap s) button x y (view_of s))
    (chosen_mouse_binds
       (λ bind, (MouseBind.button bind =? button) &&
                rect_is_point_in (MouseBind.bounds bind) x y) (heap s)
       (mouse_down_binds s)) ∧
  (∀ r px py,
     rect_is_point_in r px py = true ↔
     rect_min_x r ≤ px ≤ rect_max_x r ∧ rect_min_y r ≤ py ≤ rect_max_y r) ∧
  (∀ k func data type,
     ∃ p s', input_add_key_bind k func data type s = (Some p, s') ∧
       load_keybind (heap s') p
       = Some {| KeyBind.type := type; KeyBind.key := k;
                 KeyBind.handler := func; KeyBind.userdata := data |}) ∧
  (∀ b area func data type,
     ∃ p s',
       input_add_mouse_bind b (Some area) func data type s
       = Some (Some p, s') ∧
       load_mousebind (heap s') p
       = Some {| MouseBind.type := type; MouseBind.bounds := area;
                 MouseBind.button := b; MouseBind.handler := func;
                 MouseBind.userdata := data |}).
Proof using Type call_input_handler.
  intros Hwf Hinit.
  unfold input_handle_char_bind, input_handle_key_down_bind,
    input_handle_key_up_bind, input_handle_mouse_move_bind,
    input_handle_mouse_up_bind, input_handle_mouse_down_bind.
  rewrite Hinit. cbn [negb].
  repeat apply conj.
  - bind_entry_point_calls
      (key_bind_dispatch_spec s BIND_KEYDOWN
         (λ bind, key =? KeyBind.key bind) key w Hwf Hinit).
  - bind_entry_point_calls
      (key_bind_dispatch_spec s BIND_KEYUP
         (λ bind, key =? KeyBind.key bind) key w Hwf Hinit).
  - bind_entry_point_calls
      (key_bind_dispatch_spec s BIND_CHAR (λ _, true) key w Hwf Hinit).
  - bind_entry_point_calls
      (mouse_bind_dispatch_spec s BIND_MOVE
         (λ bind, rect_is_point_in (MouseBind.bounds bind) x y)
         MOUSE_NONE x y w Hwf Hinit).
  - bind_entry_point_calls
      (mouse_bind_dispatch_spec s BIND_BTNUP
         (λ bind, (MouseBind.button bind =? button) &&
                  rect_is_point_in (MouseBind.bounds bind) x y)
         button x y w Hwf Hinit).
  - bind_entry_point_calls
      (mouse_bind_dispatch_spec s BIND_BTNDOWN
         (λ bind, (MouseBind.button bind =? button) &&
                  rect_is_point_in (MouseBind.bounds bind) x y)
         button x y w Hwf Hinit).
  - apply rect_is_point_in_closed.
  - intros k func data type.
    destruct (wf_key_bind_list_some s type Hwf Hinit) as [l Hl].
    unfold input_add_key_bind. rewrite Hinit, Hl. cbn [negb].
    eexists _, _. split; [reflexivity|].
    unfold load_keybind.
    destruct type; simpl; by rewrite lookup_insert_eq.
  - intros b area func data type.
    destruct (wf_mouse_bind_list_some s type Hwf Hinit) as [l Hl].
    unfold input_add_mouse_bind. rewrite Hinit, Hl. cbn [negb].
    eexists _, _. split; [reflexivity|].
    unfold load_mousebind.
    destruct type; simpl; by rewrite lookup_insert_eq.
Qed.

(** ** Event entry points *)

Lemma first_veto_lookup (answers : list bool) k :
  first_veto answers k →
  answers !! k = Some false ∧
  ∀ i, (i < k)%nat → answers !! i = Some true.
Proof.
  unfold first_veto. intros Htake. split.
  - rewrite <- (lookup_take_lt answers (S k) k) by lia. rewrite Htake.
    rewrite lookup_app_r by (rewrite length_replicate; lia).
    by rewrite length_replicate, Nat.sub_diag.
  - intros i Hi.
    rewrite <- (lookup_take_lt answers (S k) i) by lia. rewrite Htake.
    rewrite lookup_app_l by (rewrite length_replicate; lia).
    by apply lookup_replicate_2.
Qed.

Lemma list_empty_false (l : list positive) : l ≠ [] → list_empty l = false.
Proof. by destruct l. Qed.

Lemma first_veto_nonempty m event seen w (l : list positive) k :
  first_veto (hook_answers (hook_handlers m l) event seen w) k → l ≠ [].
Proof. intros [Hk _]%first_veto_lookup ->. by simpl in Hk. Qed.

(** C3.  With hooks [l] registered for a known event type on an
    initialised system, if hook [k] is the first whose answer is false
    then [input_handle_keyboard_event], and likewise
    [input_handle_mouse_event], calls hooks [0..k] once each in
    registration order, calls none of the later hooks, and returns
    false. *)
Theorem hooks_stop_at_first_veto s type l k :
  wf s → input_initialized s = true → (type < NUM_INPUT_EVENTS)%nat →
  hook_list type s = Some l →
  (∀ key w,
     first_veto
       (hook_answers (hook_handlers (heap s) l) (KeyboardEvent type key)
          (view_of s) w) k →
     ∃ w' calls,
       input_handle_keyboard_event type key s w = Some (false, w', calls) ∧
       call_node <$> calls = take (S k) l ∧
       call_result <$> calls = replicate k true ++ [false] ∧
       calls_from w calls w' ∧
       Forall2 (hook_call (heap s) (KeyboardEvent type key) (view_of s))
         (take (S k) l) calls) ∧
  (∀ x y button wheel w,
     let event := MouseEvent type x y (x - mouse_x s) (y - mouse_y s)
                    (to_uint8 button) (to_uint8 wheel) in
     let s' := set_mouse_pos x y s in
     first_veto
       (hook_answers (hook_handlers (heap s) l) event (view_of s') w) k →
     ∃ w' calls,
       input_handle_mouse_event type x y button wheel s w
       = Some (false, s', w', calls) ∧
       call_node <$> calls = take (S k) l ∧
       call_result <$> calls = replicate k true ++ [false] ∧
       calls_from w calls w' ∧
       Forall2 (hook_call (heap s) event (view_of s')) (take (S k) l)
         calls) ∧
  NoDup l ∧
  (∀ j p, (k < j)%nat → l !! j = Some p → p ∉ take (S k) l).
Proof.
  intros Hwf Hinit Htype Hl.
  destruct (wf_hook_list _ _ _ Hwf Hl) as [Hnd Hat].
  apply Nat.leb_gt in Htype. split; [|split; [|split; [exact Hnd|]]].
  - intros key w Hveto.
    pose proof (first_veto_nonempty _ _ _ _ _ _ Hveto) as Hne.
    destruct (first_veto_lookup _ _ Hveto) as [Hk Hlt].
    destruct (hook_loop_veto _ _ _ l k w [] Hat Hk Hlt)
      as (w' & calls & Heq & Hfrom & Hcalls & Hres).
    exists w', calls. unfold input_handle_keyboard_event, call_hooks.
    rewrite Hinit, Htype, Hl. cbn [negb mbind option_bind].
    rewrite (list_empty_false _ Hne), Heq. simpl.
    repeat split; try done. by eapply hook_calls_nodes.
  - intros x y button wheel w event s' Hveto.
    pose proof (first_veto_nonempty _ _ _ _ _ _ Hveto) as Hne.
    destruct (first_veto_lookup _ _ Hveto) as [Hk Hlt].
    destruct (hook_loop_veto _ _ _ l k w [] Hat Hk Hlt)
      as (w' & calls & Heq & Hfrom & Hcalls & Hres).
    exists w', calls. unfold input_handle_mouse_event, call_hooks.
    rewrite Hinit, Htype, Hl. cbn [negb mbind option_bind].
    rewrite (list_empty_false _ Hne).
    change (heap (set_mouse_pos x y s)) with (heap s).
    fold event. fold s'. rewrite Heq. simpl.
    repeat split; try done. by eapply hook_calls_nodes.
  - intros j p Hj Hp [i Hi]%list_elem_of_lookup.
    pose proof (lookup_lt_Some _ _ _ Hi) as Hlt.
    rewrite length_take in Hlt.
    rewrite lookup_take_lt in Hi by lia.
    pose proof (NoDup_lookup _ _ _ _ Hnd Hi Hp). lia.
Qed.

(** The keyboard entry point on a list of live hook records. *)
Lemma input_handle_keyboard_event_spec s type key w l :
  input_initialized s = true → (type < NUM_INPUT_EVENTS)%nat →
  hook_list type s = Some l → Forall (hook_at (heap s)) l →
  ∃ ret w' calls,
    input_handle_keyboard_event type key s w = Some (ret, w', calls) ∧
    calls_from w calls w' ∧
    Forall2 (hook_call (heap s) (KeyboardEvent type key) (view_of s))
      (take (length calls) l) calls ∧
    ret = (if block_keys s then list_empty l
           else forallb call_result calls) ∧
    (forallb call_result calls = true → call_node <$> calls = l).
Proof.
  intros Hinit Htype Hl Hat.
  apply Nat.leb_gt in Htype.
  unfold input_handle_keyboard_event, call_hooks.
  rewrite Hinit, Htype, Hl. cbn [negb mbind option_bind].
  destruct l as [|a l]; cbn [list_empty].
  { exists true, w, []. repeat split; try constructor.
    by destruct (block_keys s). }
  destruct (hook_loop_spec (heap s) (KeyboardEvent type key) (view_of s)
              (a :: l) w [] Hat)
    as (w' & calls & Hfrom & Hcalls & [(Heq & Hlen & Hall)|(Heq & Hany)]);
    rewrite Heq; cbn [mbind option_bind app].
  - exists (negb (block_keys s)), w', calls.
    split; [by destruct (block_keys s)|]. split; [done|]. split; [done|].
    split; [rewrite Hall; by destruct (block_keys s)|].
    intros _. rewrite Hlen, firstn_all in Hcalls.
    by eapply hook_calls_nodes.
  - exists false, w', calls. rewrite Hany.
    repeat split; try done. by destruct (block_keys s).
Qed.

(** C5.  On an initialised system and for a known event type with
    hooks [l], [input_handle_keyboard_event] returns false when the
    keyboard block is set and [l] is not empty, whatever the hooks
    answered; when the block is clear it returns true exactly when
    every hook it called answered true.  If every call answered true,
    every hook of [l] has been called. *)
Theorem keyboard_block_forces_suppress s type key w l :
  wf s → input_initialized s = true → (type < NUM_INPUT_EVENTS)%nat →
  hook_list type s = Some l →
  ∃ ret w' calls,
    input_handle_keyboard_event type key s w = Some (ret, w', calls) ∧
    calls_from w calls w' ∧
    Forall2 (hook_call (heap s) (KeyboardEvent type key) (view_of s))
      (take (length calls) l) calls ∧
    ret = (if block_keys s then list_empty l
           else forallb call_result calls) ∧
    (forallb call_result calls = true → call_node <$> calls = l).
Proof.
  intros Hwf Hinit Htype Hl.
  destruct (wf_hook_list _ _ _ Hwf Hl) as [_ Hat].
  by apply input_handle_keyboard_event_spec.
Qed.

(** C6.  When [input_handle_mouse_event] reaches its hooks, on an
    initialised system and for a known event type with at least one
    hook, the stored cursor position is [(x, y)] before the first hook
    is called: every hook reads [(x, y)] back from the library, and it
    is handed an event whose [dx] and [dy] are [x] and [y] minus the
    position stored when the function was entered. *)
Theorem mouse_event_moves_cursor_before_hooks s type x y button wheel w l :
  wf s → input_initialized s = true → (type < NUM_INPUT_EVENTS)%nat →
  hook_list type s = Some l → l ≠ [] →
  ∃ ret w' calls,
    input_handle_mouse_event type x y button wheel s w
    = Some (ret, set_mouse_pos x y s, w', calls) ∧
    input_get_cursor_pos (set_mouse_pos x y s) = (x, y) ∧
    calls ≠ [] ∧
    calls_from w calls w' ∧
    Forall (λ c, ∃ node h,
              c = HookCall node h
                    (MouseEvent type x y (x - mouse_x s) (y - mouse_y s)
                       (to_uint8 button) (to_uint8 wheel))
                    {| cursor_x := x; cursor_y := y;
                       cursor_showing := show_cursor s |}
                    (call_result c))
      calls.
Proof.
  intros Hwf Hinit Htype Hl Hne.
  destruct (wf_hook_list _ _ _ Hwf Hl) as [_ Hat].
  apply Nat.leb_gt in Htype.
  unfold input_handle_mouse_event, call_hooks.
  rewrite Hinit, Htype, Hl. cbn [negb mbind option_bind].
  rewrite (list_empty_false _ Hne).
  change (heap (set_mouse_pos x y s)) with (heap s).
  set (event := MouseEvent type x y (x - mouse_x s) (y - mouse_y s)
                  (to_uint8 button) (to_uint8 wheel)).
  destruct (hook_loop_spec (heap s) event (view_of (set_mouse_pos x y s))
              l w [] Hat)
    as (w' & calls & Hfrom & Hcalls & Hcase).
  assert (Forall (λ c, ∃ node h,
                    c = HookCall node h event
                          {| cursor_x := x; cursor_y := y;
                             cursor_showing := show_cursor s |}
                          (call_result c)) calls) as Hshape.
  { clear -Hcalls. induction Hcalls as [|p c ps cs (hook & _ & Hc) _ IH];
      constructor; [|done]. by eexists _, _. }
  destruct Hcase as [(Heq & Hlen & Hall)|(Heq & Hany)];
    rewrite Heq; cbn [mbind option_bind app].
  - exists true, w', calls. repeat split; try done.
    intros ->. destruct l; [done|]. simpl in Hlen. lia.
  - exists false, w', calls. repeat split; try done.
    intros ->. simpl in Hany. done.
Qed.

(** ** Removal *)



Lemma remove_hook_loop s event_id handler l (rest : list positive) :
  Forall (hook_at (heap s)) rest →
  list_foreach rest
    (λ node (_ : unit),
       hook ← load_hook (heap s) node;
       if handler =? InputHookFunc.handler hook
       then m' ← mem_free node (heap s);
            Some (inr (set_input_hooks
                         (<[event_id := Some (list_remove l node)]>
                            (input_hooks s))
                         (set_heap m' s)))
       else Some (inl ()))
    ()
  = Some match head (filter (λ p, hook_has_handler (heap s) handler p) rest)
         with
         | Some p =>
             inr (set_input_hooks
                    (<[event_id := Some (list_remove l p)]> (input_hooks s))
                    (set_heap (delete p (heap s)) s))
         | None => inl ()
         end.
Proof.
  induction rest as [|a rest IH]; intros Hat; [done|].
  apply Forall_cons in Hat as [[hook Ha] Hat].
  cbn [list_foreach]. rewrite Ha. cbn [mbind option_bind].
  destruct (handler =? InputHookFunc.handler hook) eqn:Heq.
  - rewrite (mem_free_live _ _ _ (load_hook_live _ _ _ Ha)).
    cbn [mbind option_bind].
    rewrite filter_cons_True
      by (unfold hook_has_handler; rewrite Ha; by rewrite Heq).
    done.
  - rewrite filter_cons_False
      by (unfold hook_has_handler; rewrite Ha, Heq; (forget_handlers; tauto)).
    by apply IH.
Qed.

Lemma input_remove_hook_spec s event_id handler l :
  wf s → input_initialized s = true →
  (event_id < NUM_INPUT_EVENTS)%nat → hook_list event_id s = Some l →
  input_remove_hook event_id handler s
  = Some match head (filter (λ p, hook_has_handler (heap s) handler p) l)
         with
         | Some p =>
             set_input_hooks
               (<[event_id := Some (list_remove l p)]> (input_hooks s))
               (set_heap (delete p (heap s)) s)
         | None => s
         end.
Proof.
  intros Hwf Hinit Hid Hl.
  destruct (wf_hook_list _ _ _ Hwf Hl) as [_ Hat].
  apply Nat.leb_gt in Hid.
  unfold input_remove_hook.
  rewrite Hinit, Hid, Hl. cbn [negb mbind option_bind].
  rewrite (remove_hook_loop s event_id handler l l Hat).
  cbn [mbind option_bind].
  by destruct (head (filter _ l)).
Qed.

Lemma mouse_bind_selected_iff m button func p bind :
  load_mousebind m p = Some bind →
  mouse_bind_selected m button func p = true ↔
  MouseBind.button bind = button ∧ MouseBind.handler bind ≠ func.
Proof.
  intros Hb. unfold mouse_bind_selected. rewrite Hb.
  rewrite andb_true_iff, negb_true_iff, Z.eqb_eq, Z.eqb_neq. done.
Qed.

Lemma key_bind_selected_iff m key func p bind :
  load_keybind m p = Some bind →
  key_bind_selected m key func p = true ↔
  KeyBind.key bind = key ∧ KeyBind.handler bind = func.
Proof.
  intros Hb. unfold key_bind_selected. rewrite Hb.
  rewrite andb_true_iff, !Z.eqb_eq. done.
Qed.

(** C1.  On an initialised system the bulk mouse bind removal takes
    out of the selected list, and frees, exactly the records whose
    stored button is the requested button and whose stored handler is
    not the requested handler; the bulk key bind removal takes out and
    frees exactly the records whose stored key and handler are both the
    requested ones.  The four public mouse removal functions are calls
    of the mouse routine. *)
Theorem bulk_removal_selectors s button mfunc mtype ml key kfunc ktype kl :
  wf s → input_initialized s = true →
  mouse_bind_list mtype s = Some ml →
  key_bind_list ktype s = Some kl →
  input_remove_mouse_bind_from_list button mfunc mtype s
  = Some (set_mouse_bind_list mtype
            (Some (filter
                     (λ p, negb (mouse_bind_selected (heap s) button mfunc p))
                     ml))
            (set_heap
               (foldr delete (heap s)
                  (filter (λ p, mouse_bind_selected (heap s) button mfunc p)
                     ml))
               s)) ∧
  input_remove_key_bind_from_list key kfunc ktype s
  = Some (set_key_bind_list ktype
            (Some (filter
                     (λ p, negb (key_bind_selected (heap s) key kfunc p))
                     kl))
            (set_heap
               (foldr delete (heap s)
                  (filter (λ p, key_bind_selected (heap s) key kfunc p) kl))
               s)) ∧
  (∀ p bind, load_mousebind (heap s) p = Some bind →
     mouse_bind_selected (heap s) button mfunc p = true ↔
     MouseBind.button bind = button ∧ MouseBind.handler bind ≠ mfunc) ∧
  (∀ p bind, load_keybind (heap s) p = Some bind →
     key_bind_selected (heap s) key kfunc p = true ↔
     KeyBind.key bind = key ∧ KeyBind.handler bind = kfunc) ∧
  input_remove_mouse_move_bind mfunc s
  = input_remove_mouse_bind_from_list MOUSE_NONE mfunc BIND_MOVE s ∧
  input_remove_mousebtn_up_bind button mfunc s
  = input_remove_mouse_bind_from_list button mfunc BIND_BTNUP s ∧
  input_remove_mousebtn_down_bind button mfunc s
  = input_remove_mouse_bind_from_list button mfunc BIND_BTNDOWN s ∧
  (∀ p bind, load_mousebind (heap s) p = Some bind →
     input_remove_mouse_bind (Some p) s
     = input_remove_mouse_bind_from_list (MouseBind.button bind)
         (MouseBind.handler bind) (MouseBind.type bind) s).
Proof.
  intros Hwf Hinit Hml Hkl.
  split; [by apply input_remove_mouse_bind_from_list_spec|].
  split; [by apply input_remove_key_bind_from_list_spec|].
  split; [intros p bind Hb; by apply mouse_bind_selected_iff|].
  split; [intros p bind Hb; by apply key_bind_selected_iff|].
  repeat split.
  intros p bind Hb. unfold input_remove_mouse_bind. simpl. by rewrite Hb.
Qed.


(** ** Lifecycle *)

Lemma create_hook_lists_length i hooks :
  length (create_hook_lists i hooks) = length hooks.
Proof.
  revert hooks. induction i as [|i IH]; intros hooks; [done|].
  simpl. by rewrite IH, length_insert.
Qed.

Lemma create_hook_lists_lookup_ge i hooks j :
  (i ≤ j)%nat → create_hook_lists i hooks !! j = hooks !! j.
Proof.
  revert hooks. induction i as [|i IH]; intros hooks Hij; [done|].
  simpl. rewrite IH by lia. apply list_lookup_insert_ne. lia.
Qed.

Lemma create_hook_lists_lookup i hooks j :
  (i ≤ length hooks)%nat → (j < i)%nat →
  create_hook_lists i hooks !! j = Some (Some []).
Proof.
  revert hooks. induction i as [|i IH]; intros hooks Hi Hj; [lia|].
  simpl. destruct (decide (j = i)) as [->|Hne].
  - rewrite create_hook_lists_lookup_ge by lia.
    apply list_lookup_insert_eq. lia.
  - apply IH; [rewrite length_insert|]; lia.
Qed.

(** Freeing the nodes [l] one after another succeeds when they are
    distinct and live, and leaves every other cell as it was. *)
Lemma cleanup_loop (rest : list positive) :
  ∀ cur (m : gmap positive object),
    NoDup rest →
    Forall (λ p, is_Some (m !! p)) rest →
    ∃ cur',
      list_foreach_safe rest
        (λ node '(l, m), m' ← mem_free node m; Some (list_remove l node, m'))
        (cur, m)
      = Some (cur', foldr delete m rest).
Proof.
  induction rest as [|a rest IH]; intros cur m Hnd Hlive.
  - by exists cur.
  - apply NoDup_cons in Hnd as [Ha Hnd].
    apply Forall_cons in Hlive as [[o Ho] Hlive].
    cbn [list_foreach_safe].
    rewrite (mem_free_live _ _ _ Ho). cbn [mbind option_bind].
    destruct (IH (list_remove cur a) (delete a m) Hnd) as [cur' ->].
    { apply Forall_forall. intros p Hp.
      rewrite lookup_delete_ne by (intros ->; done).
      by eapply Forall_forall in Hlive. }
    exists cur'. by rewrite foldr_delete_commute.
Qed.

Lemma input_cleanup_list_spec (l others : list positive)
    (m : gmap positive object) :
  NoDup (l ++ others) →
  Forall (λ p, is_Some (m !! p)) (l ++ others) →
  input_cleanup_list (Some l) m = Some (foldr delete m l) ∧
  Forall (λ p, is_Some (foldr delete m l !! p)) others.
Proof.
  intros (Hl & Hdis & _)%NoDup_app [Hlive Hothers]%Forall_app. split.
  - unfold input_cleanup_list. simpl.
    destruct (cleanup_loop l l m Hl Hlive) as [cur' ->]. done.
  - apply Forall_forall. intros p Hp.
    rewrite lookup_foldr_delete_other.
    + by eapply Forall_forall in Hothers.
    + intros Hin. by eapply Hdis.
Qed.

Lemma nodes_of_snoc (lists : list (option (list positive))) o :
  nodes_of (lists ++ [o]) = nodes_of lists ++ default [] o.
Proof. rewrite nodes_of_app. unfold nodes_of. simpl. by rewrite app_nil_r. Qed.

Lemma destroy_hook_lists_spec i :
  ∀ hooks (m : gmap positive object) (others : list positive),
    (i ≤ length hooks)%nat →
    NoDup (nodes_of (take i hooks) ++ others) →
    Forall (λ p, is_Some (m !! p)) (nodes_of (take i hooks) ++ others) →
    ∃ hooks' m',
      destroy_hook_lists i hooks m = Some (hooks', m') ∧
      length hooks' = length hooks ∧
      Forall (λ p, is_Some (m' !! p)) others.
Proof.
  induction i as [|i IH]; intros hooks m others Hi Hnd Hlive.
  - exists hooks, m. by rewrite take_0 in Hlive.
  - destruct (lookup_lt_is_Some_2 hooks i) as [o Ho]; [lia|].
    rewrite (take_S_r _ _ _ Ho), nodes_of_snoc in Hnd, Hlive.
    rewrite <- app_assoc in Hnd, Hlive.
    cbn [destroy_hook_lists]. rewrite Ho. cbn [mbind option_bind].
    destruct o as [l|]; simpl in Hnd, Hlive.
    + rewrite (Permutation_app_swap_app (nodes_of (take i hooks)) l others)
        in Hnd, Hlive.
      destruct (input_cleanup_list_spec l _ m Hnd Hlive) as [-> Hlive'].
      cbn [mbind option_bind].
      destruct (IH (<[i := None]> hooks) (foldr delete m l) others)
        as (hooks' & m' & -> & Hlen & Hothers).
      * rewrite length_insert. lia.
      * rewrite take_insert_ge by lia. apply NoDup_app in Hnd. (forget_handlers; tauto).
      * rewrite take_insert_ge by lia. done.
      * exists hooks', m'. by rewrite Hlen, length_insert.
    + apply IH; [lia|done|done].
Qed.

Lemma hook_at_live m p : hook_at m p → is_Some (m !! p).
Proof.
  intros [h Hh]. rewrite (load_hook_live _ _ _ Hh). by eexists.
Qed.

Lemma keybind_at_live m t p : keybind_at m t p → is_Some (m !! p).
Proof.
  intros (b & Hb & _)%keybind_at_load.
  rewrite (load_keybind_live _ _ _ Hb). by eexists.
Qed.

Lemma mousebind_at_live m t p : mousebind_at m t p → is_Some (m !! p).
Proof.
  intros (b & Hb & _)%mousebind_at_load.
  rewrite (load_mousebind_live _ _ _ Hb). by eexists.
Qed.

Lemma wf_nodes_live s :
  wf s →
  Forall (λ p, is_Some (heap s !! p))
    (nodes_of (input_hooks s ++ bind_lists s)).
Proof.
  intros (_ & _ & _ & Hh & Hk & Hm).
  rewrite nodes_of_app. apply Forall_app. split.
  - eapply Forall_impl; [exact Hh|]. apply hook_at_live.
  - repeat (apply Forall_cons in Hk as [? Hk]).
    repeat (apply Forall_cons in Hm as [? Hm]).
    unfold nodes_of, bind_lists. simpl in *.
    repeat (apply Forall_app; split); try apply Forall_nil_2;
      (eapply Forall_impl; [eassumption|]);
      first [apply keybind_at_live|apply mousebind_at_live].
Qed.

Lemma input_shutdown_spec s :
  wf s →
  ∃ s', input_shutdown s = Some s' ∧
    input_initialized s' = false ∧
    block_keys s' = block_keys s ∧
    show_cursor s' = show_cursor s ∧
    mouse_x s' = mouse_x s ∧
    mouse_y s' = mouse_y s ∧
    length (input_hooks s') = NUM_INPUT_EVENTS.
Proof.
  intros Hwf. unfold input_shutdown.
  destruct (input_initialized s) eqn:Hinit; cbn [negb];
    [|exists s; destruct Hwf as (Hlen & _); by repeat split].
  pose proof (wf_nodes_live s Hwf) as Hlive.
  destruct Hwf as (Hlen & Hsome & Hnd & _).
  specialize (Hsome Hinit). apply Forall_app in Hsome as [_ Hsome].
  unfold bind_lists in Hsome.
  repeat (apply Forall_cons in Hsome as [[? ?] Hsome]).
  rewrite nodes_of_app in Hnd, Hlive.
  destruct (destroy_hook_lists_spec NUM_INPUT_EVENTS (input_hooks s)
              (heap s) (nodes_of (bind_lists s)))
    as (hooks' & m' & -> & Hlen' & Hlive').
  { lia. }
  { by rewrite take_ge by lia. }
  { by rewrite take_ge by lia. }
  cbn [mbind option_bind].
  apply NoDup_app in Hnd as (_ & _ & Hnd).
  unfold nodes_of, bind_lists in Hnd, Hlive'.
  repeat match goal with
         | H : _ s = Some _ |- _ => rewrite H in Hnd, Hlive' |- *
         end.
  simpl in Hnd, Hlive'.
  repeat match goal with
         | |- context [input_cleanup_list (Some ?l) ?m] =>
             let Heq := fresh "Heq" in
             let Hl := fresh "Hlive" in
             destruct (input_cleanup_list_spec l _ m Hnd Hlive')
               as [Heq Hl];
             rewrite Heq; cbn [mbind option_bind];
             clear Heq Hlive'; rename Hl into Hlive';
             apply NoDup_app in Hnd as (_ & _ & Hnd)
         end.
  eexists. split; [reflexivity|]. simpl. repeat split. lia.
Qed.

Lemma input_add_hook_spec s type handler l :
  input_initialized s = true → (type < NUM_INPUT_EVENTS)%nat →
  hook_list type s = Some l →
  input_add_hook type handler s
  = Some (set_input_hooks
            (<[type := Some (l ++ [mem_alloc_clean (heap s)])]>
               (input_hooks s))
            (set_heap
               (<[mem_alloc_clean (heap s)
                  := ObjHook {| InputHookFunc.handler := handler |}]>
                  (heap s))
               s)).
Proof.
  intros Hinit Htype%Nat.leb_gt Hl. unfold input_add_hook.
  by rewrite Hinit, Htype, Hl.
Qed.

(** C10.  [input_shutdown] followed by [input_initialize] leaves the
    keyboard block, the stored cursor position and the cursor
    visibility flag as they were; so when the block was set before the
    shutdown and the library is initialised again with a window, a
    keyboard event that reaches a hook is still answered with false. *)
Theorem block_and_cursor_survive_restart s window :
  wf s →
  ∃ s1, input_shutdown s = Some s1 ∧
    let s2 := input_initialize window s1 in
    block_keys s2 = block_keys s ∧
    mouse_x s2 = mouse_x s ∧
    mouse_y s2 = mouse_y s ∧
    show_cursor s2 = show_cursor s ∧
    (block_keys s = true → is_Some window →
     ∀ type handler key w, (type < NUM_INPUT_EVENTS)%nat →
       ∃ s3 w' calls,
         input_add_hook type handler s2 = Some s3 ∧
         input_handle_keyboard_event type key s3 w
         = Some (false, w', calls)).
Proof using Type call_keybind_func call_mousebind_func.
  intros Hwf.
  destruct (input_shutdown_spec s Hwf)
    as (s1 & Heq & Hinit & Hblock & Hshow & Hx & Hy & Hlen).
  exists s1. split; [exact Heq|]. cbn zeta.
  destruct window as [win|].
  - repeat (split; [by simpl|]).
    intros Hb _ type handler key w Htype.
    set (s2 := input_initialize (Some win) s1).
    assert (hook_list type s2 = Some []) as Hl.
    { unfold hook_list, s2. simpl.
      by rewrite create_hook_lists_lookup by lia. }
    rewrite (input_add_hook_spec s2 type handler [] eq_refl Htype Hl).
    set (p := mem_alloc_clean (heap s2)).
    set (s3 := set_input_hooks _ _).
    destruct (input_handle_keyboard_event_spec s3 type key w [p])
      as (ret & w' & calls & Hev & _ & _ & Hret & _);
      [done|done| | |].
    + unfold hook_list, s3, s2. simpl.
      by rewrite list_lookup_insert_eq
        by (rewrite create_hook_lists_length; lia).
    + repeat constructor. unfold hook_at, load_hook, s3. simpl.
      by rewrite lookup_insert_eq.
    + exists s3, w', calls. split; [done|].
      rewrite Hev, Hret. unfold s3, s2. simpl. by rewrite Hblock, Hb.
  - repeat (split; [by simpl|]). intros _ [? [=]].
Qed.

(** ** Calls on an uninitialised library and calls without hooks *)

(** Before [input_initialize] and after [input_shutdown] the guard
    [if ( !input_initialized )] answers every call that reaches it:
    nothing is registered, nothing is removed, and every dispatch
    entry point returns true without calling a handler.  The two
    removals by handle read the handle before they reach the guard;
    they are neutral for a handle that points to a live record. *)
Lemma uninitialized_calls_neutral s :
  input_initialized s = false →
  (∀ key func data type,
     input_add_key_bind key func data type s = (None, s)) ∧
  (∀ button area func data type,
     input_add_mouse_bind button area func data type s = Some (None, s)) ∧
  (∀ event_id handler, input_add_hook event_id handler s = Some s) ∧
  (∀ event_id handler, input_remove_hook event_id handler s = Some s) ∧
  (∀ key func type,
     input_remove_key_bind_from_list key func type s = Some s) ∧
  (∀ button func type,
     input_remove_mouse_bind_from_list button func type s = Some s) ∧
  (∀ p bind, load_keybind (heap s) p = Some bind →
     input_remove_key_bind (Some p) s = Some s) ∧
  (∀ p bind, load_mousebind (heap s) p = Some bind →
     input_remove_mouse_bind (Some p) s = Some s) ∧
  input_shutdown s = Some s ∧
  (∀ type key w,
     input_handle_keyboard_event type key s w = Some (true, w, [])) ∧
  (∀ type x y button wheel w,
     input_handle_mouse_event type x y button wheel s w
     = Some (true, s, w, [])) ∧
  (∀ key w, input_handle_char_bind key s w = Some (true, w, [])) ∧
  (∀ key w, input_handle_key_down_bind key s w = Some (true, w, [])) ∧
  (∀ key w, input_handle_key_up_bind key s w = Some (true, w, [])) ∧
  (∀ x y w, input_handle_mouse_move_bind x y s w = Some (true, w, [])) ∧
  (∀ button x y w,
     input_handle_mouse_up_bind button x y s w = Some (true, w, [])) ∧
  (∀ button x y w,
     input_handle_mouse_down_bind button x y s w = Some (true, w, [])).
Proof.
  intros Hinit.
  unfold input_add_key_bind, input_add_mouse_bind, input_add_hook,
    input_remove_hook, input_remove_key_bind, input_remove_mouse_bind,
    input_remove_key_bind_from_list, input_remove_mouse_bind_from_list,
    input_shutdown, input_handle_keyboard_event, input_handle_mouse_event,
    input_handle_char_bind, input_handle_key_down_bind,
    input_handle_key_up_bind, input_handle_mouse_move_bind,
    input_handle_mouse_up_bind, input_handle_mouse_down_bind.
  rewrite Hinit. cbn [negb].
  repeat split; try done.
  - intros p bind Hb. simpl. by rewrite Hb.
  - intros p bind Hb. simpl. by rewrite Hb.
Qed.

(** An event of a type outside the table, or of a type without hooks,
    returns true: no handler is called and the stored cursor position
    stays as it was. *)
Lemma events_without_hooks s type :
  ((NUM_INPUT_EVENTS ≤ type)%nat ∨ hook_list type s = Some []) →
  (∀ key w,
     input_handle_keyboard_event type key s w = Some (true, w, [])) ∧
  (∀ x y button wheel w,
     input_handle_mouse_event type x y button wheel s w
     = Some (true, s, w, [])).
Proof.
  intros Hcase.
  unfold input_handle_keyboard_event, input_handle_mouse_event.
  destruct (input_initialized s); cbn [negb]; [|done].
  destruct Hcase as [Hge%Nat.leb_le|Hl].
  - by rewrite Hge.
  - rewrite Hl. cbn [mbind option_bind list_empty].
    by destruct (NUM_INPUT_EVENTS <=? type)%nat.
Qed.

(** C9.  [input_initialize] with a null window and the four mouse bind
    mutators with a null bind return at their null check and change
    nothing; [input_remove_key_bind] and [input_remove_mouse_bind] have
    no such check and read their arguments through the null handle.
    [input_set_mousebind_rect] checks its bind only: a null [area] is
    read through as well. *)
Theorem null_handle_calls s button area func data p :
  input_initialize None s = s ∧
  input_set_mousebind_button None button s = Some s ∧
  input_set_mousebind_rect None area s = Some s ∧
  input_set_mousebind_func None func s = Some s ∧
  input_set_mousebind_param None data s = Some s ∧
  input_remove_key_bind None s = None ∧
  input_remove_mouse_bind None s = None ∧
  input_set_mousebind_rect (Some p) None s = None.
Proof. by repeat split. Qed.


(** ** The invariant is kept by every call *)

Lemma wf_intro s :
  length (input_hooks s) = NUM_INPUT_EVENTS →
  (input_initialized s = true →
     Forall is_Some (input_hooks s ++ bind_lists s)) →
  NoDup (nodes_of (input_hooks s ++ bind_lists s)) →
  (∀ i l, hook_list i s = Some l → Forall (hook_at (heap s)) l) →
  (∀ t l, key_bind_list t s = Some l → Forall (keybind_at (heap s) t) l) →
  (∀ t l, mouse_bind_list t s = Some l →
          Forall (mousebind_at (heap s) t) l) →
  wf s.
Proof.
  intros Hlen Hinit Hnd Hh Hk Hm. repeat split; try done.
  - apply Forall_forall. intros p (l & Hp & (o & -> & Ho)%list_elem_of_fmap)%list_elem_of_join.
    destruct o as [l|]; [|by apply elem_of_nil in Hp]. simpl in Hp.
    apply list_elem_of_lookup in Ho as [i Hi].
    specialize (Hh i l). unfold hook_list in Hh. rewrite Hi in Hh.
    rewrite Forall_forall in Hh. by apply Hh.
  - repeat constructor.
    + destruct (key_bind_list BIND_KEYUP s) eqn:E; [by eapply Hk|constructor].
    + destruct (key_bind_list BIND_KEYDOWN s) eqn:E; [by eapply Hk|constructor].
    + destruct (key_bind_list BIND_CHAR s) eqn:E; [by eapply Hk|constructor].
  - repeat constructor.
    + destruct (mouse_bind_list BIND_BTNUP s) eqn:E; [by eapply Hm|constructor].
    + destruct (mouse_bind_list BIND_BTNDOWN s) eqn:E; [by eapply Hm|constructor].
    + destruct (mouse_bind_list BIND_MOVE s) eqn:E; [by eapply Hm|constructor].
Qed.

Lemma initial_state_wf : wf (initial_state NUM_INPUT_EVENTS).
Proof.
  apply wf_intro; simpl; try done.
  - apply length_replicate.
  - unfold nodes_of. rewrite fmap_app, fmap_replicate. simpl.
    rewrite join_app. simpl.
    induction NUM_INPUT_EVENTS as [|n IH]; [constructor|done].
  - intros i l. unfold hook_list. simpl.
    destruct (replicate NUM_INPUT_EVENTS None !! i) as [o|] eqn:E; [|done].
    apply lookup_replicate in E as [-> _]. done.
  - by intros [].
  - by intros [].
Qed.

Lemma hook_at_insert_fresh (m : gmap positive object) p o q :
  m !! p = None → hook_at m q → hook_at (<[p := o]> m) q.
Proof.
  intros Hp [h Hh]. exists h. unfold load_hook.
  rewrite lookup_insert_ne; [done|].
  intros ->. apply load_hook_live in Hh. congruence.
Qed.

Lemma keybind_at_insert_fresh (m : gmap positive object) p o t q :
  m !! p = None → keybind_at m t q → keybind_at (<[p := o]> m) t q.
Proof.
  intros Hp Hq. destruct (keybind_at_load _ _ _ Hq) as (b & Hb & _).
  unfold keybind_at, load_keybind in *.
  rewrite lookup_insert_ne; [done|].
  intros ->. apply load_keybind_live in Hb. congruence.
Qed.

Lemma mousebind_at_insert_fresh (m : gmap positive object) p o t q :
  m !! p = None → mousebind_at m t q → mousebind_at (<[p := o]> m) t q.
Proof.
  intros Hp Hq. destruct (mousebind_at_load _ _ _ Hq) as (b & Hb & _).
  unfold mousebind_at, load_mousebind in *.
  rewrite lookup_insert_ne; [done|].
  intros ->. apply load_mousebind_live in Hb. congruence.
Qed.

Lemma wf_fresh_not_node s p :
  wf s → heap s !! p = None → p ∉ nodes_of (input_hooks s ++ bind_lists s).
Proof.
  intros Hwf Hp Hin.
  pose proof (wf_nodes_live s Hwf) as Hlive.
  rewrite Forall_forall in Hlive. destruct (Hlive p Hin) as [o Ho].
  congruence.
Qed.

Lemma key_bind_list_set_eq t v s :
  key_bind_list t (set_key_bind_list t v s) = v.
Proof. by destruct t. Qed.

Lemma key_bind_list_set_ne t t' v s :
  t ≠ t' → key_bind_list t' (set_key_bind_list t v s) = key_bind_list t' s.
Proof. by destruct t, t'. Qed.

Lemma mouse_bind_list_set_eq t v s :
  mouse_bind_list t (set_mouse_bind_list t v s) = v.
Proof. by destruct t. Qed.

Lemma mouse_bind_list_set_ne t t' v s :
  t ≠ t' →
  mouse_bind_list t' (set_mouse_bind_list t v s) = mouse_bind_list t' s.
Proof. by destruct t, t'. Qed.

(** Replacing the list of one bind kind by [l'] replaces its nodes. *)
Lemma nodes_of_set_key_bind_list t l l' s :
  key_bind_list t s = Some l →
  ∃ others,
    nodes_of (input_hooks s ++ bind_lists s) ≡ₚ l ++ others ∧
    nodes_of (input_hooks (set_key_bind_list t (Some l') s) ++
              bind_lists (set_key_bind_list t (Some l') s)) ≡ₚ l' ++ others.
Proof.
  intros Hl. rewrite !nodes_of_app.
  destruct t; simpl in Hl; unfold nodes_of at 2 4, bind_lists; simpl;
    rewrite Hl; simpl.
  - exists (nodes_of (input_hooks s) ++ default [] (char_binds s) ++
            default [] (key_down_binds s) ++ default [] (mouse_up_binds s) ++
            default [] (mouse_down_binds s) ++
            default [] (mouse_move_binds s)).
    rewrite !app_nil_r. split; solve_Permutation.
  - exists (nodes_of (input_hooks s) ++ default [] (char_binds s) ++
            default [] (key_up_binds s) ++ default [] (mouse_up_binds s) ++
            default [] (mouse_down_binds s) ++
            default [] (mouse_move_binds s)).
    rewrite !app_nil_r. split; solve_Permutation.
  - exists (nodes_of (input_hooks s) ++ default [] (key_up_binds s) ++
            default [] (key_down_binds s) ++ default [] (mouse_up_binds s) ++
            default [] (mouse_down_binds s) ++
            default [] (mouse_move_binds s)).
    rewrite !app_nil_r. split; solve_Permutation.
Qed.

Lemma nodes_of_bind_lists s :
  nodes_of (bind_lists s)
  = default [] (char_binds s) ++ default [] (key_up_binds s) ++
    default [] (key_down_binds s) ++ default [] (mouse_up_binds s) ++
    default [] (mouse_down_binds s) ++ default [] (mouse_move_binds s).
Proof. unfold nodes_of, bind_lists. simpl. by rewrite app_nil_r. Qed.

(** The nodes of a state, seen from one key bind list: the list itself
    and the nodes of all the other lists. *)
Lemma nodes_split_key_bind_list t l s :
  key_bind_list t s = Some l →
  ∃ others,
    nodes_of (input_hooks s ++ bind_lists s) ≡ₚ l ++ others ∧
    (∀ l', nodes_of (input_hooks (set_key_bind_list t (Some l') s) ++
                     bind_lists (set_key_bind_list t (Some l') s))
           ≡ₚ l' ++ others) ∧
    (∀ i li, hook_list i s = Some li → li ⊆ others) ∧
    (∀ t' lt, t' ≠ t → key_bind_list t' s = Some lt → lt ⊆ others) ∧
    (∀ t' lt, mouse_bind_list t' s = Some lt → lt ⊆ others).
Proof.
  intros Hl.
  assert (∀ i li, hook_list i s = Some li →
                  li ⊆ nodes_of (input_hooks s)) as Hhooks.
  { intros i li Hli%hook_list_elem q Hq. by eapply nodes_of_elem. }
  destruct t; simpl in Hl.
  - exists (nodes_of (input_hooks s) ++ default [] (char_binds s) ++
            default [] (key_down_binds s) ++ default [] (mouse_up_binds s) ++
            default [] (mouse_down_binds s) ++
            default [] (mouse_move_binds s)).
    split; [|split; [intros l'|]]; rewrite ?nodes_of_app, ?nodes_of_bind_lists;
      simpl; rewrite ?Hl; simpl; [solve_Permutation..|].
    split; [|split].
    + intros i li Hli q Hq. apply elem_of_app. left. by eapply Hhooks.
    + intros [] lt Hne Hlt q Hq; [done|..]; simpl in Hlt; rewrite Hlt;
        forget_handlers; set_solver.
    + intros [] lt Hlt q Hq; simpl in Hlt; rewrite Hlt;
        forget_handlers; set_solver.
  - exists (nodes_of (input_hooks s) ++ default [] (char_binds s) ++
            default [] (key_up_binds s) ++ default [] (mouse_up_binds s) ++
            default [] (mouse_down_binds s) ++
            default [] (mouse_move_binds s)).
    split; [|split; [intros l'|]]; rewrite ?nodes_of_app, ?nodes_of_bind_lists;
      simpl; rewrite ?Hl; simpl; [solve_Permutation..|].
    split; [|split].
    + intros i li Hli q Hq. apply elem_of_app. left. by eapply Hhooks.
    + intros [] lt Hne Hlt q Hq; [|done|]; simpl in Hlt; rewrite Hlt;
        forget_handlers; set_solver.
    + intros [] lt Hlt q Hq; simpl in Hlt; rewrite Hlt;
        forget_handlers; set_solver.
  - exists (nodes_of (input_hooks s) ++ default [] (key_up_binds s) ++
            default [] (key_down_binds s) ++ default [] (mouse_up_binds s) ++
            default [] (mouse_down_binds s) ++
            default [] (mouse_move_binds s)).
    split; [|split; [intros l'|]]; rewrite ?nodes_of_app, ?nodes_of_bind_lists;
      simpl; rewrite ?Hl; simpl; [solve_Permutation..|].
    split; [|split].
    + intros i li Hli q Hq. apply elem_of_app. left. by eapply Hhooks.
    + intros [] lt Hne Hlt q Hq; [..|done]; simpl in Hlt; rewrite Hlt;
        forget_handlers; set_solver.
    + intros [] lt Hlt q Hq; simpl in Hlt; rewrite Hlt;
        forget_handlers; set_solver.
Qed.

Lemma nodes_split_mouse_bind_list t l s :
  mouse_bind_list t s = Some l →
  ∃ others,
    nodes_of (input_hooks s ++ bind_lists s) ≡ₚ l ++ others ∧
    (∀ l', nodes_of (input_hooks (set_mouse_bind_list t (Some l') s) ++
                     bind_lists (set_mouse_bind_list t (Some l') s))
           ≡ₚ l' ++ others) ∧
    (∀ i li, hook_list i s = Some li → li ⊆ others) ∧
    (∀ t' lt, key_bind_list t' s = Some lt → lt ⊆ others) ∧
    (∀ t' lt, t' ≠ t → mouse_bind_list t' s = Some lt → lt ⊆ others).
Proof.
  intros Hl.
  assert (∀ i li, hook_list i s = Some li →
                  li ⊆ nodes_of (input_hooks s)) as Hhooks.
  { intros i li Hli%hook_list_elem q Hq. by eapply nodes_of_elem. }
  destruct t; simpl in Hl.
  - exists (nodes_of (input_hooks s) ++ default [] (char_binds s) ++
            default [] (key_up_binds s) ++ default [] (key_down_binds s) ++
            default [] (mouse_down_binds s) ++
            default [] (mouse_move_binds s)).
    split; [|split; [intros l'|]]; rewrite ?nodes_of_app, ?nodes_of_bind_lists;
      simpl; rewrite ?Hl; simpl; [solve_Permutation..|].
    split; [|split].
    + intros i li Hli q Hq. apply elem_of_app. left. by eapply Hhooks.
    + intros [] lt Hlt q Hq; simpl in Hlt; rewrite Hlt;
        forget_handlers; set_solver.
    + intros [] lt Hne Hlt q Hq; [done|..]; simpl in Hlt; rewrite Hlt;
        forget_handlers; set_solver.
  - exists (nodes_of (input_hooks s) ++ default [] (char_binds s) ++
            default [] (key_up_binds s) ++ default [] (key_down_binds s) ++
            default [] (mouse_up_binds s) ++
            default [] (mouse_move_binds s)).
    split; [|split; [intros l'|]]; rewrite ?nodes_of_app, ?nodes_of_bind_lists;
      simpl; rewrite ?Hl; simpl; [solve_Permutation..|].
    split; [|split].
    + intros i li Hli q Hq. apply elem_of_app. left. by eapply Hhooks.
    + intros [] lt Hlt q Hq; simpl in Hlt; rewrite Hlt;
        forget_handlers; set_solver.
    + intros [] lt Hne Hlt q Hq; [|done|]; simpl in Hlt; rewrite Hlt;
        forget_handlers; set_solver.
  - exists (nodes_of (input_hooks s) ++ default [] (char_binds s) ++
            default [] (key_up_binds s) ++ default [] (key_down_binds s) ++
            default [] (mouse_up_binds s) ++
            default [] (mouse_down_binds s)).
    split; [|split; [intros l'|]]; rewrite ?nodes_of_app, ?nodes_of_bind_lists;
      simpl; rewrite ?Hl; simpl; [solve_Permutation..|].
    split; [|split].
    + intros i li Hli q Hq. apply elem_of_app. left. by eapply Hhooks.
    + intros [] lt Hlt q Hq; simpl in Hlt; rewrite Hlt;
        forget_handlers; set_solver.
    + intros [] lt Hne Hlt q Hq; [..|done]; simpl in Hlt; rewrite Hlt;
        forget_handlers; set_solver.
Qed.

Lemma hook_list_insert_eq i v (s s' : InputState) :
  (i < length (input_hooks s))%nat →
  input_hooks s' = <[i := v]> (input_hooks s) →
  hook_list i s' = v.
Proof.
  intros Hi Hs'. unfold hook_list. rewrite Hs'.
  by rewrite list_lookup_insert_eq.
Qed.

Lemma hook_list_insert_ne i j v (s s' : InputState) :
  i ≠ j →
  input_hooks s' = <[i := v]> (input_hooks s) →
  hook_list j s' = hook_list j s.
Proof.
  intros Hne Hs'. unfold hook_list. rewrite Hs'.
  by rewrite list_lookup_insert_ne.
Qed.

Lemma nodes_split_hook_list i l s :
  hook_list i s = Some l →
  ∃ others,
    nodes_of (input_hooks s ++ bind_lists s) ≡ₚ l ++ others ∧
    (∀ v, nodes_of (<[i := v]> (input_hooks s) ++ bind_lists s)
          ≡ₚ default [] v ++ others) ∧
    (∀ j lj, j ≠ i → hook_list j s = Some lj → lj ⊆ others) ∧
    (∀ t' lt, key_bind_list t' s = Some lt → lt ⊆ others) ∧
    (∀ t' lt, mouse_bind_list t' s = Some lt → lt ⊆ others).
Proof.
  unfold hook_list at 1.
  destruct (input_hooks s !! i) as [o|] eqn:Hi; [simpl|done]. intros ->.
  pose proof (lookup_lt_Some _ _ _ Hi) as Hlt.
  exists (nodes_of (take i (input_hooks s)) ++
          nodes_of (drop (S i) (input_hooks s)) ++ nodes_of (bind_lists s)).
  split; [|split; [|split; [|split]]].
  - rewrite <- (take_drop_middle _ _ _ Hi) at 1.
    rewrite !nodes_of_app.
    change (nodes_of (Some l :: ?k)) with (l ++ nodes_of k).
    solve_Permutation.
  - intros v. rewrite insert_take_drop by done.
    rewrite !nodes_of_app.
    change (nodes_of (v :: ?k)) with (default [] v ++ nodes_of k).
    solve_Permutation.
  - intros j lj Hne Hj q Hq. unfold hook_list in Hj.
    destruct (input_hooks s !! j) as [oj|] eqn:Hoj; [simpl in Hj|done].
    subst oj. destruct (decide (j < i)%nat) as [Hji|Hji].
    + apply elem_of_app. left. eapply nodes_of_elem; [|done].
      apply (list_elem_of_lookup_2 _ j). by rewrite lookup_take_lt.
    + apply elem_of_app. right. apply elem_of_app. left.
      eapply nodes_of_elem; [|done].
      apply (list_elem_of_lookup_2 _ (j - S i)). rewrite lookup_drop.
      by replace (S i + (j - S i))%nat with j by lia.
  - intros t' lt Hltt q Hq. apply elem_of_app. right. apply elem_of_app. right.
    eapply nodes_of_elem; [|done]. unfold bind_lists.
    destruct t'; simpl in Hltt; rewrite <- Hltt; forget_handlers; set_solver.
  - intros t' lt Hltt q Hq. apply elem_of_app. right. apply elem_of_app. right.
    eapply nodes_of_elem; [|done]. unfold bind_lists.
    destruct t'; simpl in Hltt; rewrite <- Hltt; forget_handlers; set_solver.
Qed.

Lemma hook_at_same_cell (m m' : gmap positive object) q :
  m' !! q = m !! q → hook_at m q → hook_at m' q.
Proof. unfold hook_at, load_hook. by intros ->. Qed.

Lemma keybind_at_same_cell (m m' : gmap positive object) t q :
  m' !! q = m !! q → keybind_at m t q → keybind_at m' t q.
Proof. unfold keybind_at, load_keybind. by intros ->. Qed.

Lemma mousebind_at_same_cell (m m' : gmap positive object) t q :
  m' !! q = m !! q → mousebind_at m t q → mousebind_at m' t q.
Proof. unfold mousebind_at, load_mousebind. by intros ->. Qed.

Lemma Forall_same_cell (P : gmap positive object → positive → Prop)
    (m m' : gmap positive object) (l others : list positive) :
  (∀ q, m' !! q = m !! q → P m q → P m' q) →
  l ⊆ others →
  Forall (λ q, m' !! q = m !! q) others →
  Forall (P m) l → Forall (P m') l.
Proof.
  intros HP Hsub Hframe Hl. rewrite Forall_forall in *.
  intros q Hq. apply HP; [|by apply Hl]. by apply Hframe, Hsub.
Qed.

Lemma bind_lists_some_set_key t l' s :
  Forall is_Some (bind_lists s) →
  Forall is_Some (bind_lists (set_key_bind_list t (Some l') s)).
Proof.
  unfold bind_lists. intros Hs.
  repeat (apply Forall_cons in Hs as [? Hs]).
  destruct t; simpl; repeat constructor; done.
Qed.

Lemma bind_lists_some_set_mouse t l' s :
  Forall is_Some (bind_lists s) →
  Forall is_Some (bind_lists (set_mouse_bind_list t (Some l') s)).
Proof.
  unfold bind_lists. intros Hs.
  repeat (apply Forall_cons in Hs as [? Hs]).
  destruct t; simpl; repeat constructor; done.
Qed.

(** Replacing one key bind list and the memory keeps the invariant when
    the new list is duplicate-free next to the nodes of the other lists,
    the other lists' cells are untouched and the new list holds live key
    binds of its kind. *)
Lemma wf_replace_key_bind_list s t l l' (m' : gmap positive object) :
  wf s → key_bind_list t s = Some l →
  (∀ others,
     NoDup (l ++ others) →
     Forall (λ q, is_Some (heap s !! q)) others →
     NoDup (l' ++ others) ∧ Forall (λ q, m' !! q = heap s !! q) others) →
  Forall (keybind_at m' t) l' →
  wf (set_key_bind_list t (Some l') (set_heap m' s)).
Proof.
  intros Hwf Hl Hcond Hl'.
  destruct (nodes_split_key_bind_list t l s Hl)
    as (others & Hperm & Hperm' & Hh & Hk & Hm).
  pose proof (wf_nodes_live s Hwf) as Hlive.
  pose proof Hwf as (Hlen & Hinit & Hnd & _).
  rewrite Hperm in Hnd, Hlive. apply Forall_app in Hlive as [_ Hlive].
  destruct (Hcond others Hnd Hlive) as [Hnd' Hframe].
  apply wf_intro.
  - done.
  - intros Hi. specialize (Hinit Hi).
    apply Forall_app in Hinit as [Hhooks Hbinds]. apply Forall_app. split.
    + done.
    + by apply (bind_lists_some_set_key t l' (set_heap m' s)).
  - by rewrite (Hperm' l').
  - intros i li Hli.
    eapply (Forall_same_cell hook_at); [apply hook_at_same_cell| |done|].
    + by eapply Hh.
    + by eapply wf_hook_list.
  - intros t' lt Hlt. destruct (decide (t = t')) as [<-|Hne].
    + rewrite key_bind_list_set_eq in Hlt. by injection Hlt as <-.
    + rewrite key_bind_list_set_ne in Hlt by done.
      eapply (Forall_same_cell (λ m, keybind_at m t'));
        [intros q; apply keybind_at_same_cell| |done|].
      * eapply Hk; [|done]. congruence.
      * by eapply wf_key_bind_list.
  - intros t' lt Hlt.
    eapply (Forall_same_cell (λ m, mousebind_at m t'));
      [intros q; apply mousebind_at_same_cell| |done|].
    + by eapply Hm.
    + eapply wf_mouse_bind_list; [done|]. by destruct t, t'.
Qed.

Lemma wf_replace_mouse_bind_list s t l l' (m' : gmap positive object) :
  wf s → mouse_bind_list t s = Some l →
  (∀ others,
     NoDup (l ++ others) →
     Forall (λ q, is_Some (heap s !! q)) others →
     NoDup (l' ++ others) ∧ Forall (λ q, m' !! q = heap s !! q) others) →
  Forall (mousebind_at m' t) l' →
  wf (set_mouse_bind_list t (Some l') (set_heap m' s)).
Proof.
  intros Hwf Hl Hcond Hl'.
  destruct (nodes_split_mouse_bind_list t l s Hl)
    as (others & Hperm & Hperm' & Hh & Hk & Hm).
  pose proof (wf_nodes_live s Hwf) as Hlive.
  pose proof Hwf as (Hlen & Hinit & Hnd & _).
  rewrite Hperm in Hnd, Hlive. apply Forall_app in Hlive as [_ Hlive].
  destruct (Hcond others Hnd Hlive) as [Hnd' Hframe].
  apply wf_intro.
  - done.
  - intros Hi. specialize (Hinit Hi).
    apply Forall_app in Hinit as [Hhooks Hbinds]. apply Forall_app. split.
    + done.
    + by apply (bind_lists_some_set_mouse t l' (set_heap m' s)).
  - by rewrite (Hperm' l').
  - intros i li Hli.
    eapply (Forall_same_cell hook_at); [apply hook_at_same_cell| |done|].
    + by eapply Hh.
    + by eapply wf_hook_list.
  - intros t' lt Hlt.
    eapply (Forall_same_cell (λ m, keybind_at m t'));
      [intros q; apply keybind_at_same_cell| |done|].
    + by eapply Hk.
    + eapply wf_key_bind_list; [done|]. by destruct t, t'.
  - intros t' lt Hlt. destruct (decide (t = t')) as [<-|Hne].
    + rewrite mouse_bind_list_set_eq in Hlt. by injection Hlt as <-.
    + rewrite mouse_bind_list_set_ne in Hlt by done.
      eapply (Forall_same_cell (λ m, mousebind_at m t'));
        [intros q; apply mousebind_at_same_cell| |done|].
      * eapply Hm; [|done]. congruence.
      * by eapply wf_mouse_bind_list.
Qed.

Lemma wf_replace_hook_list s i l l' (m' : gmap positive object) :
  wf s → hook_list i s = Some l →
  (∀ others,
     NoDup (l ++ others) →
     Forall (λ q, is_Some (heap s !! q)) others →
     NoDup (l' ++ others) ∧ Forall (λ q, m' !! q = heap s !! q) others) →
  Forall (hook_at m') l' →
  wf (set_input_hooks (<[i := Some l']> (input_hooks s)) (set_heap m' s)).
Proof.
  intros Hwf Hl Hcond Hl'.
  destruct (nodes_split_hook_list i l s Hl)
    as (others & Hperm & Hperm' & Hh & Hk & Hm).
  pose proof (wf_nodes_live s Hwf) as Hlive.
  pose proof Hwf as (Hlen & Hinit & Hnd & _).
  rewrite Hperm in Hnd, Hlive. apply Forall_app in Hlive as [_ Hlive].
  destruct (Hcond others Hnd Hlive) as [Hnd' Hframe].
  assert (i < length (input_hooks s))%nat as Hi.
  { unfold hook_list in Hl.
    destruct (input_hooks s !! i) eqn:E; [|done].
    by eapply lookup_lt_Some. }
  apply wf_intro.
  - simpl. by rewrite length_insert.
  - intros Hini. specialize (Hinit Hini).
    apply Forall_app in Hinit as [Hhooks Hbinds]. apply Forall_app. split.
    + simpl. apply Forall_insert; [done|by eexists].
    + done.
  - by rewrite (Hperm' (Some l')).
  - intros j lj Hlj. destruct (decide (i = j)) as [<-|Hne].
    + rewrite (hook_list_insert_eq i (Some l') s) in Hlj by done.
      by injection Hlj as <-.
    + rewrite (hook_list_insert_ne i j (Some l') s) in Hlj by done.
      eapply (Forall_same_cell hook_at); [apply hook_at_same_cell| |done|].
      * eapply Hh; [|done]. congruence.
      * by eapply wf_hook_list.
  - intros t' lt Hlt.
    eapply (Forall_same_cell (λ m, keybind_at m t'));
      [intros q; apply keybind_at_same_cell| |done|].
    + by eapply Hk.
    + by eapply wf_key_bind_list.
  - intros t' lt Hlt.
    eapply (Forall_same_cell (λ m, mousebind_at m t'));
      [intros q; apply mousebind_at_same_cell| |done|].
    + by eapply Hm.
    + by eapply wf_mouse_bind_list.
Qed.

(** Pushing a newly allocated node. *)
Lemma push_fresh_condition (m : gmap positive object) (l : list positive)
    p o :
  m !! p = None →
  Forall (λ q, is_Some (m !! q)) l →
  ∀ others,
    NoDup (l ++ others) →
    Forall (λ q, is_Some (m !! q)) others →
    NoDup (list_push l p ++ others) ∧
    Forall (λ q, <[p := o]> m !! q = m !! q) others.
Proof.
  intros Hp Hl others Hnd Hlive. split.
  - unfold list_push.
    assert ((l ++ [p]) ++ others ≡ₚ p :: (l ++ others)) as ->
      by solve_Permutation.
    apply NoDup_cons. split; [|done].
    intros [Hin|Hin]%elem_of_app.
    + eapply Forall_forall in Hl as [? ?]; [|done]. congruence.
    + eapply Forall_forall in Hlive as [? ?]; [|done]. congruence.
  - eapply Forall_impl; [exact Hlive|]. intros q [? Hq].
    apply lookup_insert_ne. intros ->. congruence.
Qed.

Lemma input_add_key_bind_wf key func data type s :
  wf s → wf (input_add_key_bind key func data type s).2.
Proof.
  intros Hwf. unfold input_add_key_bind.
  destruct (input_initialized s); [|done]. cbn [negb].
  destruct (key_bind_list type s) as [l|] eqn:Hl; [|done]. cbn [snd].
  destruct (wf_key_bind_list _ _ _ Hwf Hl) as [_ Hat].
  pose proof (mem_alloc_clean_fresh (heap s)) as Hfresh.
  eapply wf_replace_key_bind_list; [done|done| |].
  - apply push_fresh_condition; [done|].
    eapply Forall_impl; [exact Hat|]. apply keybind_at_live.
  - apply Forall_app. split.
    + eapply Forall_impl; [exact Hat|]. intros q.
      by apply keybind_at_insert_fresh.
    + repeat constructor. unfold keybind_at, load_keybind.
      by rewrite lookup_insert_eq.
Qed.

Lemma input_add_mouse_bind_wf button area func data type s h s' :
  wf s →
  input_add_mouse_bind button area func data type s = Some (h, s') →
  wf s'.
Proof.
  intros Hwf. unfold input_add_mouse_bind.
  destruct (input_initialized s); [|by intros [= _ <-]]. cbn [negb].
  destruct (mouse_bind_list type s) as [l|] eqn:Hl; [|by intros [= _ <-]].
  destruct area as [bounds|]; [|done]. simpl. intros [= _ <-].
  destruct (wf_mouse_bind_list _ _ _ Hwf Hl) as [_ Hat].
  pose proof (mem_alloc_clean_fresh (heap s)) as Hfresh.
  eapply wf_replace_mouse_bind_list; [done|done| |].
  - apply push_fresh_condition; [done|].
    eapply Forall_impl; [exact Hat|]. apply mousebind_at_live.
  - apply Forall_app. split.
    + eapply Forall_impl; [exact Hat|]. intros q.
      by apply mousebind_at_insert_fresh.
    + repeat constructor. unfold mousebind_at, load_mousebind.
      by rewrite lookup_insert_eq.
Qed.

Lemma input_add_hook_wf event_id handler s s' :
  wf s → input_add_hook event_id handler s = Some s' → wf s'.
Proof.
  intros Hwf. unfold input_add_hook.
  destruct (input_initialized s); [|by intros [= <-]]. cbn [negb].
  destruct (NUM_INPUT_EVENTS <=? event_id)%nat; [by intros [= <-]|].
  destruct (hook_list event_id s) as [l|] eqn:Hl; [|done].
  simpl. intros [= <-].
  destruct (wf_hook_list _ _ _ Hwf Hl) as [_ Hat].
  pose proof (mem_alloc_clean_fresh (heap s)) as Hfresh.
  eapply wf_replace_hook_list; [done|done| |].
  - apply push_fresh_condition; [done|].
    eapply Forall_impl; [exact Hat|]. apply hook_at_live.
  - apply Forall_app. split.
    + eapply Forall_impl; [exact Hat|]. intros q.
      by apply hook_at_insert_fresh.
    + repeat constructor. unfold hook_at, load_hook.
      by rewrite lookup_insert_eq.
Qed.

(** Taking the nodes [hits] of a list out, and freeing them. *)
Lemma remove_hits_condition (m : gmap positive object) (l : list positive)
    (hit : positive → bool) :
  ∀ others,
    NoDup (l ++ others) →
    Forall (λ q, is_Some (m !! q)) others →
    NoDup (filter (λ q, negb (hit q)) l ++ others) ∧
    Forall (λ q, foldr delete m (filter (λ q, hit q) l) !! q = m !! q) others.
Proof.
  intros others (Hl & Hdis & Hothers)%NoDup_app Hlive. split.
  - apply NoDup_app. split; [by apply NoDup_filter|]. split; [|done].
    intros q [_ Hq]%list_elem_of_filter. by apply Hdis.
  - apply Forall_forall. intros q Hq.
    apply lookup_foldr_delete_other.
    intros [_ Hin]%list_elem_of_filter. by eapply Hdis.
Qed.

Lemma remove_hits_kept (m : gmap positive object) (l : list positive)
    (hit : positive → bool) q :
  q ∈ filter (λ q, negb (hit q)) l →
  foldr delete m (filter (λ q, hit q) l) !! q = m !! q.
Proof.
  intros [Hq _]%list_elem_of_filter. apply lookup_foldr_delete_other.
  intros [Hhit _]%list_elem_of_filter. by destruct (hit q).
Qed.

Lemma input_remove_key_bind_from_list_wf key func type s s' :
  wf s → input_remove_key_bind_from_list key func type s = Some s' → wf s'.
Proof.
  intros Hwf Hrem.
  destruct (input_initialized s) eqn:Hinit.
  - destruct (wf_key_bind_list_some s type Hwf Hinit) as [l Hl].
    rewrite (input_remove_key_bind_from_list_spec _ _ _ _ _ Hwf Hinit Hl)
      in Hrem.
    injection Hrem as <-.
    destruct (wf_key_bind_list _ _ _ Hwf Hl) as [_ Hat].
    eapply wf_replace_key_bind_list; [done|done| |].
    + apply remove_hits_condition.
    + apply Forall_forall. intros q Hq.
      eapply keybind_at_same_cell; [by apply remove_hits_kept|].
      eapply Forall_forall in Hat; [done|].
      by apply list_elem_of_filter in Hq as [_ ?].
  - unfold input_remove_key_bind_from_list in Hrem. rewrite Hinit in Hrem.
    by injection Hrem as <-.
Qed.

Lemma input_remove_mouse_bind_from_list_wf button func type s s' :
  wf s →
  input_remove_mouse_bind_from_list button func type s = Some s' → wf s'.
Proof.
  intros Hwf Hrem.
  destruct (input_initialized s) eqn:Hinit.
  - destruct (wf_mouse_bind_list_some s type Hwf Hinit) as [l Hl].
    rewrite (input_remove_mouse_bind_from_list_spec _ _ _ _ _ Hwf Hinit Hl)
      in Hrem.
    injection Hrem as <-.
    destruct (wf_mouse_bind_list _ _ _ Hwf Hl) as [_ Hat].
    eapply wf_replace_mouse_bind_list; [done|done| |].
    + apply remove_hits_condition.
    + apply Forall_forall. intros q Hq.
      eapply mousebind_at_same_cell; [by apply remove_hits_kept|].
      eapply Forall_forall in Hat; [done|].
      by apply list_elem_of_filter in Hq as [_ ?].
  - unfold input_remove_mouse_bind_from_list in Hrem. rewrite Hinit in Hrem.
    by injection Hrem as <-.
Qed.

Lemma input_remove_key_bind_wf bind s s' :
  wf s → input_remove_key_bind bind s = Some s' → wf s'.
Proof.
  intros Hwf. unfold input_remove_key_bind.
  destruct bind as [p|]; [simpl|done].
  destruct (load_keybind (heap s) p) as [b|]; [simpl|done].
  by apply input_remove_key_bind_from_list_wf.
Qed.

Lemma input_remove_mouse_bind_wf bind s s' :
  wf s → input_remove_mouse_bind bind s = Some s' → wf s'.
Proof.
  intros Hwf. unfold input_remove_mouse_bind.
  destruct bind as [p|]; [simpl|done].
  destruct (load_mousebind (heap s) p) as [b|]; [simpl|done].
  by apply input_remove_mouse_bind_from_list_wf.
Qed.

Lemma input_remove_hook_wf event_id handler s s' :
  wf s → input_remove_hook event_id handler s = Some s' → wf s'.
Proof.
  intros Hwf Hrem.
  destruct (input_initialized s) eqn:Hinit;
    [|unfold input_remove_hook in Hrem; rewrite Hinit in Hrem;
      by injection Hrem as <-].
  destruct (decide (event_id < NUM_INPUT_EVENTS)%nat) as [Hid|Hid].
  2:{ unfold input_remove_hook in Hrem. rewrite Hinit in Hrem.
      apply Nat.nlt_ge, Nat.leb_le in Hid. rewrite Hid in Hrem.
      by injection Hrem as <-. }
  destruct (wf_hook_list_some s event_id Hwf Hinit Hid) as [l Hl].
  rewrite (input_remove_hook_spec _ _ _ _ Hwf Hinit Hid Hl) in Hrem.
  injection Hrem as <-.
  destruct (head (filter _ l)) as [p|] eqn:Hhead; [|done].
  destruct (wf_hook_list _ _ _ Hwf Hl) as [Hndl Hat].
  assert (p ∈ l) as Hp.
  { apply head_Some_elem_of in Hhead.
    by apply list_elem_of_filter in Hhead as [_ ?]. }
  eapply wf_replace_hook_list; [done|done| |].
  - intros others (_ & Hdis & Hothers)%NoDup_app Hlive. split.
    + apply NoDup_app. split; [by apply NoDup_filter|]. split; [|done].
      intros q [_ Hq]%list_elem_of_filter. by apply Hdis.
    + apply Forall_forall. intros q Hq. apply lookup_delete_ne.
      intros ->. by eapply Hdis.
  - apply Forall_forall. intros q [Hne Hq]%list_elem_of_filter.
    eapply hook_at_same_cell; [by apply lookup_delete_ne|].
    by eapply Forall_forall in Hat.
Qed.

(** A store through a mouse bind handle keeps the record's kind. *)
Lemma wf_store_mousebind s p b b' :
  wf s → load_mousebind (heap s) p = Some b →
  MouseBind.type b' = MouseBind.type b →
  wf (set_heap (<[p := ObjMouseBind b']> (heap s)) s).
Proof.
  intros Hwf Hb Htype. pose proof Hwf as (Hlen & Hinit & Hnd & _).
  apply load_mousebind_live in Hb.
  apply wf_intro; try done.
  - intros i l Hl. destruct (wf_hook_list _ _ _ Hwf Hl) as [_ Hat].
    eapply Forall_impl; [exact Hat|]. intros q [h Hq]. simpl.
    eapply hook_at_same_cell; [|by exists h].
    apply lookup_insert_ne. intros ->.
    apply load_hook_live in Hq. congruence.
  - intros t l Hl. destruct (wf_key_bind_list _ _ _ Hwf Hl) as [_ Hat].
    eapply Forall_impl; [exact Hat|]. intros q Hq. simpl.
    eapply keybind_at_same_cell; [|done].
    apply lookup_insert_ne. intros ->.
    destruct (keybind_at_load _ _ _ Hq) as (k & Hk%load_keybind_live & _).
    congruence.
  - intros t l Hl. destruct (wf_mouse_bind_list _ _ _ Hwf Hl) as [_ Hat].
    eapply Forall_impl; [exact Hat|]. intros q Hq. simpl.
    destruct (decide (q = p)) as [->|Hne].
    + destruct (mousebind_at_load _ _ _ Hq)
        as (b0 & Hb0%load_mousebind_live & Ht).
      unfold mousebind_at, load_mousebind. rewrite lookup_insert_eq. simpl.
      congruence.
    + eapply mousebind_at_same_cell; [|done]. by apply lookup_insert_ne.
Qed.

Lemma input_set_mousebind_wf s s' bind :
  wf s →
  (∃ button, input_set_mousebind_button bind button s = Some s') ∨
  (∃ area, input_set_mousebind_rect bind area s = Some s') ∨
  (∃ func, input_set_mousebind_func bind func s = Some s') ∨
  (∃ data, input_set_mousebind_param bind data s = Some s') →
  wf s'.
Proof.
  intros Hwf.
  unfold input_set_mousebind_button, input_set_mousebind_rect,
    input_set_mousebind_func, input_set_mousebind_param.
  destruct bind as [p|]; [|by intros [[? [= <-]]|[[? [= <-]]|[[? [= <-]]|[? [= <-]]]]]].
  intros [[v Hs]|[[[v|] Hs]|[[v Hs]|[v Hs]]]]; try done; simpl in Hs;
    destruct (load_mousebind (heap s) p) as [b|] eqn:Hb; try done;
    simpl in Hs; injection Hs as <-; by eapply wf_store_mousebind.
Qed.

Lemma nodes_of_replicate_None n : nodes_of (replicate n None) = [].
Proof. induction n as [|n IH]; [done|]. exact IH. Qed.

Lemma nodes_of_replicate_empty n : nodes_of (replicate n (Some [])) = [].
Proof. induction n as [|n IH]; [done|]. exact IH. Qed.

(** A state whose lists are all null, or all empty, is well formed. *)
Lemma wf_without_nodes s (o : option (list positive)) :
  o = None ∨ o = Some [] →
  (input_initialized s = true → o = Some []) →
  input_hooks s = replicate NUM_INPUT_EVENTS o →
  bind_lists s = replicate 6 o →
  wf s.
Proof.
  intros Ho Hinit Hhooks Hbinds.
  assert (nodes_of (input_hooks s ++ bind_lists s) = []) as Hnodes.
  { rewrite Hhooks, Hbinds, nodes_of_app.
    destruct Ho as [-> | ->];
      by rewrite ?nodes_of_replicate_None, ?nodes_of_replicate_empty. }
  assert (∀ (P : positive → Prop) l, Some l = o → Forall P l) as Hempty.
  { intros P l Hl. destruct Ho as [-> | ->]; [done|].
    injection Hl as ->. constructor. }
  injection Hbinds as Hc Hu Hd Hmu Hmd Hmm.
  apply wf_intro.
  - by rewrite Hhooks, length_replicate.
  - intros Hi. rewrite (Hinit Hi) in *. unfold bind_lists.
    rewrite Hhooks, Hc, Hu, Hd, Hmu, Hmd, Hmm.
    apply Forall_app. split; [|by repeat constructor].
    apply Forall_replicate. by eexists.
  - rewrite Hnodes. constructor.
  - intros i l Hl%hook_list_elem. apply Hempty.
    rewrite Hhooks in Hl. by apply elem_of_replicate in Hl as [-> _].
  - intros t l Hl. apply Hempty. destruct t; simpl in Hl; congruence.
  - intros t l Hl. apply Hempty. destruct t; simpl in Hl; congruence.
Qed.

Lemma create_hook_lists_all hooks :
  length hooks = NUM_INPUT_EVENTS →
  create_hook_lists NUM_INPUT_EVENTS hooks
  = replicate NUM_INPUT_EVENTS (Some []).
Proof.
  intros Hlen. apply list_eq. intros j.
  destruct (decide (j < NUM_INPUT_EVENTS)%nat) as [Hj|Hj].
  - rewrite create_hook_lists_lookup by lia.
    symmetry. by apply lookup_replicate_2.
  - rewrite !lookup_ge_None_2; [done| |].
    + rewrite length_replicate. lia.
    + rewrite create_hook_lists_length. lia.
Qed.

Lemma input_initialize_wf window s : wf s → wf (input_initialize window s).
Proof.
  intros Hwf. destruct window as [win|]; [|done].
  pose proof Hwf as (Hlen & _).
  apply (wf_without_nodes _ (Some [])); [by right|done| |done].
  simpl. by apply create_hook_lists_all.
Qed.

Lemma destroy_hook_lists_result i :
  ∀ hooks (m : gmap positive object) hooks' m',
    (i ≤ length hooks)%nat →
    destroy_hook_lists i hooks m = Some (hooks', m') →
    hooks' = replicate i None ++ drop i hooks.
Proof.
  induction i as [|i IH]; intros hooks m hooks' m' Hi Hrun.
  - simpl in Hrun. by injection Hrun as <- _.
  - destruct (lookup_lt_is_Some_2 hooks i) as [o Ho]; [lia|].
    cbn [destroy_hook_lists] in Hrun. rewrite Ho in Hrun.
    cbn [mbind option_bind] in Hrun.
    rewrite replicate_S_end, <- app_assoc. simpl.
    destruct o as [l|].
    + destruct (input_cleanup_list (Some l) m) as [m1|]; [|done].
      cbn [mbind option_bind] in Hrun.
      apply IH in Hrun; [|rewrite length_insert; lia].
      rewrite Hrun. f_equal.
      rewrite insert_take_drop by lia.
      rewrite drop_app_length'; [done|]. rewrite length_take. lia.
    + apply IH in Hrun; [|lia]. rewrite Hrun. f_equal.
      by apply drop_S.
Qed.

Lemma input_shutdown_wf s s' : wf s → input_shutdown s = Some s' → wf s'.
Proof.
  intros Hwf. unfold input_shutdown.
  destruct (input_initialized s); cbn [negb]; [|by intros [= <-]].
  destruct (destroy_hook_lists _ _ _) as [[hooks m1]|] eqn:Hhooks;
    [|done].
  cbn [mbind option_bind].
  repeat (destruct (input_cleanup_list _ _); [|done];
          cbn [mbind option_bind]).
  intros [= <-]. pose proof Hwf as (Hlen & _).
  apply (wf_without_nodes _ None); [by left|done| |done].
  simpl. apply destroy_hook_lists_result in Hhooks; [|lia].
  by rewrite Hhooks, drop_ge, app_nil_r by lia.
Qed.

Lemma input_handle_mouse_event_wf type x y button wheel s w ret s' w' calls :
  wf s →
  input_handle_mouse_event type x y button wheel s w
  = Some (ret, s', w', calls) →
  wf s'.
Proof.
  intros Hwf. unfold input_handle_mouse_event.
  destruct (input_initialized s); cbn [negb]; [|by intros [= _ <- _ _]].
  destruct (NUM_INPUT_EVENTS <=? type)%nat; [by intros [= _ <- _ _]|].
  destruct (hook_list type s) as [l|]; [|done]. cbn [mbind option_bind].
  destruct (list_empty l); [by intros [= _ <- _ _]|].
  destruct (call_hooks _ _ _ _ _) as [[[? ?]|[[? ?] ?]]|]; [| |done];
    simpl; by intros [= _ <- _ _].
Qed.

Lemma api_call_wf s s' : wf s → api_call s s' → wf s'.
Proof.
  intros Hwf Hcall. destruct Hcall.
  - by apply input_initialize_wf.
  - by eapply input_shutdown_wf.
  - by eapply input_add_hook_wf.
  - by eapply input_remove_hook_wf.
  - by apply input_add_key_bind_wf.
  - by eapply input_remove_key_bind_from_list_wf.
  - by eapply input_remove_key_bind_wf.
  - by eapply input_add_mouse_bind_wf.
  - by eapply input_remove_mouse_bind_from_list_wf.
  - by eapply input_remove_mouse_bind_wf.
  - eapply input_set_mousebind_wf; [done|]. left. by eexists.
  - eapply input_set_mousebind_wf; [done|]. right. left. by eexists.
  - eapply input_set_mousebind_wf; [done|]. right. right. left. by eexists.
  - eapply input_set_mousebind_wf; [done|]. right. right. right. by eexists.
  - done.
  - by eapply input_handle_mouse_event_wf.
Qed.

(** Every state the library can reach is well formed. *)
Theorem reachable_wf s : reachable s → wf s.
Proof.
  unfold reachable. intros Hrun.
  eapply (rtc_ind_r (λ s, wf s)); [|intros y z _ Hcall IH|exact Hrun].
  - apply initial_state_wf.
  - by eapply api_call_wf.
Qed.

(** ** Loops over a grown list and over a changed memory *)

Lemma list_foreach_safe_app {S : Type} (l1 l2 : list positive)
    (body : positive → S → option S) (st : S) :
  list_foreach_safe (l1 ++ l2) body st
  = list_foreach_safe l1 body st ≫= list_foreach_safe l2 body.
Proof.
  revert st. induction l1 as [|a l1 IH]; intros st; [done|].
  simpl. destruct (body a st) as [st'|]; [apply IH|done].
Qed.

Lemma list_foreach_safe_ext {S : Type} (l : list positive)
    (body body' : positive → S → option S) (st : S) :
  (∀ p st, p ∈ l → body p st = body' p st) →
  list_foreach_safe l body st = list_foreach_safe l body' st.
Proof.
  revert st. induction l as [|a l IH]; intros st Hext; [done|].
  simpl. rewrite <- Hext by (by left).
  destruct (body a st) as [st'|]; [|done].
  apply IH. intros p st0 Hp. apply Hext. by right.
Qed.

Lemma list_foreach_app {S R : Type} (l1 l2 : list positive)
    (body : positive → S → option (S + R)) (st : S) :
  list_foreach (l1 ++ l2) body st
  = match list_foreach l1 body st with
    | Some (inl st') => list_foreach l2 body st'
    | other => other
    end.
Proof.
  revert st. induction l1 as [|a l1 IH]; intros st; [done|].
  simpl. destruct (body a st) as [[st'|r]|]; [apply IH|done|done].
Qed.

Lemma list_foreach_ext {S R : Type} (l : list positive)
    (body body' : positive → S → option (S + R)) (st : S) :
  (∀ p st, p ∈ l → body p st = body' p st) →
  list_foreach l body st = list_foreach l body' st.
Proof.
  revert st. induction l as [|a l IH]; intros st Hext; [done|].
  simpl. rewrite <- Hext by (by left).
  destruct (body a st) as [[st'|r]|]; [|done|done].
  apply IH. intros p st0 Hp. apply Hext. by right.
Qed.

(** The loops read only the cells of the nodes they visit. *)
Lemma call_key_binds_same_cells applies key (m m' : gmap positive object)
    seen (l : list positive) w :
  (∀ p, p ∈ l → m' !! p = m !! p) →
  call_key_binds applies key m' seen l w
  = call_key_binds applies key m seen l w.
Proof.
  intros Hcells. unfold call_key_binds. apply list_foreach_safe_ext.
  intros p [[ret w0] calls] Hp. unfold load_keybind.
  by rewrite (Hcells p Hp).
Qed.

Lemma call_mouse_binds_same_cells applies button x y
    (m m' : gmap positive object) seen (l : list positive) w :
  (∀ p, p ∈ l → m' !! p = m !! p) →
  call_mouse_binds applies button x y m' seen l w
  = call_mouse_binds applies button x y m seen l w.
Proof.
  intros Hcells. unfold call_mouse_binds. apply list_foreach_safe_ext.
  intros p [[ret w0] calls] Hp. unfold load_mousebind.
  by rewrite (Hcells p Hp).
Qed.

Lemma call_hooks_same_cells (m m' : gmap positive object) event seen
    (l : list positive) w :
  (∀ p, p ∈ l → m' !! p = m !! p) →
  call_hooks m' event seen l w = call_hooks m event seen l w.
Proof.
  intros Hcells. unfold call_hooks. apply list_foreach_ext.
  intros p [w0 calls] Hp. unfold hook_step, load_hook.
  by rewrite (Hcells p Hp).
Qed.

(** A newly allocated address is none of the nodes of a well-formed
    state. *)
Lemma wf_fresh_not_in_list s (l : list positive) p :
  wf s → Some l ∈ input_hooks s ++ bind_lists s →
  heap s !! p = None → p ∉ l.
Proof.
  intros Hwf Hl Hp Hin.
  eapply wf_fresh_not_node; [done|done|]. by eapply nodes_of_elem.
Qed.

(** ** Registration followed by dispatch *)

Lemma call_key_binds_after_push applies key (m : gmap positive object) p
    record (l : list positive) seen w ret w1 calls :
  p ∉ l →
  call_key_binds applies key m seen l w = Some (ret, w1, calls) →
  call_key_binds applies key (<[p := ObjKeyBind record]> m) seen
    (list_push l p) w
  = Some (if applies record then
            let '(r, w2) :=
              call_keybind_func (KeyBind.handler record) key
                (KeyBind.userdata record) seen w1 in
            (ret && r, w2,
             calls ++ [KeyBindCall p (KeyBind.handler record) key
                         (KeyBind.userdata record) seen r])
          else (ret, w1, calls)).
Proof.
  intros Hp Hrun.
  rewrite <- (call_key_binds_same_cells applies key m
                (<[p := ObjKeyBind record]> m)) in Hrun.
  2:{ intros q Hq. apply lookup_insert_ne. by intros ->. }
  unfold call_key_binds, list_push in *.
  rewrite list_foreach_safe_app, Hrun. simpl.
  unfold load_keybind. rewrite lookup_insert_eq. simpl.
  destruct (applies record); [|done].
  destruct (call_keybind_func _ _ _ _ _) as [r w2].
  by destruct r, ret.
Qed.

Lemma key_bind_entry_point_unfold type k s w :
  key_bind_entry_point type k s w
  = if negb (input_initialized s) then Some (true, w, []) else
    l ← key_bind_list type s;
    call_key_binds (λ bind, key_bind_fires type (KeyBind.key bind) k) k
      (heap s) (view_of s) l w.
Proof. by destruct type. Qed.

(** X4.  A key bind registered on an initialised library is called
    after the binds registered before it: whatever a dispatch entry
    point did before the registration it still does, in the same order,
    and then, if the new record passes the entry point's test, it calls
    the new handler with the dispatched key and the registered userdata
    and folds its answer into the result.  The handle returned is an
    address that was not in use. *)
Theorem new_key_bind_is_called_last s key func data type k w ret w1 calls :
  wf s → input_initialized s = true →
  key_bind_entry_point type k s w = Some (ret, w1, calls) →
  let p := mem_alloc_clean (heap s) in
  let s' := (input_add_key_bind key func data type s).2 in
  (input_add_key_bind key func data type s).1 = Some p ∧
  heap s !! p = None ∧
  key_bind_entry_point type k s' w
  = Some (if key_bind_fires type key k then
            let '(r, w2) := call_keybind_func func k data (view_of s) w1 in
            (ret && r, w2,
             calls ++ [KeyBindCall p func k data (view_of s) r])
          else (ret, w1, calls)).
Proof.
  intros Hwf Hinit Hrun p s'.
  destruct (wf_key_bind_list_some s type Hwf Hinit) as [l Hl].
  pose proof (mem_alloc_clean_fresh (heap s)) as Hfresh.
  assert (p ∉ l) as Hp.
  { eapply wf_fresh_not_in_list; [done| |done].
    by eapply key_bind_list_elem. }
  unfold s', input_add_key_bind. rewrite Hinit, Hl. cbn [negb fst snd].
  split; [done|]. split; [done|].
  rewrite key_bind_entry_point_unfold in Hrun |- *.
  rewrite Hinit in Hrun. cbn [negb] in Hrun |- *.
  rewrite Hl in Hrun. cbn [mbind option_bind] in Hrun.
  rewrite key_bind_list_set_eq. cbn [mbind option_bind].
  change (heap (set_key_bind_list type _ (set_heap ?m s))) with m.
  change (view_of (set_key_bind_list type _ (set_heap _ s)))
    with (view_of s).
  change (input_initialized (set_key_bind_list type _ (set_heap _ s)))
    with (input_initialized s).
  rewrite Hinit. cbn [negb].
  by rewrite (call_key_binds_after_push _ _ _ _ _ _ _ _ _ _ _ Hp Hrun).
Qed.

Lemma fresh_cell_keeps_list s (l : list positive) o :
  wf s → Some l ∈ input_hooks s ++ bind_lists s →
  ∀ q, q ∈ l →
    <[mem_alloc_clean (heap s) := o]> (heap s) !! q = heap s !! q.
Proof.
  intros Hwf Hl q Hq. apply lookup_insert_ne. intros Heq.
  eapply (wf_fresh_not_in_list s l q); [done|done| |done].
  rewrite <- Heq. apply mem_alloc_clean_fresh.
Qed.

(** X5.  Registering a key bind touches one list only: the entry points
    of the other two key bind kinds, the keyboard event entry point and
    the three mouse bind entry points do after the registration exactly
    what they did before it. *)
Theorem key_bind_registration_is_local s key func data type :
  wf s →
  let s' := (input_add_key_bind key func data type s).2 in
  (∀ t k w, t ≠ type →
     key_bind_entry_point t k s' w = key_bind_entry_point t k s w) ∧
  (∀ e k w,
     input_handle_keyboard_event e k s' w
     = input_handle_keyboard_event e k s w) ∧
  (∀ x y w,
     input_handle_mouse_move_bind x y s' w
     = input_handle_mouse_move_bind x y s w) ∧
  (∀ button x y w,
     input_handle_mouse_up_bind button x y s' w
     = input_handle_mouse_up_bind button x y s w) ∧
  (∀ button x y w,
     input_handle_mouse_down_bind button x y s' w
     = input_handle_mouse_down_bind button x y s w).
Proof.
  intros Hwf s'. unfold s', input_add_key_bind.
  destruct (input_initialized s) eqn:Hinit; [|done]. cbn [negb].
  destruct (key_bind_list type s) as [l0|] eqn:Hl0; [|done]. cbn [snd].
  set (p := mem_alloc_clean (heap s)).
  set (o := ObjKeyBind _).
  pose proof (fresh_cell_keeps_list s) as Hkeep.
  repeat apply conj.
  - intros t k w Hne. rewrite !key_bind_entry_point_unfold.
    cbn [input_initialized set_key_bind_list set_heap]. rewrite Hinit.
    cbn [negb]. rewrite key_bind_list_set_ne by done.
    change (key_bind_list t (set_heap _ s)) with (key_bind_list t s).
    destruct (key_bind_list t s) as [l|] eqn:Hl; [|done].
    cbn [mbind option_bind].
    apply call_key_binds_same_cells. apply Hkeep; [done|].
    by eapply key_bind_list_elem.
  - intros e k w. unfold input_handle_keyboard_event.
    cbn [input_initialized set_key_bind_list set_heap]. rewrite Hinit.
    cbn [negb]. destruct (NUM_INPUT_EVENTS <=? e)%nat; [done|].
    change (hook_list e (set_key_bind_list type _ (set_heap _ s)))
      with (hook_list e s).
    destruct (hook_list e s) as [l|] eqn:Hl; [|done].
    cbn [mbind option_bind]. destruct (list_empty l); [done|].
    change (heap (set_key_bind_list type _ (set_heap ?m s))) with m.
    change (view_of (set_key_bind_list type _ (set_heap _ s)))
      with (view_of s).
    rewrite (call_hooks_same_cells (heap s)); [done|].
    apply Hkeep; [done|]. apply elem_of_app. left.
    by eapply hook_list_elem.
  - intros x y w. unfold input_handle_mouse_move_bind.
    cbn [input_initialized set_key_bind_list set_heap]. rewrite Hinit.
    cbn [negb].
    change (mouse_move_binds (set_key_bind_list type _ (set_heap _ s)))
      with (mouse_move_binds s).
    destruct (mouse_move_binds s) as [l|] eqn:Hl; [|done].
    cbn [mbind option_bind].
    apply call_mouse_binds_same_cells. apply Hkeep; [done|].
    by apply (mouse_bind_list_elem BIND_MOVE).
  - intros button x y w. unfold input_handle_mouse_up_bind.
    cbn [input_initialized set_key_bind_list set_heap]. rewrite Hinit.
    cbn [negb].
    change (mouse_up_binds (set_key_bind_list type _ (set_heap _ s)))
      with (mouse_up_binds s).
    destruct (mouse_up_binds s) as [l|] eqn:Hl; [|done].
    cbn [mbind option_bind].
    apply call_mouse_binds_same_cells. apply Hkeep; [done|].
    by apply (mouse_bind_list_elem BIND_BTNUP).
  - intros button x y w. unfold input_handle_mouse_down_bind.
    cbn [input_initialized set_key_bind_list set_heap]. rewrite Hinit.
    cbn [negb].
    change (mouse_down_binds (set_key_bind_list type _ (set_heap _ s)))
      with (mouse_down_binds s).
    destruct (mouse_down_binds s) as [l|] eqn:Hl; [|done].
    cbn [mbind option_bind].
    apply call_mouse_binds_same_cells. apply Hkeep; [done|].
    by apply (mouse_bind_list_elem BIND_BTNDOWN).
Qed.

Lemma call_hooks_outcome (m : gmap positive object) event seen
    (l : list positive) w res :
  Forall (hook_at m) l →
  call_hooks m event seen l w = Some res →
  match res with
  | inl (w', calls) => forallb call_result calls = true
  | inr (ret, w', calls) => ret = false ∧ forallb call_result calls = false
  end.
Proof using Type call_keybind_func call_mousebind_func.
  intros Hat Hrun. unfold call_hooks in Hrun.
  destruct (hook_loop_spec m event seen l w [] Hat)
    as (w' & new & _ & _ & [(Heq & _ & Hall)|(Heq & Hany)]);
    rewrite Heq in Hrun; injection Hrun as <-; done.
Qed.

Lemma call_hooks_after_push (m : gmap positive object) event seen
    (l : list positive) p handler w res :
  p ∉ l →
  call_hooks m event seen l w = Some res →
  call_hooks (<[p := ObjHook {| InputHookFunc.handler := handler |}]> m)
    event seen (list_push l p) w
  = Some match res with
         | inl (w1, calls) =>
             let '(r, w2) := call_input_handler handler event seen w1 in
             let calls' := calls ++ [HookCall p handler event seen r] in
             if r then inl (w2, calls') else inr (false, w2, calls')
         | inr veto => inr veto
         end.
Proof.
  intros Hp Hrun.
  rewrite <- (call_hooks_same_cells m
                (<[p := ObjHook {| InputHookFunc.handler := handler |}]> m))
    in Hrun.
  2:{ intros q Hq. apply lookup_insert_ne. by intros ->. }
  unfold call_hooks, list_push in *.
  rewrite list_foreach_app, Hrun.
  destruct res as [[w1 calls]|veto]; [|done].
  simpl. unfold load_hook. rewrite lookup_insert_eq. simpl.
  destruct (call_input_handler _ _ _ _) as [r w2]. by destruct r.
Qed.

(** X6.  A hook registered for a known event type on an initialised
    library is called after the hooks registered before it.  If a
    keyboard event of that type met a veto before the registration, it
    meets the same veto after it and the new hook is not called;
    otherwise the same calls are made, the new hook is called last, and
    the result is its answer, forced to false by the keyboard block.
    Keyboard events of the other types do what they did before. *)
Theorem new_hook_is_called_last s e handler key w ret w1 calls :
  wf s → input_initialized s = true → (e < NUM_INPUT_EVENTS)%nat →
  input_handle_keyboard_event e key s w = Some (ret, w1, calls) →
  let p := mem_alloc_clean (heap s) in
  let event := KeyboardEvent e key in
  ∃ s', input_add_hook e handler s = Some s' ∧
    input_handle_keyboard_event e key s' w
    = Some (if forallb call_result calls then
              let '(r, w2) := call_input_handler handler event (view_of s) w1 in
              (r && negb (block_keys s), w2,
               calls ++ [HookCall p handler event (view_of s) r])
            else (ret, w1, calls)) ∧
    (∀ e' k w0, e' ≠ e →
       input_handle_keyboard_event e' k s' w0
       = input_handle_keyboard_event e' k s w0).
Proof using Type call_keybind_func call_mousebind_func.
  intros Hwf Hinit He Hrun p event.
  destruct (wf_hook_list_some s e Hwf Hinit He) as [l Hl].
  destruct (wf_hook_list _ _ _ Hwf Hl) as [_ Hat].
  pose proof (hook_list_elem _ _ _ Hl) as Hel.
  pose proof (mem_alloc_clean_fresh (heap s)) as Hfresh.
  assert (p ∉ l) as Hp.
  { eapply wf_fresh_not_in_list; [done| |done]. apply elem_of_app. by left. }
  pose proof Hwf as (Hlen & _).
  rewrite (input_add_hook_spec s e handler l Hinit He Hl).
  eexists. split; [reflexivity|].
  pose proof (proj2 (Nat.leb_gt _ _) He) as Hleb.
  split.
  - unfold input_handle_keyboard_event in Hrun |- *.
    rewrite Hinit, Hleb, Hl in Hrun. cbn [negb mbind option_bind] in Hrun.
    cbn [input_initialized set_input_hooks set_heap]. rewrite Hinit, Hleb.
    cbn [negb].
    rewrite (hook_list_insert_eq e (Some (l ++ [p])) s) by (done || lia).
    cbn [mbind option_bind].
    assert (list_empty (l ++ [p]) = false) as -> by (by destruct l).
    change (heap (set_input_hooks _ (set_heap ?m s))) with m.
    change (view_of (set_input_hooks _ (set_heap _ s))) with (view_of s).
    change (block_keys (set_input_hooks _ (set_heap _ s)))
      with (block_keys s).
    fold event. fold event in Hrun.
    destruct (call_hooks (heap s) event (view_of s) l w) as [res|] eqn:Hres.
    2:{ destruct l; [|done]. done. }
    pose proof (call_hooks_outcome _ _ _ _ _ _ Hat Hres) as Hout.
    change (l ++ [p]) with (list_push l p).
    change (mem_alloc_clean (heap s)) with p.
    rewrite (call_hooks_after_push _ _ _ _ _ handler _ _ Hp Hres).
    cbn [mbind option_bind].
    destruct res as [[w' calls']|[[ret' w'] calls']].
    + assert (w1 = w' ∧ calls = calls') as [-> ->].
      { destruct l; cbn [list_empty] in Hrun.
        - simpl in Hres. injection Hres as <- <-.
          by injection Hrun as _ <-.
        - cbn [mbind option_bind] in Hrun.
          destruct (block_keys s); by injection Hrun as _ <- <-. }
      rewrite Hout.
      destruct (call_input_handler handler event (view_of s) w')
        as [[] w2]; simpl; by destruct (block_keys s).
    + destruct l; [done|]. cbn [list_empty mbind option_bind] in Hrun.
      injection Hrun as <- <- <-. destruct Hout as [_ ->]. done.
  - intros e' k w0 Hne. unfold input_handle_keyboard_event.
    cbn [input_initialized set_input_hooks set_heap]. rewrite Hinit.
    cbn [negb]. destruct (NUM_INPUT_EVENTS <=? e')%nat; [done|].
    rewrite (hook_list_insert_ne e e' (Some (l ++ [p])) s) by done.
    destruct (hook_list e' s) as [l'|] eqn:Hl'; [|done].
    cbn [mbind option_bind]. destruct (list_empty l'); [done|].
    change (heap (set_input_hooks _ (set_heap ?m s))) with m.
    change (view_of (set_input_hooks _ (set_heap _ s))) with (view_of s).
    change (block_keys (set_input_hooks _ (set_heap _ s)))
      with (block_keys s).
    rewrite (call_hooks_same_cells (heap s)); [done|].
    apply fresh_cell_keeps_list; [done|]. apply elem_of_app. left.
    by eapply hook_list_elem.
Qed.

(** ** Registration followed by removal *)

Lemma key_bind_selected_same_cell (m m' : gmap positive object) key func q :
  m' !! q = m !! q →
  key_bind_selected m' key func q = key_bind_selected m key func q.
Proof. unfold key_bind_selected, load_keybind. by intros ->. Qed.

Lemma set_key_bind_list_id s type l :
  key_bind_list type s = Some l →
  set_key_bind_list type (Some l) (set_heap (heap s) s) = s.
Proof. destruct s, type; simpl; by intros ->. Qed.

Lemma filter_none_selected (P : positive → bool) (l : list positive) :
  Forall (λ q, P q = false) l →
  filter (λ q, P q) l = [] ∧ filter (λ q, negb (P q)) l = l.
Proof.
  induction 1 as [|a l Ha _ [IH1 IH2]]; [done|]. split.
  - rewrite filter_cons_False by (rewrite Ha; exact id). exact IH1.
  - rewrite filter_cons_True by (rewrite Ha; exact I). by rewrite IH2.
Qed.

(** X7.  Registering a key bind and removing it through the handle that
    the registration returned leaves the library exactly as it was,
    provided no bind of that list was already registered with the same
    key and handler. *)
Theorem key_bind_add_then_remove s key func data type l :
  wf s → input_initialized s = true →
  key_bind_list type s = Some l →
  Forall (λ q, key_bind_selected (heap s) key func q = false) l →
  input_remove_key_bind (input_add_key_bind key func data type s).1
    (input_add_key_bind key func data type s).2
  = Some s.
Proof.
  intros Hwf Hinit Hl Hnone.
  pose proof (input_add_key_bind_wf key func data type s Hwf) as Hwf'.
  pose proof (mem_alloc_clean_fresh (heap s)) as Hfresh.
  pose proof (fresh_cell_keeps_list s l
                (ObjKeyBind {| KeyBind.type := type; KeyBind.key := key;
                               KeyBind.handler := func;
                               KeyBind.userdata := data |})
                Hwf (key_bind_list_elem _ _ _ Hl)) as Hkeep.
  revert Hwf'. unfold input_add_key_bind. rewrite Hinit, Hl.
  cbn [negb fst snd]. set (p := mem_alloc_clean (heap s)) in *.
  set (record := {| KeyBind.type := type |}) in *.
  intros Hwf'. unfold input_remove_key_bind.
  cbn [mbind option_bind heap set_key_bind_list set_heap].
  unfold load_keybind at 1. rewrite lookup_insert_eq.
  cbn [mbind option_bind KeyBind.key KeyBind.handler KeyBind.type record].
  erewrite input_remove_key_bind_from_list_spec;
    [|exact Hwf'|done|apply key_bind_list_set_eq].
  cbn [heap set_key_bind_list set_heap].
  unfold list_push. rewrite !filter_app.
  assert (Forall (λ q, key_bind_selected (<[p := ObjKeyBind record]> (heap s))
                         key func q = false) l) as Hnone'.
  { apply Forall_forall. intros q Hq.
    rewrite (key_bind_selected_same_cell (heap s)) by (by apply Hkeep).
    by eapply Forall_forall in Hnone. }
  destruct (filter_none_selected _ l Hnone') as [Hhits Hkept].
  assert (key_bind_selected (<[p := ObjKeyBind record]> (heap s))
            key func p = true) as Hp.
  { unfold key_bind_selected, load_keybind. rewrite lookup_insert_eq.
    simpl. by rewrite !Z.eqb_refl. }
  rewrite Hhits, Hkept.
  rewrite (filter_cons_True
             (λ q, key_bind_selected (<[p := ObjKeyBind record]> (heap s))
                     key func q) p [])
    by (cbv beta; rewrite Hp; exact I).
  rewrite (filter_cons_False
             (λ q, negb (key_bind_selected
                           (<[p := ObjKeyBind record]> (heap s)) key func q))
             p [])
    by (cbv beta; rewrite Hp; exact id).
  rewrite !filter_nil, app_nil_r. cbn [app foldr].
  rewrite delete_insert_eq, delete_id by done.
  f_equal. destruct s, type; simpl in *; by subst.
Qed.

(** ** Removal through a handle *)

(** X8.  [input_remove_mouse_bind] never removes the bind it is handed.
    The routine it calls takes out the records whose handler differs
    from the requested one, and the request carries the handler of the
    handle's own record: that record stays in its list and in memory,
    and what goes are the records of that list with the same button and
    another handler. *)
Theorem mouse_bind_handle_removal_keeps_record s p bind l :
  wf s → input_initialized s = true →
  load_mousebind (heap s) p = Some bind →
  mouse_bind_list (MouseBind.type bind) s = Some l →
  ∃ s' l',
    input_remove_mouse_bind (Some p) s = Some s' ∧
    mouse_bind_list (MouseBind.type bind) s' = Some l' ∧
    load_mousebind (heap s') p = Some bind ∧
    (p ∈ l → p ∈ l') ∧
    (∀ q other, load_mousebind (heap s) q = Some other →
       q ∈ l' ↔
       q ∈ l ∧ ¬ (MouseBind.button other = MouseBind.button bind ∧
                  MouseBind.handler other ≠ MouseBind.handler bind)).
Proof.
  intros Hwf Hinit Hb Hl.
  unfold input_remove_mouse_bind. cbn [mbind option_bind]. rewrite Hb.
  cbn [mbind option_bind].
  rewrite (input_remove_mouse_bind_from_list_spec _ _ _ _ _ Hwf Hinit Hl).
  set (sel := mouse_bind_selected (heap s) (MouseBind.button bind)
                (MouseBind.handler bind)).
  assert (sel p = false) as Hp.
  { unfold sel, mouse_bind_selected. rewrite Hb.
    by rewrite !Z.eqb_refl. }
  eexists _, _. split; [reflexivity|].
  split; [apply mouse_bind_list_set_eq|]. split; [|split].
  - unfold load_mousebind. cbn [heap set_mouse_bind_list set_heap].
    rewrite lookup_foldr_delete_other; [exact Hb|].
    intros [Hsel _]%list_elem_of_filter. by rewrite Hp in Hsel.
  - intros Hin. apply list_elem_of_filter. split; [by rewrite Hp|done].
  - intros q other Hq. rewrite list_elem_of_filter.
    pose proof (mouse_bind_selected_iff (heap s) (MouseBind.button bind)
                  (MouseBind.handler bind) q other Hq) as Hiff.
    fold sel in Hiff. destruct (sel q); simpl.
    + split; [by intros [[] _]|]. intros [_ Hn]. destruct Hn.
      by apply Hiff.
    + split; [|by intros [? _]]. intros [_ Hin]. split; [done|].
      intros Hs. by apply Hiff in Hs.
Qed.

(** X9.  A key bind handle is dead once the bind has been removed: the
    removal frees the record, and a second [input_remove_key_bind] on
    the same handle reads [bind->key] from the freed record. *)
Theorem key_bind_handle_dangles_after_removal s p bind l :
  wf s → input_initialized s = true →
  load_keybind (heap s) p = Some bind →
  key_bind_list (KeyBind.type bind) s = Some l → p ∈ l →
  ∃ s' l',
    input_remove_key_bind (Some p) s = Some s' ∧
    key_bind_list (KeyBind.type bind) s' = Some l' ∧ (p ∉ l') ∧
    heap s' !! p = None ∧
    input_remove_key_bind (Some p) s' = None.
Proof.
  intros Hwf Hinit Hb Hl Hin.
  unfold input_remove_key_bind at 1. cbn [mbind option_bind]. rewrite Hb.
  cbn [mbind option_bind].
  rewrite (input_remove_key_bind_from_list_spec _ _ _ _ _ Hwf Hinit Hl).
  set (sel := key_bind_selected (heap s) (KeyBind.key bind)
                (KeyBind.handler bind)).
  assert (sel p = true) as Hp.
  { unfold sel, key_bind_selected. rewrite Hb. by rewrite !Z.eqb_refl. }
  assert (foldr delete (heap s) (filter (λ q, sel q) l) !! p = None) as Hgone.
  { apply lookup_foldr_delete_elem, list_elem_of_filter.
    split; [by rewrite Hp|done]. }
  eexists _, _. split; [reflexivity|].
  split; [apply key_bind_list_set_eq|]. split; [|split].
  - intros [Hsel _]%list_elem_of_filter. by rewrite Hp in Hsel.
  - exact Hgone.
  - unfold input_remove_key_bind, load_keybind.
    cbn [mbind option_bind heap set_key_bind_list set_heap].
    by rewrite Hgone.
Qed.

(** ** Removal followed by dispatch *)

(** X10.  After the bulk removal of [(key, func)] from the key-down or
    the key-up list, dispatching [key] on that list never calls [func]:
    every record the entry point still finds for [key] has another
    handler. *)
Theorem removed_key_bind_never_fires s key func type s' w ret w' calls :
  wf s → type ≠ BIND_CHAR →
  input_remove_key_bind_from_list key func type s = Some s' →
  key_bind_entry_point type key s' w = Some (ret, w', calls) →
  Forall (λ c, ∀ node data seen r,
            c ≠ KeyBindCall node func key data seen r) calls.
Proof using Type call_input_handler call_mousebind_func.
  intros Hwf Htype Hrem Hrun.
  destruct (input_initialized s) eqn:Hinit.
  2:{ unfold input_remove_key_bind_from_list in Hrem.
      rewrite Hinit in Hrem. injection Hrem as <-.
      rewrite key_bind_entry_point_unfold, Hinit in Hrun.
      injection Hrun as _ _ <-. constructor. }
  pose proof (input_remove_key_bind_from_list_wf _ _ _ _ _ Hwf Hrem) as Hwf'.
  destruct (wf_key_bind_list_some s type Hwf Hinit) as [l Hl].
  rewrite (input_remove_key_bind_from_list_spec _ _ _ _ _ Hwf Hinit Hl)
    in Hrem.
  injection Hrem as <-.
  set (sel := key_bind_selected (heap s) key func) in *.
  set (s' := set_key_bind_list type _ _) in *.
  destruct (key_bind_dispatch_spec s' type
              (λ bind, key_bind_fires type (KeyBind.key bind) key) key w
              Hwf' Hinit)
    as (l' & w1 & calls1 & Hl' & Heq & _ & Hcalls).
  rewrite key_bind_entry_point_unfold in Hrun.
  change (input_initialized s') with (input_initialized s) in Hrun.
  rewrite Hinit, Hl' in Hrun. cbn [negb mbind option_bind] in Hrun.
  rewrite Heq in Hrun. injection Hrun as _ _ <-.
  unfold chosen_key_binds in Hcalls. rewrite Hl' in Hcalls.
  unfold s' in Hl'. rewrite key_bind_list_set_eq in Hl'.
  injection Hl' as <-. cbn [default] in Hcalls.
  eapply Forall2_Forall_r; [exact Hcalls|].
  apply Forall_forall. intros q [Happ Hq]%list_elem_of_filter.
  intros c (b & Hb & Hc) node data seen r Heqc.
  rewrite Hc in Heqc. injection Heqc as _ Hfunc _ _ _.
  assert (heap s' !! q = heap s !! q) as Hcell
    by (by apply remove_hits_kept).
  apply list_elem_of_filter in Hq as [Hsel _].
  unfold key_bind_applies in Happ. rewrite Hb in Happ. simpl in Happ.
  unfold load_keybind in Hb. rewrite Hcell in Hb.
  unfold sel, key_bind_selected, load_keybind in Hsel.
  destruct (heap s !! q) as [[| b0 |]|]; try done.
  injection Hb as ->.
  assert ((KeyBind.key b =? key) = true) as Hkey.
  { destruct type; try done; simpl in Happ;
      apply Is_true_true, Z.eqb_eq in Happ; by apply Z.eqb_eq. }
  rewrite Hkey, Hfunc, Z.eqb_refl in Hsel. exact Hsel.
Qed.

(** ** Shutdown and initialisation, in full *)

Lemma cleanup_loop_result (rest : list positive) :
  ∀ cur (m : gmap positive object) cur' m',
    list_foreach_safe rest
      (λ node '(l, m), m' ← mem_free node m; Some (list_remove l node, m'))
      (cur, m)
    = Some (cur', m') →
    m' = foldr delete m rest.
Proof.
  induction rest as [|a rest IH]; intros cur m cur' m' Hrun.
  - simpl in Hrun. by injection Hrun as _ <-.
  - cbn [list_foreach_safe] in Hrun. unfold mem_free in Hrun.
    destruct (m !! a); [|done]. cbn [mbind option_bind] in Hrun.
    apply IH in Hrun. rewrite Hrun. apply foldr_delete_commute.
Qed.

Lemma input_cleanup_list_result (o : option (list positive))
    (m m' : gmap positive object) :
  input_cleanup_list o m = Some m' → m' = foldr delete m (default [] o).
Proof.
  unfold input_cleanup_list. destruct o as [l|]; [|done].
  cbn [mbind option_bind default].
  destruct (list_foreach_safe _ _ _) as [[cur' m1]|] eqn:Hrun; [|done].
  cbn [mbind option_bind]. intros [= <-]. by eapply cleanup_loop_result.
Qed.

Lemma foldr_delete_app (m : gmap positive object) (l1 l2 : list positive) :
  foldr delete m (l1 ++ l2) = foldr delete (foldr delete m l2) l1.
Proof. apply foldr_app. Qed.

Lemma destroy_hook_lists_heap i :
  ∀ hooks (m : gmap positive object) hooks' m',
    (i ≤ length hooks)%nat →
    destroy_hook_lists i hooks m = Some (hooks', m') →
    m' = foldr delete m (nodes_of (take i hooks)).
Proof.
  induction i as [|i IH]; intros hooks m hooks' m' Hi Hrun.
  - simpl in Hrun. injection Hrun as _ <-. by rewrite take_0.
  - destruct (lookup_lt_is_Some_2 hooks i) as [o Ho]; [lia|].
    cbn [destroy_hook_lists] in Hrun. rewrite Ho in Hrun.
    cbn [mbind option_bind] in Hrun.
    rewrite (take_S_r _ _ _ Ho), nodes_of_snoc, foldr_delete_app.
    destruct o as [l|].
    + destruct (input_cleanup_list (Some l) m) as [m1|] eqn:Hclean; [|done].
      cbn [mbind option_bind] in Hrun.
      apply input_cleanup_list_result in Hclean. subst m1.
      apply IH in Hrun; [|rewrite length_insert; lia].
      by rewrite take_insert_ge in Hrun by lia.
    + apply IH in Hrun; [done|lia].
Qed.

Lemma lookup_foldr_delete (m : gmap positive object) l p :
  foldr delete m l !! p = if bool_decide (p ∈ l) then None else m !! p.
Proof.
  case_bool_decide.
  - by apply lookup_foldr_delete_elem.
  - by apply lookup_foldr_delete_other.
Qed.

(** X2.  On an initialised library [input_shutdown] runs to its end,
    frees the record of every node of every hook and bind list and
    nothing else, leaves every list pointer null and the library
    uninitialised; a second [input_shutdown] then changes nothing. *)
Theorem shutdown_releases_every_record s :
  wf s → input_initialized s = true →
  ∃ s',
    input_shutdown s = Some s' ∧
    input_initialized s' = false ∧
    input_hooks s' = replicate NUM_INPUT_EVENTS None ∧
    bind_lists s' = replicate 6 None ∧
    (∀ p, p ∈ nodes_of (input_hooks s ++ bind_lists s) →
       heap s' !! p = None) ∧
    (∀ p, p ∉ nodes_of (input_hooks s ++ bind_lists s) →
       heap s' !! p = heap s !! p) ∧
    input_shutdown s' = Some s'.
Proof.
  intros Hwf Hinit.
  destruct (input_shutdown_spec s Hwf) as (s' & Hrun & Hinit' & _).
  exists s'. split; [done|]. split; [done|].
  pose proof Hwf as (Hlen & _).
  unfold input_shutdown in Hrun. rewrite Hinit in Hrun. cbn [negb] in Hrun.
  destruct (destroy_hook_lists _ _ _) as [[hooks m0]|] eqn:Hhooks; [|done].
  cbn [mbind option_bind] in Hrun.
  pose proof (destroy_hook_lists_result _ _ _ _ _ (Nat.eq_le_incl _ _ (eq_sym Hlen)) Hhooks) as Hh.
  apply destroy_hook_lists_heap in Hhooks; [|lia].
  rewrite take_ge in Hhooks by lia.
  rewrite drop_ge, app_nil_r in Hh by lia.
  destruct (input_cleanup_list (char_binds s) m0) as [m1|] eqn:H1; [|done].
  cbn [mbind option_bind] in Hrun.
  destruct (input_cleanup_list (key_up_binds s) m1) as [m2|] eqn:H2; [|done].
  cbn [mbind option_bind] in Hrun.
  destruct (input_cleanup_list (key_down_binds s) m2) as [m3|] eqn:H3;
    [|done].
  cbn [mbind option_bind] in Hrun.
  destruct (input_cleanup_list (mouse_up_binds s) m3) as [m4|] eqn:H4;
    [|done].
  cbn [mbind option_bind] in Hrun.
  destruct (input_cleanup_list (mouse_down_binds s) m4) as [m5|] eqn:H5;
    [|done].
  cbn [mbind option_bind] in Hrun.
  destruct (input_cleanup_list (mouse_move_binds s) m5) as [m6|] eqn:H6;
    [|done].
  cbn [mbind option_bind] in Hrun.
  apply input_cleanup_list_result in H1, H2, H3, H4, H5, H6.
  injection Hrun as <-.
  split; [exact Hh|]. split; [done|].
  assert (∀ p, m6 !! p
               = if bool_decide
                      (p ∈ nodes_of (input_hooks s ++ bind_lists s))
                 then None else heap s !! p) as Hcell.
  { intros p. subst m6 m5 m4 m3 m2 m1 m0.
    rewrite !lookup_foldr_delete.
    rewrite nodes_of_app, nodes_of_bind_lists.
    repeat case_bool_decide; try done;
      exfalso; rewrite ?elem_of_app in *; forget_handlers; tauto. }
  cbn [heap set_input_initialized set_mouse_bind_list set_key_bind_list
       set_heap set_input_hooks].
  split; [|split].
  - intros p Hp. rewrite Hcell. by rewrite bool_decide_eq_true_2.
  - intros p Hp. rewrite Hcell. by rewrite bool_decide_eq_false_2.
  - done.
Qed.

(** X3.  [input_initialize] has no guard against a second call: called
    with a window on any state, it replaces every list by a new empty
    one and frees nothing.  The records registered before stay
    allocated, and no entry point calls a handler for them any more. *)
Theorem initialize_forgets_registrations s window :
  wf s →
  let s' := input_initialize (Some window) s in
  input_initialized s' = true ∧
  heap s' = heap s ∧
  input_hooks s' = replicate NUM_INPUT_EVENTS (Some []) ∧
  bind_lists s' = replicate 6 (Some []) ∧
  (∀ type key w,
     input_handle_keyboard_event type key s' w = Some (true, w, [])) ∧
  (∀ type x y button wheel w,
     input_handle_mouse_event type x y button wheel s' w
     = Some (true, s', w, [])) ∧
  (∀ type key w, key_bind_entry_point type key s' w = Some (true, w, [])) ∧
  (∀ button x y w,
     input_handle_mouse_move_bind x y s' w = Some (true, w, []) ∧
     input_handle_mouse_up_bind button x y s' w = Some (true, w, []) ∧
     input_handle_mouse_down_bind button x y s' w = Some (true, w, [])).
Proof.
  intros (Hlen & _) s'.
  assert (input_hooks s' = replicate NUM_INPUT_EVENTS (Some [])) as Hhooks
    by (by apply create_hook_lists_all).
  assert (∀ type, (NUM_INPUT_EVENTS ≤ type)%nat ∨ hook_list type s' = Some [])
    as Hnone.
  { intros type. destruct (decide (type < NUM_INPUT_EVENTS)%nat) as [Hlt|];
      [right|left; lia].
    unfold hook_list. rewrite Hhooks.
    by rewrite lookup_replicate_2. }
  split; [done|]. split; [done|]. split; [done|]. split; [done|].
  split; [|split; [|split]].
  - intros type. apply (events_without_hooks s' type (Hnone type)).
  - intros type. apply (events_without_hooks s' type (Hnone type)).
  - by intros [].
  - done.
Qed.

(** ** The keyboard block and the other entry points *)

(** X11.  The keyboard block is read by [input_handle_keyboard_event]
    alone, and there only for the value returned: with the block set or
    clear, the mouse event entry point and the six bind entry points
    give the same outcome, and the keyboard event entry point calls the
    same handlers with the same arguments. *)
Theorem block_touches_keyboard_result_only s block :
  (∀ type x y button wheel w,
     input_handle_mouse_event type x y button wheel (input_block_keys block s)
       w
     = (λ '(ret, s', w', calls), (ret, input_block_keys block s', w', calls))
         <$> input_handle_mouse_event type x y button wheel s w) ∧
  (∀ type key w,
     key_bind_entry_point type key (input_block_keys block s) w
     = key_bind_entry_point type key s w) ∧
  (∀ button x y w,
     input_handle_mouse_move_bind x y (input_block_keys block s) w
     = input_handle_mouse_move_bind x y s w ∧
     input_handle_mouse_up_bind button x y (input_block_keys block s) w
     = input_handle_mouse_up_bind button x y s w ∧
     input_handle_mouse_down_bind button x y (input_block_keys block s) w
     = input_handle_mouse_down_bind button x y s w) ∧
  (∀ type key w,
     (λ '(_, w', calls), (w', calls))
       <$> input_handle_keyboard_event type key (input_block_keys block s) w
     = (λ '(_, w', calls), (w', calls))
         <$> input_handle_keyboard_event type key s w).
Proof.
  split; [|split; [|split]].
  - intros type x y button wheel w. unfold input_handle_mouse_event.
    change (input_initialized (input_block_keys block s))
      with (input_initialized s).
    change (hook_list type (input_block_keys block s))
      with (hook_list type s).
    destruct (input_initialized s); [|done]. cbn [negb].
    destruct (NUM_INPUT_EVENTS <=? type)%nat; [done|].
    destruct (hook_list type s) as [l|]; [|done]. cbn [mbind option_bind].
    destruct (list_empty l); [done|].
    change (heap (set_mouse_pos x y (input_block_keys block s)))
      with (heap (set_mouse_pos x y s)).
    change (view_of (set_mouse_pos x y (input_block_keys block s)))
      with (view_of (set_mouse_pos x y s)).
    change (mouse_x (input_block_keys block s)) with (mouse_x s).
    change (mouse_y (input_block_keys block s)) with (mouse_y s).
    by destruct (call_hooks _ _ _ _ _) as [[[? ?]|[[? ?] ?]]|].
  - by intros [].
  - done.
  - intros type key w. unfold input_handle_keyboard_event.
    change (input_initialized (input_block_keys block s))
      with (input_initialized s).
    change (hook_list type (input_block_keys block s))
      with (hook_list type s).
    destruct (input_initialized s); [|done]. cbn [negb].
    destruct (NUM_INPUT_EVENTS <=? type)%nat; [done|].
    destruct (hook_list type s) as [l|]; [|done]. cbn [mbind option_bind].
    destruct (list_empty l); [done|].
    change (heap (input_block_keys block s)) with (heap s).
    change (view_of (input_block_keys block s)) with (view_of s).
    destruct (call_hooks _ _ _ _ _) as [[[? ?]|[[? ?] ?]]|]; [|done|done].
    cbn [block_keys input_block_keys set_block_keys].
    by destruct block, (block_keys s).
Qed.

(** ** What every reachable state looks like *)

Ltac unchanged_state :=
  cbn [snd]; split; [reflexivity|intros ?; first [congruence|right; by repeat split]].

(** One call leaves the cursor visibility flag alone; and a state it
    leaves uninitialised either has every list pointer null, or was
    uninitialised before and has the list pointers it had. *)
Lemma api_call_lists s s' :
  wf s → api_call s s' →
  show_cursor s' = show_cursor s ∧
  (input_initialized s' = false →
   input_hooks s' ++ bind_lists s' = replicate (NUM_INPUT_EVENTS + 6) None ∨
   (input_initialized s = false ∧ input_hooks s' = input_hooks s ∧
    bind_lists s' = bind_lists s)).
Proof.
  intros Hwf Hcall.
  destruct Hcall as
    [window s|s s' Hrun|event_id handler s s' Hrun
    |event_id handler s s' Hrun|key func data type s
    |key func type s s' Hrun|bind s s' Hrun
    |button area func data type s handle s' Hrun
    |button func type s s' Hrun|bind s s' Hrun
    |bind button s s' Hrun|bind area s s' Hrun|bind func s s' Hrun
    |bind data s s' Hrun|block s
    |type x y button wheel s w ret s' w' calls Hrun].
  - destruct window as [win|]; [|unchanged_state]. split; [done|]. by intros [=].
  - destruct (input_initialized s) eqn:Hinit.
    + destruct (input_shutdown_spec s Hwf) as (s1 & Hs1 & _ & _ & Hc & _).
      rewrite Hrun in Hs1. injection Hs1 as <-. split; [done|]. intros _.
      left. pose proof Hwf as (Hlen & _).
      unfold input_shutdown in Hrun. rewrite Hinit in Hrun.
      cbn [negb] in Hrun.
      destruct (destroy_hook_lists _ _ _) as [[hooks m0]|] eqn:Hhooks;
        [|done].
      cbn [mbind option_bind] in Hrun.
      repeat (destruct (input_cleanup_list _ _); [|done];
              cbn [mbind option_bind] in Hrun).
      injection Hrun as <-.
      apply destroy_hook_lists_result in Hhooks; [|lia].
      rewrite drop_ge, app_nil_r in Hhooks by lia. subst hooks.
      by rewrite replicate_add.
    + unfold input_shutdown in Hrun. rewrite Hinit in Hrun.
      injection Hrun as <-. unchanged_state.
  - unfold input_add_hook in Hrun.
    destruct (input_initialized s) eqn:Hinit; cbn [negb] in Hrun;
      [|injection Hrun as <-; unchanged_state].
    destruct (NUM_INPUT_EVENTS <=? event_id)%nat;
      [injection Hrun as <-; unchanged_state|].
    destruct (hook_list event_id s) as [l|]; [|done].
    injection Hrun as <-. split; [done|]. simpl. congruence.
  - destruct (input_initialized s) eqn:Hinit;
      [|unfold input_remove_hook in Hrun; rewrite Hinit in Hrun;
        injection Hrun as <-; unchanged_state].
    destruct (decide (event_id < NUM_INPUT_EVENTS)%nat) as [Hid|Hid].
    2:{ unfold input_remove_hook in Hrun. rewrite Hinit in Hrun.
        apply Nat.nlt_ge, Nat.leb_le in Hid. rewrite Hid in Hrun.
        injection Hrun as <-. unchanged_state. }
    destruct (wf_hook_list_some s event_id Hwf Hinit Hid) as [l Hl].
    rewrite (input_remove_hook_spec _ _ _ _ Hwf Hinit Hid Hl) in Hrun.
    injection Hrun as <-.
    destruct (head (filter _ l)) as [p|]; [|unchanged_state].
    split; [done|]. simpl. congruence.
  - unfold input_add_key_bind.
    destruct (input_initialized s) eqn:Hinit; cbn [negb]; [|unchanged_state].
    destruct (key_bind_list type s) as [l|]; [|unchanged_state].
    split; [done|]. simpl. congruence.
  - unfold input_remove_key_bind_from_list in Hrun.
    destruct (input_initialized s) eqn:Hinit; cbn [negb] in Hrun;
      [|injection Hrun as <-; unchanged_state].
    destruct (key_bind_list type s) as [l|];
      [|injection Hrun as <-; unchanged_state].
    destruct (list_foreach_safe _ _ _) as [[l' m']|]; [|done].
    injection Hrun as <-. split; [done|]. simpl. congruence.
  - unfold input_remove_key_bind in Hrun. destruct bind as [p|]; [|done].
    cbn [mbind option_bind] in Hrun.
    destruct (load_keybind (heap s) p) as [b|]; [|done].
    cbn [mbind option_bind] in Hrun.
    unfold input_remove_key_bind_from_list in Hrun.
    destruct (input_initialized s) eqn:Hinit; cbn [negb] in Hrun;
      [|injection Hrun as <-; unchanged_state].
    destruct (key_bind_list (KeyBind.type b) s) as [l|];
      [|injection Hrun as <-; unchanged_state].
    destruct (list_foreach_safe _ _ _) as [[l' m']|]; [|done].
    injection Hrun as <-. split; [done|]. simpl. congruence.
  - unfold input_add_mouse_bind in Hrun.
    destruct (input_initialized s) eqn:Hinit; cbn [negb] in Hrun;
      [|injection Hrun as _ <-; unchanged_state].
    destruct (mouse_bind_list type s) as [l|];
      [|injection Hrun as _ <-; unchanged_state].
    destruct area as [bounds|]; [|done].
    injection Hrun as _ <-. split; [done|]. simpl. congruence.
  - unfold input_remove_mouse_bind_from_list in Hrun.
    destruct (input_initialized s) eqn:Hinit; cbn [negb] in Hrun;
      [|injection Hrun as <-; unchanged_state].
    destruct (mouse_bind_list type s) as [l|];
      [|injection Hrun as <-; unchanged_state].
    destruct (list_foreach_safe _ _ _) as [[l' m']|]; [|done].
    injection Hrun as <-. split; [done|]. simpl. congruence.
  - unfold input_remove_mouse_bind in Hrun. destruct bind as [p|]; [|done].
    cbn [mbind option_bind] in Hrun.
    destruct (load_mousebind (heap s) p) as [b|]; [|done].
    cbn [mbind option_bind] in Hrun.
    unfold input_remove_mouse_bind_from_list in Hrun.
    destruct (input_initialized s) eqn:Hinit; cbn [negb] in Hrun;
      [|injection Hrun as <-; unchanged_state].
    destruct (mouse_bind_list (MouseBind.type b) s) as [l|];
      [|injection Hrun as <-; unchanged_state].
    destruct (list_foreach_safe _ _ _) as [[l' m']|]; [|done].
    injection Hrun as <-. split; [done|]. simpl. congruence.
  - unfold input_set_mousebind_button in Hrun.
    destruct bind as [p|]; [|injection Hrun as <-; unchanged_state].
    destruct (load_mousebind (heap s) p) as [b|]; [|done].
    injection Hrun as <-. split; [done|]. intros Hn. by right.
  - unfold input_set_mousebind_rect in Hrun.
    destruct bind as [p|]; [|injection Hrun as <-; unchanged_state].
    destruct area as [bounds|]; [|done].
    destruct (load_mousebind (heap s) p) as [b|]; [|done].
    injection Hrun as <-. split; [done|]. intros Hn. by right.
  - unfold input_set_mousebind_func in Hrun.
    destruct bind as [p|]; [|injection Hrun as <-; unchanged_state].
    destruct (load_mousebind (heap s) p) as [b|]; [|done].
    injection Hrun as <-. split; [done|]. intros Hn. by right.
  - unfold input_set_mousebind_param in Hrun.
    destruct bind as [p|]; [|injection Hrun as <-; unchanged_state].
    destruct (load_mousebind (heap s) p) as [b|]; [|done].
    injection Hrun as <-. split; [done|]. intros Hn. by right.
  - split; [done|]. intros Hn. by right.
  - unfold input_handle_mouse_event in Hrun.
    destruct (input_initialized s) eqn:Hinit; cbn [negb] in Hrun;
      [|injection Hrun as _ <- _ _; unchanged_state].
    destruct (NUM_INPUT_EVENTS <=? type)%nat;
      [injection Hrun as _ <- _ _; unchanged_state|].
    destruct (hook_list type s) as [l|]; [|done].
    cbn [mbind option_bind] in Hrun.
    destruct (list_empty l); [injection Hrun as _ <- _ _; unchanged_state|].
    destruct (call_hooks _ _ _ _ _) as [[[? ?]|[[? ?] ?]]|]; [| |done];
      simpl in Hrun; injection Hrun as _ <- _ _;
      (split; [done|]); simpl; congruence.
Qed.

(** X1.  In every state that calls of the library lead to from the
    static initialisers: the event table has [NUM_INPUT_EVENTS]
    entries; a list pointer is non-null exactly when the library is
    initialised; no node sits in two lists or twice in one; the nodes
    of a hook list are live hook records, those of a bind list live
    bind records of that list's kind. *)
Theorem reachable_state_shape s :
  reachable s →
  length (input_hooks s) = NUM_INPUT_EVENTS ∧
  Forall (λ o, is_Some o ↔ input_initialized s = true)
    (input_hooks s ++ bind_lists s) ∧
  NoDup (nodes_of (input_hooks s ++ bind_lists s)) ∧
  (∀ e l p, hook_list e s = Some l → p ∈ l →
     is_Some (load_hook (heap s) p)) ∧
  (∀ t l p, key_bind_list t s = Some l → p ∈ l →
     ∃ b, load_keybind (heap s) p = Some b ∧ KeyBind.type b = t) ∧
  (∀ t l p, mouse_bind_list t s = Some l → p ∈ l →
     ∃ b, load_mousebind (heap s) p = Some b ∧ MouseBind.type b = t).
Proof.
  intros Hrun. pose proof (reachable_wf s Hrun) as Hwf.
  assert (input_initialized s = false →
          input_hooks s ++ bind_lists s
          = replicate (NUM_INPUT_EVENTS + 6) None) as Hnull.
  { clear Hwf. unfold reachable in Hrun.
    eapply (rtc_ind_r
              (λ s, input_initialized s = false →
                    input_hooks s ++ bind_lists s
                    = replicate (NUM_INPUT_EVENTS + 6) None));
      [|intros y z Hy Hcall IHn|exact Hrun].
    - intros _. simpl. by rewrite replicate_add.
    - destruct (api_call_lists y z (reachable_wf y Hy) Hcall) as [_ Hl].
      intros Hn.
      destruct (Hl Hn) as [Hnone|(Hyn & Hh & Hb)]; [done|].
      rewrite Hh, Hb. by apply IHn. }
  pose proof Hwf as (Hlen & Hsome & Hnd & _).
  split; [done|]. split; [|split; [done|]].
  - destruct (input_initialized s) eqn:Hinit.
    + eapply Forall_impl; [by apply Hsome|]. intros o Ho. by split.
    + rewrite (Hnull eq_refl). apply Forall_replicate.
      split; [by intros [? [=]]|done].
  - split; [|split].
    + intros e l p Hl Hp. destruct (wf_hook_list _ _ _ Hwf Hl) as [_ Hat].
      by eapply Forall_forall in Hat.
    + intros t l p Hl Hp.
      destruct (wf_key_bind_list _ _ _ Hwf Hl) as [_ Hat].
      eapply Forall_forall in Hat; [|done]. by apply keybind_at_load.
    + intros t l p Hl Hp.
      destruct (wf_mouse_bind_list _ _ _ Hwf Hl) as [_ Hat].
      eapply Forall_forall in Hat; [|done]. by apply mousebind_at_load.
Qed.

(** ** Mouse binds: registration and stores through a handle *)

Lemma mouse_bind_entry_point_unfold type button x y s w :
  mouse_bind_entry_point type button x y s w
  = if negb (input_initialized s) then Some (true, w, []) else
    l ← mouse_bind_list type s;
    call_mouse_binds (mouse_bind_fires type button x y)
      (mouse_bind_argument type button) x y (heap s) (view_of s) l w.
Proof. by destruct type. Qed.

Lemma call_mouse_binds_after_push applies button x y
    (m : gmap positive object) p record (l : list positive) seen w ret w1
    calls :
  p ∉ l →
  call_mouse_binds applies button x y m seen l w = Some (ret, w1, calls) →
  call_mouse_binds applies button x y (<[p := ObjMouseBind record]> m) seen
    (list_push l p) w
  = Some (if applies record then
            let '(r, w2) :=
              call_mousebind_func (MouseBind.handler record) button x y
                (MouseBind.userdata record) seen w1 in
            (ret && r, w2,
             calls ++ [MouseBindCall p (MouseBind.handler record) button x y
                         (MouseBind.userdata record) seen r])
          else (ret, w1, calls)).
Proof.
  intros Hp Hrun.
  rewrite <- (call_mouse_binds_same_cells applies button x y m
                (<[p := ObjMouseBind record]> m)) in Hrun.
  2:{ intros q Hq. apply lookup_insert_ne. by intros ->. }
  unfold call_mouse_binds, list_push in *.
  rewrite list_foreach_safe_app, Hrun. simpl.
  unfold load_mousebind. rewrite lookup_insert_eq. simpl.
  destruct (applies record); [|done].
  destruct (call_mousebind_func _ _ _ _ _ _ _) as [r w2].
  by destruct r, ret.
Qed.

(** X13.  A mouse bind registered with a rectangle on an initialised
    library is called after the binds registered before it: the entry
    point of its kind does what it did before, in the same order, and
    then, if the new record passes the test (the rectangle, and for the
    button kinds the button), calls the new handler with the button the
    entry point hands out, the coordinates and the registered userdata,
    and folds its answer into the result. *)
Theorem new_mouse_bind_is_called_last s button bounds func data type b x y w
    ret w1 calls :
  wf s → input_initialized s = true →
  mouse_bind_entry_point type b x y s w = Some (ret, w1, calls) →
  let p := mem_alloc_clean (heap s) in
  let record := {| MouseBind.type := type; MouseBind.bounds := bounds;
                   MouseBind.button := button; MouseBind.handler := func;
                   MouseBind.userdata := data |} in
  ∃ s',
    input_add_mouse_bind button (Some bounds) func data type s
    = Some (Some p, s') ∧
    heap s !! p = None ∧
    mouse_bind_entry_point type b x y s' w
    = Some (if mouse_bind_fires type b x y record then
              let '(r, w2) :=
                call_mousebind_func func (mouse_bind_argument type b) x y
                  data (view_of s) w1 in
              (ret && r, w2,
               calls ++ [MouseBindCall p func (mouse_bind_argument type b)
                           x y data (view_of s) r])
            else (ret, w1, calls)).
Proof.
  intros Hwf Hinit Hrun p record.
  destruct (wf_mouse_bind_list_some s type Hwf Hinit) as [l Hl].
  pose proof (mem_alloc_clean_fresh (heap s)) as Hfresh.
  assert (p ∉ l) as Hp.
  { eapply wf_fresh_not_in_list; [done| |done].
    by eapply mouse_bind_list_elem. }
  unfold input_add_mouse_bind. rewrite Hinit, Hl.
  cbn [negb mbind option_bind].
  eexists. split; [reflexivity|]. split; [done|].
  rewrite mouse_bind_entry_point_unfold in Hrun |- *.
  rewrite Hinit in Hrun. cbn [negb] in Hrun |- *.
  rewrite Hl in Hrun. cbn [mbind option_bind] in Hrun.
  rewrite mouse_bind_list_set_eq. cbn [mbind option_bind].
  change (heap (set_mouse_bind_list type _ (set_heap ?m s))) with m.
  change (view_of (set_mouse_bind_list type _ (set_heap _ s)))
    with (view_of s).
  change (input_initialized (set_mouse_bind_list type _ (set_heap _ s)))
    with (input_initialized s).
  rewrite Hinit. cbn [negb].
  by rewrite (call_mouse_binds_after_push _ _ _ _ _ _ _ _ _ _ _ _ _ Hp Hrun).
Qed.

Lemma mouse_bind_applies_store applies (m : gmap positive object) p b' q :
  mouse_bind_applies applies (<[p := ObjMouseBind b']> m) q
  = if decide (q = p) then applies b' else mouse_bind_applies applies m q.
Proof.
  unfold mouse_bind_applies, load_mousebind.
  destruct (decide (q = p)) as [->|Hne].
  - by rewrite lookup_insert_eq.
  - by rewrite lookup_insert_ne.
Qed.

(** Dispatch after a record has been overwritten in place. *)
Lemma dispatch_after_store s p b b' l type button x y w :
  wf s → input_initialized s = true →
  load_mousebind (heap s) p = Some b →
  MouseBind.type b' = MouseBind.type b →
  mouse_bind_list type s = Some l →
  let s' := set_heap (<[p := ObjMouseBind b']> (heap s)) s in
  ∃ ret w' calls,
    mouse_bind_entry_point type button x y s' w = Some (ret, w', calls) ∧
    (p ∈ call_node <$> calls ↔
     p ∈ l ∧ mouse_bind_fires type button x y b' = true) ∧
    (∀ q, q ≠ p →
       q ∈ call_node <$> calls ↔
       q ∈ l ∧ mouse_bind_applies (mouse_bind_fires type button x y)
                 (heap s) q = true) ∧
    ∀ c, c ∈ calls → call_node c = p →
      c = MouseBindCall p (MouseBind.handler b')
            (mouse_bind_argument type button) x y (MouseBind.userdata b')
            (view_of s) (call_result c).
Proof using Type call_input_handler call_keybind_func.
  intros Hwf Hinit Hb Htype Hl s'.
  pose proof (wf_store_mousebind s p b b' Hwf Hb Htype) as Hwf'.
  destruct (mouse_bind_dispatch_spec s' type
              (mouse_bind_fires type button x y)
              (mouse_bind_argument type button) x y w Hwf' Hinit)
    as (l' & w' & calls & Hl' & Heq & _ & Hcalls).
  change (mouse_bind_list type s') with (mouse_bind_list type s)
    in Hl', Hcalls.
  rewrite Hl in Hl', Hcalls. injection Hl' as <-.
  exists (forallb call_result calls), w', calls.
  assert (∀ q, q ∈ call_node <$> calls ↔
               q ∈ l ∧ (if decide (q = p)
                        then mouse_bind_fires type button x y b'
                        else mouse_bind_applies
                               (mouse_bind_fires type button x y) (heap s) q)
                       = true) as Hnodes.
  { intros q. rewrite (mouse_bind_calls_nodes _ _ _ _ _ _ _ Hcalls).
    unfold chosen_mouse_binds. cbn [default].
    rewrite list_elem_of_filter. cbn [heap s' set_heap].
    rewrite mouse_bind_applies_store.
    split; intros [H1 H2]; split; try done; by apply Is_true_true. }
  split; [|split; [|split]].
  - rewrite mouse_bind_entry_point_unfold.
    change (input_initialized s') with (input_initialized s).
    change (mouse_bind_list type s') with (mouse_bind_list type s).
    by rewrite Hinit, Hl.
  - rewrite Hnodes. by rewrite decide_True.
  - intros q Hq. rewrite Hnodes. by rewrite decide_False.
  - intros c Hc Hnode.
    apply list_elem_of_lookup in Hc as [i Hi].
    destruct (Forall2_lookup_r _ _ _ _ _ Hcalls Hi)
      as (q & _ & bind & Hbind & Hcq).
    rewrite Hcq in Hnode. cbn [call_node] in Hnode. subst q.
    unfold load_mousebind in Hbind. cbn [heap s' set_heap] in Hbind.
    rewrite lookup_insert_eq in Hbind. injection Hbind as <-.
    exact Hcq.
Qed.

(** X12.  The handle of a mouse bind and the node of its list are the
    same record: what [input_set_mousebind_button], [_rect], [_func] or
    [_param] stores through the handle is what the next dispatch of the
    bind's kind tests and calls.  Only that record changes; the lists
    and every other record are as before, so the other binds are tested
    as before; and the call made for the record carries the handler and
    the userdata now stored in it. *)
Theorem mouse_bind_store_reaches_dispatch s p b l s' b' :
  wf s → input_initialized s = true →
  load_mousebind (heap s) p = Some b →
  mouse_bind_list (MouseBind.type b) s = Some l →
  (∃ button, input_set_mousebind_button (Some p) button s = Some s' ∧
             b' = MouseBind.with_button button b) ∨
  (∃ area, input_set_mousebind_rect (Some p) (Some area) s = Some s' ∧
           b' = MouseBind.with_bounds area b) ∨
  (∃ func, input_set_mousebind_func (Some p) func s = Some s' ∧
           b' = MouseBind.with_handler func b) ∨
  (∃ data, input_set_mousebind_param (Some p) data s = Some s' ∧
           b' = MouseBind.with_userdata data b) →
  load_mousebind (heap s') p = Some b' ∧
  (∀ q, q ≠ p → heap s' !! q = heap s !! q) ∧
  (∀ type, mouse_bind_list type s' = mouse_bind_list type s) ∧
  ∀ button x y w, ∃ ret w' calls,
    mouse_bind_entry_point (MouseBind.type b) button x y s' w
    = Some (ret, w', calls) ∧
    (p ∈ call_node <$> calls ↔
     p ∈ l ∧ mouse_bind_fires (MouseBind.type b) button x y b' = true) ∧
    (∀ q, q ≠ p →
       q ∈ call_node <$> calls ↔
       q ∈ l ∧ mouse_bind_applies
                 (mouse_bind_fires (MouseBind.type b) button x y)
                 (heap s) q = true) ∧
    ∀ c, c ∈ calls → call_node c = p →
      c = MouseBindCall p (MouseBind.handler b')
            (mouse_bind_argument (MouseBind.type b) button) x y
            (MouseBind.userdata b') (view_of s) (call_result c).
Proof using Type call_input_handler call_keybind_func.
  intros Hwf Hinit Hb Hl Hstore.
  assert (s' = set_heap (<[p := ObjMouseBind b']> (heap s)) s ∧
          MouseBind.type b' = MouseBind.type b) as [-> Htype].
  { destruct Hstore as [(v & Hs & ->)|[(v & Hs & ->)|[(v & Hs & ->)
                         |(v & Hs & ->)]]];
      [unfold input_set_mousebind_button in Hs
      |unfold input_set_mousebind_rect in Hs
      |unfold input_set_mousebind_func in Hs
      |unfold input_set_mousebind_param in Hs];
      rewrite Hb in Hs; cbn [mbind option_bind] in Hs;
      injection Hs as <-; by destruct b. }
  split; [|split; [|split]].
  - unfold load_mousebind. cbn [heap set_heap]. by rewrite lookup_insert_eq.
  - intros q Hq. cbn [heap set_heap]. by rewrite lookup_insert_ne.
  - by intros [].
  - intros button x y w.
    by apply (dispatch_after_store s p b b' l).
Qed.

(** ** Hooks: registration followed by removal *)

(** X14.  Registering a hook and then removing the same handler from the
    same event leaves the library exactly as it was, provided the event
    had no hook with that handler before. *)
Theorem hook_add_then_remove s event_id handler l :
  wf s → input_initialized s = true →
  (event_id < NUM_INPUT_EVENTS)%nat →
  hook_list event_id s = Some l →
  Forall (λ q, hook_has_handler (heap s) handler q = false) l →
  input_add_hook event_id handler s ≫= input_remove_hook event_id handler
  = Some s.
Proof.
  intros Hwf Hinit Hid Hl Hnone.
  pose proof (input_add_hook_spec s event_id handler l Hinit Hid Hl) as Hadd.
  pose proof (input_add_hook_wf event_id handler s _ Hwf Hadd) as Hwf'.
  pose proof (mem_alloc_clean_fresh (heap s)) as Hfresh.
  assert (Some l ∈ input_hooks s ++ bind_lists s) as Hin.
  { apply elem_of_app. left. by eapply hook_list_elem. }
  pose proof (fresh_cell_keeps_list s l
                (ObjHook {| InputHookFunc.handler := handler |})
                Hwf Hin) as Hkeep.
  pose proof Hwf as (Hlen & _).
  rewrite Hadd. cbn [mbind option_bind].
  set (p := mem_alloc_clean (heap s)) in *.
  set (s1 := set_input_hooks _ _) in *.
  assert (hook_list event_id s1 = Some (l ++ [p])) as Hl1.
  { apply (hook_list_insert_eq event_id _ s s1); [lia|done]. }
  rewrite (input_remove_hook_spec s1 event_id handler (l ++ [p])
             Hwf' Hinit Hid Hl1).
  assert (Forall (λ q, hook_has_handler (heap s1) handler q = false) l)
    as Hnone'.
  { apply Forall_forall. intros q Hq.
    eapply Forall_forall in Hnone; [|exact Hq].
    unfold hook_has_handler, load_hook in *. cbn [heap s1 set_input_hooks
      set_heap]. by rewrite (Hkeep q Hq). }
  assert (hook_has_handler (heap s1) handler p = true) as Hp.
  { unfold hook_has_handler, load_hook. cbn [heap s1 set_input_hooks
      set_heap]. rewrite lookup_insert_eq. simpl. apply Z.eqb_refl. }
  destruct (filter_none_selected _ l Hnone') as [Hhits _].
  rewrite filter_app, Hhits.
  rewrite (filter_cons_True (λ q, hook_has_handler (heap s1) handler q) p [])
    by (cbv beta; rewrite Hp; exact I).
  cbn [app head]. f_equal.
  assert (p ∉ l) as Hpl.
  { exact (wf_fresh_not_in_list s l p Hwf Hin Hfresh). }
  assert (list_remove (l ++ [p]) p = l) as Hrem.
  { unfold list_remove. rewrite filter_app.
    rewrite (filter_cons_False (λ n, n ≠ p) p []) by (intros Hn; by apply Hn).
    rewrite filter_nil, app_nil_r.
    clear -Hpl. induction l as [|a l IH]; [done|].
    apply not_elem_of_cons in Hpl as [Hne Hpl].
    rewrite filter_cons_True by (intros ->; done).
    by rewrite IH. }
  rewrite Hrem. cbn [heap input_hooks s1 set_input_hooks set_heap].
  rewrite list_insert_insert_eq, delete_insert_eq, delete_id by done.
  rewrite list_insert_id.
  - by destruct s.
  - unfold hook_list in Hl.
    destruct (input_hooks s !! event_id) as [o|]; [|done].
    simpl in Hl. by subst o.
Qed.

(** ** Removal followed by dispatch, elsewhere *)

(** A loop over a list from which nodes were taken out does what it did
    over the whole list, when the body did nothing at those nodes. *)
Lemma list_foreach_safe_skip {S : Type} (hit : positive → bool)
    (l : list positive) (body body' : positive → S → option S) :
  (∀ q st, q ∈ l → hit q = true → body q st = Some st) →
  (∀ q st, q ∈ l → hit q = false → body' q st = body q st) →
  ∀ st,
    list_foreach_safe (filter (λ q, negb (hit q)) l) body' st
    = list_foreach_safe l body st.
Proof.
  induction l as [|a l IH]; intros Hskip Hsame st; [done|].
  assert (∀ st', list_foreach_safe (filter (λ q, negb (hit q)) l) body' st'
                 = list_foreach_safe l body st') as IH'.
  { apply IH.
    - intros q st' Hq. apply Hskip. by right.
    - intros q st' Hq. apply Hsame. by right. }
  destruct (hit a) eqn:Ha.
  - rewrite filter_cons_False by (rewrite Ha; exact id).
    cbn [list_foreach_safe]. rewrite (Hskip a st) by (done || by left).
    apply IH'.
  - rewrite filter_cons_True by (rewrite Ha; exact I).
    cbn [list_foreach_safe]. rewrite (Hsame a st) by (done || by left).
    destruct (body a st) as [st'|]; [apply IH'|done].
Qed.

Lemma call_key_binds_skip applies key (m m' : gmap positive object) seen
    (hit : positive → bool) (l : list positive) w :
  Forall (λ q, is_Some (load_keybind m q)) l →
  (∀ q, q ∈ l → hit q = true → key_bind_applies applies m q = false) →
  (∀ q, q ∈ l → hit q = false → m' !! q = m !! q) →
  call_key_binds applies key m' seen (filter (λ q, negb (hit q)) l) w
  = call_key_binds applies key m seen l w.
Proof.
  intros Hlive Hskip Hsame. unfold call_key_binds.
  apply list_foreach_safe_skip.
  - intros q [[ret w0] calls] Hq Hhit.
    eapply Forall_forall in Hlive as [b Hb]; [|exact Hq].
    specialize (Hskip q Hq Hhit). unfold key_bind_applies in Hskip.
    rewrite Hb in Hskip |- *. simpl in Hskip |- *. by rewrite Hskip.
  - intros q [[ret w0] calls] Hq Hhit. unfold load_keybind.
    by rewrite (Hsame q Hq Hhit).
Qed.

(** The entry points that do not walk the key bind list [type] give the
    same outcome when that list is replaced and the memory changed
    outside the nodes of the other lists. *)
Lemma key_list_change_is_local s type v (m : gmap positive object) :
  (∀ t l q, t ≠ type → key_bind_list t s = Some l → q ∈ l →
     m !! q = heap s !! q) →
  (∀ e l q, hook_list e s = Some l → q ∈ l → m !! q = heap s !! q) →
  (∀ t l q, mouse_bind_list t s = Some l → q ∈ l → m !! q = heap s !! q) →
  let s' := set_key_bind_list type v (set_heap m s) in
  (∀ t k w, t ≠ type →
     key_bind_entry_point t k s' w = key_bind_entry_point t k s w) ∧
  (∀ e k w,
     input_handle_keyboard_event e k s' w
     = input_handle_keyboard_event e k s w) ∧
  (∀ t b x y w,
     mouse_bind_entry_point t b x y s' w
     = mouse_bind_entry_point t b x y s w).
Proof.
  intros Hkey Hhook Hmouse s'. repeat apply conj.
  - intros t k w Hne. rewrite !key_bind_entry_point_unfold.
    change (input_initialized s') with (input_initialized s).
    destruct (input_initialized s); [|done]. cbn [negb].
    unfold s'. rewrite key_bind_list_set_ne by done.
    change (key_bind_list t (set_heap m s)) with (key_bind_list t s).
    destruct (key_bind_list t s) as [l|] eqn:Hl; [|done].
    cbn [mbind option_bind].
    apply call_key_binds_same_cells. intros q Hq. by eapply Hkey.
  - intros e k w. unfold input_handle_keyboard_event.
    change (input_initialized s') with (input_initialized s).
    destruct (input_initialized s); [|done]. cbn [negb].
    destruct (NUM_INPUT_EVENTS <=? e)%nat; [done|].
    change (hook_list e s') with (hook_list e s).
    destruct (hook_list e s) as [l|] eqn:Hl; [|done].
    cbn [mbind option_bind]. destruct (list_empty l); [done|].
    change (heap s') with m. change (view_of s') with (view_of s).
    change (block_keys s') with (block_keys s).
    rewrite (call_hooks_same_cells (heap s)); [done|].
    intros q Hq. by eapply Hhook.
  - intros t b x y w. rewrite !mouse_bind_entry_point_unfold.
    change (input_initialized s') with (input_initialized s).
    destruct (input_initialized s); [|done]. cbn [negb].
    change (mouse_bind_list t s') with (mouse_bind_list t s).
    destruct (mouse_bind_list t s) as [l|] eqn:Hl; [|done].
    cbn [mbind option_bind].
    apply call_mouse_binds_same_cells. intros q Hq. by eapply Hmouse.
Qed.

(** X15.  The bulk removal of [(key, func)] from a key bind list is
    felt only where it should be: dispatching another key on that list
    (key-down and key-up lists; a char bind is called whatever the key)
    and every dispatch on the other key bind lists, the keyboard event
    entry point and the mouse bind entry points do after the removal
    exactly what they did before it. *)
Theorem key_bind_removal_is_local s key func type s' :
  wf s → input_remove_key_bind_from_list key func type s = Some s' →
  (∀ k w, type ≠ BIND_CHAR → k ≠ key →
     key_bind_entry_point type k s' w = key_bind_entry_point type k s w) ∧
  (∀ t k w, t ≠ type →
     key_bind_entry_point t k s' w = key_bind_entry_point t k s w) ∧
  (∀ e k w,
     input_handle_keyboard_event e k s' w
     = input_handle_keyboard_event e k s w) ∧
  (∀ t b x y w,
     mouse_bind_entry_point t b x y s' w
     = mouse_bind_entry_point t b x y s w).
Proof.
  intros Hwf Hrem.
  destruct (input_initialized s) eqn:Hinit.
  2:{ unfold input_remove_key_bind_from_list in Hrem.
      rewrite Hinit in Hrem. by injection Hrem as <-. }
  destruct (wf_key_bind_list_some s type Hwf Hinit) as [l Hl].
  rewrite (input_remove_key_bind_from_list_spec _ _ _ _ _ Hwf Hinit Hl)
    in Hrem.
  injection Hrem as <-.
  set (sel := key_bind_selected (heap s) key func).
  destruct (wf_key_bind_list _ _ _ Hwf Hl) as [_ Hat].
  destruct (nodes_split_key_bind_list type l s Hl)
    as (others & Hperm & _ & Hhooks & Hkeys & Hmice).
  pose proof Hwf as (_ & _ & Hnd & _). rewrite Hperm in Hnd.
  apply NoDup_app in Hnd as (_ & Hdis & _).
  assert (∀ q, q ∈ others →
               foldr delete (heap s) (filter (λ q, sel q) l) !! q
               = heap s !! q) as Hother.
  { intros q Hq. apply lookup_foldr_delete_other.
    intros [_ Hin]%list_elem_of_filter. by eapply Hdis. }
  split.
  - intros k w Htype Hk. rewrite !key_bind_entry_point_unfold.
    cbn [input_initialized set_key_bind_list set_heap].
    rewrite Hinit, key_bind_list_set_eq, Hl. cbn [negb mbind option_bind].
    change (heap (set_key_bind_list type _ (set_heap ?m s))) with m.
    change (view_of (set_key_bind_list type _ (set_heap _ s)))
      with (view_of s).
    apply call_key_binds_skip.
    + eapply Forall_impl; [exact Hat|]. intros q Hq.
      apply keybind_at_load in Hq as (b & Hb & _). by exists b.
    + intros q Hq Hsel. unfold key_bind_applies.
      unfold sel, key_bind_selected in Hsel.
      destruct (load_keybind (heap s) q) as [b|]; [|done]. simpl.
      apply andb_true_iff in Hsel as [Hkey%Z.eqb_eq _].
      destruct type; [| |done]; simpl; apply Z.eqb_neq; congruence.
    + intros q Hq Hsel. apply remove_hits_kept.
      apply list_elem_of_filter. split; [by rewrite Hsel|done].
  - apply key_list_change_is_local.
    + intros t lt q Hne Hlt Hq. apply Hother. by eapply Hkeys.
    + intros e lt q Hlt Hq. apply Hother. by eapply Hhooks.
    + intros t lt q Hlt Hq. apply Hother. by eapply Hmice.
Qed.

(** X16.  What the inverted test of the mouse bind removal leaves
    behind: after the bulk removal of [(button, func)] from the
    button-up or the button-down list, a dispatch of [button] on that
    list calls no handler but [func]. *)
Theorem mouse_removal_keeps_only_handler s button func type s' x y w ret w'
    calls :
  wf s → type ≠ BIND_MOVE →
  input_remove_mouse_bind_from_list button func type s = Some s' →
  mouse_bind_entry_point type button x y s' w = Some (ret, w', calls) →
  Forall (λ c, ∃ node data r,
            c = MouseBindCall node func button x y data (view_of s) r) calls.
Proof using Type call_input_handler call_keybind_func.
  intros Hwf Htype Hrem Hrun.
  destruct (input_initialized s) eqn:Hinit.
  2:{ unfold input_remove_mouse_bind_from_list in Hrem.
      rewrite Hinit in Hrem. injection Hrem as <-.
      rewrite mouse_bind_entry_point_unfold, Hinit in Hrun.
      injection Hrun as _ _ <-. constructor. }
  pose proof (input_remove_mouse_bind_from_list_wf _ _ _ _ _ Hwf Hrem)
    as Hwf'.
  destruct (wf_mouse_bind_list_some s type Hwf Hinit) as [l Hl].
  rewrite (input_remove_mouse_bind_from_list_spec _ _ _ _ _ Hwf Hinit Hl)
    in Hrem.
  injection Hrem as <-.
  set (sel := mouse_bind_selected (heap s) button func) in *.
  set (s' := set_mouse_bind_list type _ _) in *.
  destruct (mouse_bind_dispatch_spec s' type
              (mouse_bind_fires type button x y)
              (mouse_bind_argument type button) x y w Hwf' Hinit)
    as (l' & w1 & calls1 & Hl' & Heq & _ & Hcalls).
  rewrite mouse_bind_entry_point_unfold in Hrun.
  change (input_initialized s') with (input_initialized s) in Hrun.
  rewrite Hinit, Hl' in Hrun. cbn [negb mbind option_bind] in Hrun.
  rewrite Heq in Hrun. injection Hrun as _ _ <-.
  unfold chosen_mouse_binds in Hcalls. rewrite Hl' in Hcalls.
  unfold s' in Hl'. rewrite mouse_bind_list_set_eq in Hl'.
  injection Hl' as <-. cbn [default] in Hcalls.
  eapply Forall2_Forall_r; [exact Hcalls|].
  apply Forall_forall. intros q [Happ Hq]%list_elem_of_filter.
  intros c (b & Hb & Hc).
  assert (heap s' !! q = heap s !! q) as Hcell
    by (by apply remove_hits_kept).
  apply list_elem_of_filter in Hq as [Hsel _].
  unfold mouse_bind_applies in Happ. rewrite Hb in Happ. simpl in Happ.
  unfold load_mousebind in Hb. rewrite Hcell in Hb.
  unfold sel, mouse_bind_selected, load_mousebind in Hsel.
  destruct (heap s !! q) as [[| |b0]|]; try done.
  injection Hb as ->.
  assert (mouse_bind_argument type button = button) as Harg
    by (by destruct type).
  assert ((MouseBind.button b =? button) = true) as Hbutton.
  { destruct type; try done; simpl in Happ;
      by apply Is_true_true, andb_true_iff in Happ as [? _]. }
  rewrite Hbutton in Hsel. simpl in Hsel.
  destruct (MouseBind.handler b =? func) eqn:Hfunc; [|done].
  apply Z.eqb_eq in Hfunc. rewrite Hc, Harg, Hfunc.
  by eexists _, _, _.
Qed.

(** ** No call misbehaves on a reachable state *)

(** X17.  On every state the library can reach, the calls that take no
    handle run to their end: none of them follows a null list pointer
    or reads a record that has been freed.  The calls that take a
    handle do so when the handle is that of a live record. *)
Theorem calls_on_reachable_states_return s :
  reachable s →
  is_Some (input_shutdown s) ∧
  (∀ e h, is_Some (input_add_hook e h s)) ∧
  (∀ e h, is_Some (input_remove_hook e h s)) ∧
  (∀ k f t, is_Some (input_remove_key_bind_from_list k f t s)) ∧
  (∀ b f t, is_Some (input_remove_mouse_bind_from_list b f t s)) ∧
  (∀ b area f d t, is_Some (input_add_mouse_bind b (Some area) f d t s)) ∧
  (∀ e k w, is_Some (input_handle_keyboard_event e k s w)) ∧
  (∀ e x y b wheel w, is_Some (input_handle_mouse_event e x y b wheel s w)) ∧
  (∀ t k w, is_Some (key_bind_entry_point t k s w)) ∧
  (∀ t b x y w, is_Some (mouse_bind_entry_point t b x y s w)) ∧
  (∀ p, is_Some (load_keybind (heap s) p) →
     is_Some (input_remove_key_bind (Some p) s)) ∧
  (∀ p, is_Some (load_mousebind (heap s) p) →
     is_Some (input_remove_mouse_bind (Some p) s) ∧
     (∀ b, is_Some (input_set_mousebind_button (Some p) b s)) ∧
     (∀ area, is_Some (input_set_mousebind_rect (Some p) (Some area) s)) ∧
     (∀ f, is_Some (input_set_mousebind_func (Some p) f s)) ∧
     (∀ d, is_Some (input_set_mousebind_param (Some p) d s))).
Proof.
  intros Hwf%reachable_wf.
  assert (∀ k f t, is_Some (input_remove_key_bind_from_list k f t s))
    as Hkrem.
  { intros k f t. destruct (input_initialized s) eqn:Hinit.
    - destruct (wf_key_bind_list_some s t Hwf Hinit) as [l Hl].
      by rewrite (input_remove_key_bind_from_list_spec _ _ _ _ _ Hwf Hinit Hl).
    - unfold input_remove_key_bind_from_list. by rewrite Hinit. }
  assert (∀ b f t, is_Some (input_remove_mouse_bind_from_list b f t s))
    as Hmrem.
  { intros b f t. destruct (input_initialized s) eqn:Hinit.
    - destruct (wf_mouse_bind_list_some s t Hwf Hinit) as [l Hl].
      by rewrite (input_remove_mouse_bind_from_list_spec _ _ _ _ _ Hwf Hinit
                    Hl).
    - unfold input_remove_mouse_bind_from_list. by rewrite Hinit. }
  split.
  { destruct (input_shutdown_spec s Hwf) as (s' & -> & _). by eexists. }
  split.
  { intros e h. unfold input_add_hook.
    destruct (input_initialized s) eqn:Hinit; [|done]. cbn [negb].
    destruct (NUM_INPUT_EVENTS <=? e)%nat eqn:He; [done|].
    apply Nat.leb_gt in He.
    by destruct (wf_hook_list_some s e Hwf Hinit He) as [l ->]. }
  split.
  { intros e h. destruct (input_initialized s) eqn:Hinit;
      [|unfold input_remove_hook; by rewrite Hinit].
    destruct (decide (e < NUM_INPUT_EVENTS)%nat) as [He|He].
    - destruct (wf_hook_list_some s e Hwf Hinit He) as [l Hl].
      by rewrite (input_remove_hook_spec _ _ _ _ Hwf Hinit He Hl).
    - unfold input_remove_hook. rewrite Hinit.
      apply Nat.nlt_ge, Nat.leb_le in He. by rewrite He. }
  split; [exact Hkrem|]. split; [exact Hmrem|].
  split.
  { intros b area f d t. unfold input_add_mouse_bind.
    destruct (input_initialized s); [|done]. cbn [negb].
    by destruct (mouse_bind_list t s). }
  split.
  { intros e k w. unfold input_handle_keyboard_event.
    destruct (input_initialized s) eqn:Hinit; [|done]. cbn [negb].
    destruct (NUM_INPUT_EVENTS <=? e)%nat eqn:He; [done|].
    apply Nat.leb_gt in He.
    destruct (wf_hook_list_some s e Hwf Hinit He) as [l Hl].
    rewrite Hl. cbn [mbind option_bind]. destruct (list_empty l); [done|].
    destruct (wf_hook_list _ _ _ Hwf Hl) as [_ Hat].
    destruct (hook_loop_spec (heap s) (KeyboardEvent e k) (view_of s) l w []
                Hat)
      as (w' & new & _ & _ & [(Heq & _)|(Heq & _)]);
      unfold call_hooks; rewrite Heq; cbn [mbind option_bind]; [|done].
    by destruct (block_keys s). }
  split.
  { intros e x y b wheel w. unfold input_handle_mouse_event.
    destruct (input_initialized s) eqn:Hinit; [|done]. cbn [negb].
    destruct (NUM_INPUT_EVENTS <=? e)%nat eqn:He; [done|].
    apply Nat.leb_gt in He.
    destruct (wf_hook_list_some s e Hwf Hinit He) as [l Hl].
    rewrite Hl. cbn [mbind option_bind]. destruct (list_empty l); [done|].
    destruct (wf_hook_list _ _ _ Hwf Hl) as [_ Hat].
    destruct (hook_loop_spec (heap s)
                (MouseEvent e x y (x - mouse_x s) (y - mouse_y s)
                   (to_uint8 b) (to_uint8 wheel))
                (view_of (set_mouse_pos x y s)) l w [] Hat)
      as (w' & new & _ & _ & [(Heq & _)|(Heq & _)]);
      unfold call_hooks; cbn [heap set_mouse_pos];
      rewrite Heq; by cbn [mbind option_bind]. }
  split.
  { intros t k w. rewrite key_bind_entry_point_unfold.
    destruct (input_initialized s) eqn:Hinit; [|done]. cbn [negb].
    destruct (key_bind_dispatch_spec s t
                (λ bind, key_bind_fires t (KeyBind.key bind) k) k w Hwf Hinit)
      as (l & w' & calls & Hl & Heq & _).
    rewrite Hl. cbn [mbind option_bind]. by rewrite Heq. }
  split.
  { intros t b x y w. rewrite mouse_bind_entry_point_unfold.
    destruct (input_initialized s) eqn:Hinit; [|done]. cbn [negb].
    destruct (mouse_bind_dispatch_spec s t (mouse_bind_fires t b x y)
                (mouse_bind_argument t b) x y w Hwf Hinit)
      as (l & w' & calls & Hl & Heq & _).
    rewrite Hl. cbn [mbind option_bind]. by rewrite Heq. }
  split.
  { intros p [b Hb]. unfold input_remove_key_bind.
    cbn [mbind option_bind]. rewrite Hb. apply Hkrem. }
  intros p [b Hb].
  unfold input_remove_mouse_bind, input_set_mousebind_button,
    input_set_mousebind_rect, input_set_mousebind_func,
    input_set_mousebind_param.
  cbn [mbind option_bind]. rewrite Hb. cbn [mbind option_bind].
  split; [apply Hmrem|]. done.
Qed.

(** ** The record of a registered bind over a later call *)

Lemma wf_bind_node_live s p :
  wf s → p ∈ nodes_of (bind_lists s) → is_Some (heap s !! p).
Proof.
  intros Hwf Hp. pose proof (wf_nodes_live s Hwf) as Hlive.
  eapply Forall_forall in Hlive; [exact Hlive|].
  rewrite nodes_of_app. apply elem_of_app. by right.
Qed.

Lemma wf_bind_node_not_fresh s p o :
  wf s → p ∈ nodes_of (bind_lists s) →
  <[mem_alloc_clean (heap s) := o]> (heap s) !! p = heap s !! p.
Proof.
  intros Hwf Hp. apply lookup_insert_ne. intros Heq.
  destruct (wf_bind_node_live s p Hwf Hp) as [x Hx].
  rewrite <- Heq, mem_alloc_clean_fresh in Hx. done.
Qed.

(** The bulk removals free no record that is still in a bind list
    afterwards. *)
Lemma removal_keeps_listed_records (hit : positive → bool)
    (l others : list positive) (m : gmap positive object) p :
  NoDup (l ++ others) →
  p ∈ filter (λ q, negb (hit q)) l ++ others →
  foldr delete m (filter (λ q, hit q) l) !! p = m !! p.
Proof.
  intros (_ & Hdis & _)%NoDup_app Hp. apply lookup_foldr_delete_other.
  intros [Hhit Hin]%list_elem_of_filter.
  apply elem_of_app in Hp as [[Hno _]%list_elem_of_filter|Hp].
  - by destruct (hit p).
  - by eapply Hdis.
Qed.

Lemma input_remove_key_bind_from_list_keeps key func type s s' p :
  wf s → input_remove_key_bind_from_list key func type s = Some s' →
  p ∈ nodes_of (bind_lists s') → heap s' !! p = heap s !! p.
Proof.
  intros Hwf Hrem Hp.
  destruct (input_initialized s) eqn:Hinit.
  2:{ unfold input_remove_key_bind_from_list in Hrem.
      rewrite Hinit in Hrem. by injection Hrem as <-. }
  destruct (wf_key_bind_list_some s type Hwf Hinit) as [l Hl].
  rewrite (input_remove_key_bind_from_list_spec _ _ _ _ _ Hwf Hinit Hl)
    in Hrem.
  injection Hrem as <-.
  destruct (nodes_split_key_bind_list type l s Hl)
    as (others & Hperm & Hperm' & _).
  pose proof Hwf as (_ & _ & Hnd & _). rewrite Hperm in Hnd.
  cbn [heap set_key_bind_list set_heap].
  apply (removal_keeps_listed_records _ l others); [done|].
  rewrite <- Hperm', nodes_of_app. apply elem_of_app. by right.
Qed.

Lemma input_remove_mouse_bind_from_list_keeps button func type s s' p :
  wf s → input_remove_mouse_bind_from_list button func type s = Some s' →
  p ∈ nodes_of (bind_lists s') → heap s' !! p = heap s !! p.
Proof.
  intros Hwf Hrem Hp.
  destruct (input_initialized s) eqn:Hinit.
  2:{ unfold input_remove_mouse_bind_from_list in Hrem.
      rewrite Hinit in Hrem. by injection Hrem as <-. }
  destruct (wf_mouse_bind_list_some s type Hwf Hinit) as [l Hl].
  rewrite (input_remove_mouse_bind_from_list_spec _ _ _ _ _ Hwf Hinit Hl)
    in Hrem.
  injection Hrem as <-.
  destruct (nodes_split_mouse_bind_list type l s Hl)
    as (others & Hperm & Hperm' & _).
  pose proof Hwf as (_ & _ & Hnd & _). rewrite Hperm in Hnd.
  cbn [heap set_mouse_bind_list set_heap].
  apply (removal_keeps_listed_records _ l others); [done|].
  rewrite <- Hperm', nodes_of_app. apply elem_of_app. by right.
Qed.

(** A call of the library leaves the record of a bind that is in a list
    before and after it as it is, unless the call is a store through
    that bind's handle. *)
Lemma api_call_keeps_registered_record s s' p :
  wf s → api_call s s' →
  p ∈ nodes_of (bind_lists s) → p ∈ nodes_of (bind_lists s') →
  heap s' !! p = heap s !! p ∨
  ∃ b b', load_mousebind (heap s) p = Some b ∧
          load_mousebind (heap s') p = Some b' ∧ stores_field p b b' s s'.
Proof.
  intros Hwf Hcall Hp Hp'.
  destruct Hcall as
    [window s|s s' Hrun|event_id handler s s' Hrun
    |event_id handler s s' Hrun|key func data type s
    |key func type s s' Hrun|bind s s' Hrun
    |button area func data type s handle s' Hrun
    |button func type s s' Hrun|bind s s' Hrun
    |bind button s s' Hrun|bind area s s' Hrun|bind func s s' Hrun
    |bind data s s' Hrun|block s
    |type x y button wheel s w ret s' w' calls Hrun].
  - left. destruct window as [win|]; [|done].
    by apply elem_of_nil in Hp'.
  - left. unfold input_shutdown in Hrun.
    destruct (input_initialized s); cbn [negb] in Hrun;
      [|by injection Hrun as <-].
    destruct (destroy_hook_lists _ _ _) as [[hooks m0]|]; [|done].
    cbn [mbind option_bind] in Hrun.
    repeat (destruct (input_cleanup_list _ _); [|done];
            cbn [mbind option_bind] in Hrun).
    injection Hrun as <-. by apply elem_of_nil in Hp'.
  - left. unfold input_add_hook in Hrun.
    destruct (input_initialized s); cbn [negb] in Hrun;
      [|by injection Hrun as <-].
    destruct (NUM_INPUT_EVENTS <=? event_id)%nat;
      [by injection Hrun as <-|].
    destruct (hook_list event_id s) as [l|]; [|done].
    injection Hrun as <-. by apply wf_bind_node_not_fresh.
  - left. destruct (input_initialized s) eqn:Hinit;
      [|unfold input_remove_hook in Hrun; rewrite Hinit in Hrun;
        by injection Hrun as <-].
    destruct (decide (event_id < NUM_INPUT_EVENTS)%nat) as [Hid|Hid].
    2:{ unfold input_remove_hook in Hrun. rewrite Hinit in Hrun.
        apply Nat.nlt_ge, Nat.leb_le in Hid. rewrite Hid in Hrun.
        by injection Hrun as <-. }
    destruct (wf_hook_list_some s event_id Hwf Hinit Hid) as [l Hl].
    rewrite (input_remove_hook_spec _ _ _ _ Hwf Hinit Hid Hl) in Hrun.
    injection Hrun as <-.
    destruct (head (filter _ l)) as [q|] eqn:Hhead; [|done].
    cbn [heap set_input_hooks set_heap]. apply lookup_delete_ne.
    intros ->. apply head_Some_elem_of, list_elem_of_filter in Hhead
      as [_ Hq].
    pose proof Hwf as (_ & _ & Hnd & _).
    rewrite nodes_of_app in Hnd. apply NoDup_app in Hnd as (_ & Hdis & _).
    eapply Hdis; [|exact Hp].
    eapply nodes_of_elem; [by eapply hook_list_elem|done].
  - left. unfold input_add_key_bind.
    destruct (input_initialized s); cbn [negb]; [|done].
    destruct (key_bind_list type s) as [l|]; [|done].
    by apply wf_bind_node_not_fresh.
  - left. by eapply input_remove_key_bind_from_list_keeps.
  - left. unfold input_remove_key_bind in Hrun.
    destruct bind as [q|]; [|done]. cbn [mbind option_bind] in Hrun.
    destruct (load_keybind (heap s) q) as [b|]; [|done].
    by eapply input_remove_key_bind_from_list_keeps.
  - left. unfold input_add_mouse_bind in Hrun.
    destruct (input_initialized s); cbn [negb] in Hrun;
      [|by injection Hrun as _ <-].
    destruct (mouse_bind_list type s) as [l|];
      [|by injection Hrun as _ <-].
    destruct area as [bounds|]; [|done].
    injection Hrun as _ <-. by apply wf_bind_node_not_fresh.
  - left. by eapply input_remove_mouse_bind_from_list_keeps.
  - left. unfold input_remove_mouse_bind in Hrun.
    destruct bind as [q|]; [|done]. cbn [mbind option_bind] in Hrun.
    destruct (load_mousebind (heap s) q) as [b|]; [|done].
    by eapply input_remove_mouse_bind_from_list_keeps.
  - destruct bind as [q|]; [|left; by injection Hrun as <-].
    pose proof Hrun as Hstore. unfold input_set_mousebind_button in Hrun.
    destruct (load_mousebind (heap s) q) as [b|] eqn:Hb; [|done].
    injection Hrun as <-. cbn [heap set_heap].
    destruct (decide (p = q)) as [->|Hne];
      [right|left; by apply lookup_insert_ne].
    eexists b, _. split; [done|]. split.
    + unfold load_mousebind. by rewrite lookup_insert_eq.
    + left. by eexists.
  - destruct bind as [q|]; [|left; by injection Hrun as <-].
    pose proof Hrun as Hstore. unfold input_set_mousebind_rect in Hrun.
    destruct area as [bounds|]; [|done]. cbn [mbind option_bind] in Hrun.
    destruct (load_mousebind (heap s) q) as [b|] eqn:Hb; [|done].
    injection Hrun as <-. cbn [heap set_heap].
    destruct (decide (p = q)) as [->|Hne];
      [right|left; by apply lookup_insert_ne].
    eexists b, _. split; [done|]. split.
    + unfold load_mousebind. by rewrite lookup_insert_eq.
    + right. left. by eexists.
  - destruct bind as [q|]; [|left; by injection Hrun as <-].
    pose proof Hrun as Hstore. unfold input_set_mousebind_func in Hrun.
    destruct (load_mousebind (heap s) q) as [b|] eqn:Hb; [|done].
    injection Hrun as <-. cbn [heap set_heap].
    destruct (decide (p = q)) as [->|Hne];
      [right|left; by apply lookup_insert_ne].
    eexists b, _. split; [done|]. split.
    + unfold load_mousebind. by rewrite lookup_insert_eq.
    + right. right. left. by eexists.
  - destruct bind as [q|]; [|left; by injection Hrun as <-].
    pose proof Hrun as Hstore. unfold input_set_mousebind_param in Hrun.
    destruct (load_mousebind (heap s) q) as [b|] eqn:Hb; [|done].
    injection Hrun as <-. cbn [heap set_heap].
    destruct (decide (p = q)) as [->|Hne];
      [right|left; by apply lookup_insert_ne].
    eexists b, _. split; [done|]. split.
    + unfold load_mousebind. by rewrite lookup_insert_eq.
    + right. right. right. by eexists.
  - by left.
  - left. unfold input_handle_mouse_event in Hrun.
    destruct (input_initialized s); cbn [negb] in Hrun;
      [|by injection Hrun as _ <- _ _].
    destruct (NUM_INPUT_EVENTS <=? type)%nat;
      [by injection Hrun as _ <- _ _|].
    destruct (hook_list type s) as [l|]; [|done].
    cbn [mbind option_bind] in Hrun.
    destruct (list_empty l); [by injection Hrun as _ <- _ _|].
    destruct (call_hooks _ _ _ _ _) as [[[? ?]|[[? ?] ?]]|]; [| |done];
      simpl in Hrun; by injection Hrun as _ <- _ _.
Qed.

(** ** Binds from registration to dispatch *)

(** C7, as amended.  A bind is called by its entry point exactly when
    the record stored for it matches the input: key-down and key-up
    binds when the stored key is the input key, char binds on every
    char dispatch, move binds when the rectangle holds [(x, y)]
    (button ignored, [MOUSE_NONE] handed out), button binds when the
    stored button is the dispatched one and the rectangle holds
    [(x, y)], edges included; the call carries the handler and the
    userdata stored in the record.  Registration writes the key or
    button, rectangle, handler and userdata it is given into a new
    record and appends it to the list of its kind, so that the next
    dispatch calls what it called before and then the new bind, under
    these conditions and with the userdata passed at registration.  A
    later call of the library leaves the record of a bind that stays
    registered as it is, unless it is [input_set_mousebind_button],
    [_rect], [_func] or [_param] on that bind's handle, which replaces
    the one field: after [input_set_mousebind_param] the handler
    receives the new userdata. *)
Theorem binds_called_exactly_on_match s w key button x y :
  wf s → input_initialized s = true →
  dispatches_to (input_handle_key_down_bind key s w)
    (key_bind_call (heap s) key (view_of s))
    (chosen_key_binds (λ bind, key =? KeyBind.key bind) (heap s)
       (key_down_binds s)) ∧
  dispatches_to (input_handle_key_up_bind key s w)
    (key_bind_call (heap s) key (view_of s))
    (chosen_key_binds (λ bind, key =? KeyBind.key bind) (heap s)
       (key_up_binds s)) ∧
  dispatches_to (input_handle_char_bind key s w)
    (key_bind_call (heap s) key (view_of s))
    (chosen_key_binds (λ _, true) (heap s) (char_binds s)) ∧
  dispatches_to (input_handle_mouse_move_bind x y s w)
    (mouse_bind_call (heap s) MOUSE_NONE x y (view_of s))
    (chosen_mouse_binds
       (λ bind, rect_is_point_in (MouseBind.bounds bind) x y) (heap s)
       (mouse_move_binds s)) ∧
  dispatches_to (input_handle_mouse_up_bind button x y s w)
    (mouse_bind_call (heap s) button x y (view_of s))
    (chosen_mouse_binds
       (λ bind, (MouseBind.button bind =? button) &&
                rect_is_point_in (MouseBind.bounds bind) x y) (heap s)
       (mouse_up_binds s)) ∧
  dispatches_to (input_handle_mouse_down_bind button x y s w)
    (mouse_bind_call (heap s) button x y (view_of s))
    (chosen_mouse_binds
       (λ bind, (MouseBind.button bind =? button) &&
                rect_is_point_in (MouseBind.bounds bind) x y) (heap s)
       (mouse_down_binds s)) ∧
  (∀ r px py,
     rect_is_point_in r px py = true ↔
     rect_min_x r ≤ px ≤ rect_max_x r ∧ rect_min_y r ≤ py ≤ rect_max_y r) ∧
  (∀ k func data type k' w0,
     ∃ p s' ret w1 calls,
       input_add_key_bind k func data type s = (Some p, s') ∧
       heap s !! p = None ∧
       load_keybind (heap s') p
       = Some {| KeyBind.type := type; KeyBind.key := k;
                 KeyBind.handler := func; KeyBind.userdata := data |} ∧
       key_bind_list type s'
       = (λ l, list_push l p) <$> key_bind_list type s ∧
       key_bind_entry_point type k' s w0 = Some (ret, w1, calls) ∧
       key_bind_entry_point type k' s' w0
       = Some (if key_bind_fires type k k' then
                 let '(r, w2) :=
                   call_keybind_func func k' data (view_of s) w1 in
                 (ret && r, w2,
                  calls ++ [KeyBindCall p func k' data (view_of s) r])
               else (ret, w1, calls))) ∧
  (∀ b area func data type b' x' y' w0,
     let record := {| MouseBind.type := type; MouseBind.bounds := area;
                      MouseBind.button := b; MouseBind.handler := func;
                      MouseBind.userdata := data |} in
     ∃ p s' ret w1 calls,
       input_add_mouse_bind b (Some area) func data type s
       = Some (Some p, s') ∧
       heap s !! p = None ∧
       load_mousebind (heap s') p = Some record ∧
       mouse_bind_list type s'
       = (λ l, list_push l p) <$> mouse_bind_list type s ∧
       mouse_bind_entry_point type b' x' y' s w0 = Some (ret, w1, calls) ∧
       mouse_bind_entry_point type b' x' y' s' w0
       = Some (if mouse_bind_fires type b' x' y' record then
                 let '(r, w2) :=
                   call_mousebind_func func (mouse_bind_argument type b')
                     x' y' data (view_of s) w1 in
                 (ret && r, w2,
                  calls ++ [MouseBindCall p func (mouse_bind_argument type b')
                              x' y' data (view_of s) r])
               else (ret, w1, calls))) ∧
  (∀ s' p,
     api_call s s' →
     p ∈ nodes_of (bind_lists s) → p ∈ nodes_of (bind_lists s') →
     heap s' !! p = heap s !! p ∨
     ∃ b b', load_mousebind (heap s) p = Some b ∧
             load_mousebind (heap s') p = Some b' ∧
             stores_field p b b' s s').
Proof.
  intros Hwf Hinit.
  destruct (bind_dispatch_by_stored_record s w key button x y Hwf Hinit)
    as (Hdown & Hup & Hchar & Hmove & Hbup & Hbdown & Hrect & _).
  do 7 (split; [assumption|]).
  pose proof (mem_alloc_clean_fresh (heap s)) as Hfresh.
  split; [|split].
  - intros k func data type k' w0.
    destruct (key_bind_dispatch_spec s type
                (λ bind, key_bind_fires type (KeyBind.key bind) k') k' w0
                Hwf Hinit)
      as (l & w1 & calls & Hl & Hrun & _).
    assert (mem_alloc_clean (heap s) ∉ l) as Hp.
    { eapply wf_fresh_not_in_list; [done| |done].
      by eapply key_bind_list_elem. }
    unfold input_add_key_bind. rewrite Hinit, Hl. cbn [negb].
    eexists _, _, _, w1, calls. split; [reflexivity|].
    split; [exact Hfresh|]. split.
    { unfold load_keybind. cbn [heap set_key_bind_list set_heap].
      by rewrite lookup_insert_eq. }
    split; [by rewrite key_bind_list_set_eq|].
    rewrite !key_bind_entry_point_unfold.
    cbn [input_initialized set_key_bind_list set_heap].
    rewrite Hinit, Hl, key_bind_list_set_eq. cbn [negb mbind option_bind].
    split; [exact Hrun|].
    change (heap (set_key_bind_list type _ (set_heap ?m s))) with m.
    change (view_of (set_key_bind_list type _ (set_heap _ s)))
      with (view_of s).
    by rewrite (call_key_binds_after_push _ _ _ _ _ _ _ _ _ _ _ Hp Hrun).
  - intros b area func data type b' x' y' w0 record.
    destruct (mouse_bind_dispatch_spec s type
                (mouse_bind_fires type b' x' y')
                (mouse_bind_argument type b') x' y' w0 Hwf Hinit)
      as (l & w1 & calls & Hl & Hrun & _).
    assert (mem_alloc_clean (heap s) ∉ l) as Hp.
    { eapply wf_fresh_not_in_list; [done| |done].
      by eapply mouse_bind_list_elem. }
    unfold input_add_mouse_bind. rewrite Hinit, Hl.
    cbn [negb mbind option_bind].
    eexists _, _, _, w1, calls. split; [reflexivity|].
    split; [exact Hfresh|]. split.
    { unfold load_mousebind. cbn [heap set_mouse_bind_list set_heap].
      by rewrite lookup_insert_eq. }
    split; [by rewrite mouse_bind_list_set_eq|].
    rewrite !mouse_bind_entry_point_unfold.
    cbn [input_initialized set_mouse_bind_list set_heap].
    rewrite Hinit, Hl, mouse_bind_list_set_eq. cbn [negb mbind option_bind].
    split; [exact Hrun|].
    change (heap (set_mouse_bind_list type _ (set_heap ?m s))) with m.
    change (view_of (set_mouse_bind_list type _ (set_heap _ s)))
      with (view_of s).
    by rewrite (call_mouse_binds_after_push _ _ _ _ _ _ _ _ _ _ _ _ _ Hp
                  Hrun).
  - intros s' p. by apply api_call_keeps_registered_record.
Qed.

End Input.

(** * The sample configuration *)

(** The sample state is reachable: initialise, register the hooks and
    the binds in the order of their addresses, and let one mouse event
    through to a hook. *)
Lemma sample_state_reachable :
  reachable 4 nat sample_input_handler sample_state.
Proof.
  unfold reachable.
  eapply rtc_l; [apply (call_initialize _ _ _ (Some 1%positive))|].
  eapply rtc_l; [eapply (call_add_hook 4 nat sample_input_handler 0 101);
                 vm_compute; reflexivity|].
  eapply rtc_l; [eapply (call_add_hook 4 nat sample_input_handler 0 102);
                 vm_compute; reflexivity|].
  eapply rtc_l; [eapply (call_add_hook 4 nat sample_input_handler 0 103);
                 vm_compute; reflexivity|].
  eapply rtc_l; [eapply (call_add_hook 4 nat sample_input_handler 2 101);
                 vm_compute; reflexivity|].
  eapply rtc_l; [apply (call_add_key_bind _ _ _ 13 201 900 BIND_CHAR)|].
  eapply rtc_l; [apply (call_add_key_bind _ _ _ 65 202 901 BIND_KEYUP)|].
  eapply rtc_l; [apply (call_add_key_bind _ _ _ 65 201 902 BIND_KEYDOWN)|].
  eapply rtc_l; [apply (call_add_key_bind _ _ _ 66 201 903 BIND_KEYDOWN)|].
  eapply rtc_l; [apply (call_add_key_bind _ _ _ 65 201 904 BIND_KEYDOWN)|].
  eapply rtc_l;
    [eapply (call_add_mouse_bind _ _ _ 1 (Some sample_rect) 301 905 BIND_BTNUP);
     vm_compute; reflexivity|].
  eapply rtc_l;
    [eapply (call_add_mouse_bind _ _ _ 1 (Some sample_rect) 302 906 BIND_BTNUP);
     vm_compute; reflexivity|].
  eapply rtc_l;
    [eapply (call_add_mouse_bind _ _ _ 2 (Some sample_rect) 301 907
               BIND_BTNDOWN);
     vm_compute; reflexivity|].
  eapply rtc_l;
    [eapply (call_add_mouse_bind _ _ _ 0 (Some sample_rect) 301 908 BIND_MOVE);
     vm_compute; reflexivity|].
  eapply rtc_l;
    [eapply (call_mouse_event 4 nat sample_input_handler 2 3 4 0 0 _ 0%nat);
     vm_compute; reflexivity|].
  apply rtc_refl.
Qed.

(** So the sample state is well formed; the invariant can also be
    decided by computation. *)
Lemma sample_state_wf : wf 4 sample_state.
Proof.
  exact (reachable_wf 4 nat sample_input_handler sample_state
           sample_state_reachable).
Qed.

Lemma blocked_state_wf : wf 4 blocked_state.
Proof. apply (bool_decide_unpack _). vm_compute. exact I. Qed.

(** The spec's examples: a key-down bind for key 65 fires on 65 and not
    on 66; a move bind on [[0,0]-[10,10]] fires at (5,5) and (10,10) and
    not at (11,5); a char bind fires whatever the key. *)
Example key_down_fires_on_its_key :
  input_handle_key_down_bind nat sample_keybind_func 65 sample_state 0%nat
  = Some (true, 2%nat,
          [KeyBindCall 7 201 65 902 (view_of sample_state) true;
           KeyBindCall 9 201 65 904 (view_of sample_state) true]) ∧
  input_handle_key_down_bind nat sample_keybind_func 67 sample_state 0%nat
  = Some (true, 0%nat, []).
Proof. split; vm_compute; reflexivity. Qed.

Example move_bind_edges :
  called_nodes
    (input_handle_mouse_move_bind 0 nat sample_mousebind_func 5 5
      sample_state 0%nat) = Some [13%positive] ∧
  called_nodes
    (input_handle_mouse_move_bind 0 nat sample_mousebind_func 10 10
      sample_state 0%nat) = Some [13%positive] ∧
  called_nodes
    (input_handle_mouse_move_bind 0 nat sample_mousebind_func 11 5
      sample_state 0%nat) = Some [].
Proof. repeat split; vm_compute; reflexivity. Qed.

Example char_bind_ignores_key :
  input_handle_char_bind nat sample_keybind_func 10 sample_state 0%nat
  = Some (true, 1%nat, [KeyBindCall 5 201 10 900 (view_of sample_state) true]).
Proof. vm_compute. reflexivity. Qed.

(** C8.  While the library is uninitialised the bind registrations
    return a null handle, and handing that handle to
    [input_remove_key_bind] or [input_remove_mouse_bind] reads
    [bind->key], respectively [bind->button], through the null pointer
    before the [input_initialized] guard is reached.  A handle obtained
    before [input_shutdown] fares no better: the shutdown has freed its
    record. *)
Theorem uninitialized_remove_reads_bad_handle :
  (∀ n key func data,
     input_initialized (initial_state n) = false ∧
     input_add_key_down_bind key func data (initial_state n)
     = (None, initial_state n) ∧
     input_remove_key_bind None (initial_state n) = None) ∧
  (∀ n button area func data,
     input_add_mousebtn_down_bind button area func data (initial_state n)
     = Some (None, initial_state n) ∧
     input_remove_mouse_bind None (initial_state n) = None) ∧
  (∃ s, input_shutdown 4 sample_state = Some s ∧
     input_initialized s = false ∧
     is_Some (load_keybind (heap sample_state) 7) ∧
     is_Some (load_mousebind (heap sample_state) 10) ∧
     input_remove_key_bind (Some 7%positive) s = None ∧
     input_remove_mouse_bind (Some 10%positive) s = None).
Proof.
  split; [by repeat split|]. split; [by repeat split|].
  eexists. split; [vm_compute; reflexivity|].
  repeat split; try (by eexists); vm_compute; reflexivity.
Qed.

(** * Instances of the theorems on the sample configuration *)

Lemma bulk_removal_selectors_sample :
  wf 4 sample_state ∧
  input_initialized sample_state = true ∧
  mouse_bind_list BIND_BTNUP sample_state = Some [10; 11]%positive ∧
  key_bind_list BIND_KEYDOWN sample_state = Some [7; 8; 9]%positive ∧
  (mouse_up_binds <$>
     input_remove_mouse_bind_from_list 1 301 BIND_BTNUP sample_state)
  = Some (Some [10%positive]) ∧
  (key_down_binds <$>
     input_remove_key_bind_from_list 65 201 BIND_KEYDOWN sample_state)
  = Some (Some [8%positive]).
Proof.
  split; [exact sample_state_wf|].
  split; [reflexivity|]. split; [reflexivity|]. split; [reflexivity|].
  destruct (bulk_removal_selectors 4 0 sample_state 1 301 BIND_BTNUP
              [10; 11]%positive 65 201 BIND_KEYDOWN [7; 8; 9]%positive
              sample_state_wf eq_refl eq_refl eq_refl)
    as (Hmouse & Hkey & _).
  rewrite Hmouse, Hkey. split; vm_compute; reflexivity.
Defined.


Lemma hooks_stop_at_first_veto_sample :
  wf 4 sample_state ∧
  input_initialized sample_state = true ∧
  (0 < 4)%nat ∧
  hook_list 0 sample_state = Some [1; 2; 3]%positive ∧
  first_veto
    (hook_answers nat sample_input_handler
       (hook_handlers (heap sample_state) [1; 2; 3]%positive)
       (KeyboardEvent 0 65) (view_of sample_state) 0%nat) 1 ∧
  first_veto
    (hook_answers nat sample_input_handler
       (hook_handlers (heap sample_state) [1; 2; 3]%positive)
       (MouseEvent 0 7 9 (7 - 3) (9 - 4) (to_uint8 1) (to_uint8 0))
       (view_of (set_mouse_pos 7 9 sample_state)) 0%nat) 1 ∧
  (∃ w' calls,
     input_handle_keyboard_event 4 nat sample_input_handler 0 65
       sample_state 0%nat = Some (false, w', calls) ∧
     call_node <$> calls = [1; 2]%positive) ∧
  (∃ w' calls,
     input_handle_mouse_event 4 nat sample_input_handler 0 7 9 1 0
       sample_state 0%nat
     = Some (false, set_mouse_pos 7 9 sample_state, w', calls) ∧
     call_node <$> calls = [1; 2]%positive).
Proof.
  split; [exact sample_state_wf|].
  do 5 (split; [first [reflexivity | lia]|]).
  destruct (hooks_stop_at_first_veto 4 nat sample_input_handler
              sample_keybind_func sample_mousebind_func sample_state 0
              [1; 2; 3]%positive 1 sample_state_wf eq_refl ltac:(lia) eq_refl)
    as (Hkey & Hmouse & _).
  split.
  - destruct (Hkey 65 0%nat eq_refl) as (w' & calls & Heq & Hnodes & _).
    by exists w', calls.
  - destruct (Hmouse 7 9 1 0 0%nat eq_refl)
      as (w' & calls & Heq & Hnodes & _).
    by exists w', calls.
Defined.


Lemma keyboard_block_forces_suppress_sample :
  wf 4 blocked_state ∧
  input_initialized blocked_state = true ∧
  (2 < 4)%nat ∧
  hook_list 2 blocked_state = Some [4%positive] ∧
  sample_input_handler 101 (KeyboardEvent 2 65) (view_of blocked_state) 0%nat
  = (true, 1%nat) ∧
  ∃ w' calls,
    input_handle_keyboard_event 4 nat sample_input_handler 2 65
      blocked_state 0%nat = Some (false, w', calls).
Proof.
  split; [exact blocked_state_wf|].
  do 4 (split; [first [reflexivity | lia]|]).
  destruct (keyboard_block_forces_suppress 4 nat sample_input_handler
              sample_keybind_func sample_mousebind_func blocked_state 2 65
              0%nat [4%positive] blocked_state_wf eq_refl ltac:(lia) eq_refl)
    as (ret & w' & calls & Heq & _ & _ & Hret & _).
  exists w', calls. rewrite Heq, Hret. reflexivity.
Defined.

Lemma mouse_event_moves_cursor_before_hooks_sample :
  wf 4 sample_state ∧
  input_initialized sample_state = true ∧
  (2 < 4)%nat ∧
  hook_list 2 sample_state = Some [4%positive] ∧
  input_get_cursor_pos sample_state = (3, 4) ∧
  ∃ ret w' calls,
    input_handle_mouse_event 4 nat sample_input_handler 2 7 9 1 0
      sample_state 0%nat
    = Some (ret, set_mouse_pos 7 9 sample_state, w', calls) ∧
    calls ≠ [] ∧
    Forall (λ c, ∃ node h,
              c = HookCall node h (MouseEvent 2 7 9 4 5 1 0)
                    {| cursor_x := 7; cursor_y := 9; cursor_showing := true |}
                    (call_result c))
      calls.
Proof.
  split; [exact sample_state_wf|].
  do 4 (split; [first [reflexivity | lia]|]).
  destruct (mouse_event_moves_cursor_before_hooks 4 nat sample_input_handler
              sample_keybind_func sample_mousebind_func sample_state 2 7 9 1 0
              0%nat [4%positive] sample_state_wf eq_refl ltac:(lia) eq_refl
              ltac:(discriminate))
    as (ret & w' & calls & Heq & _ & Hne & _ & Hcalls).
  exists ret, w', calls. split; [exact Heq|]. split; [exact Hne|].
  exact Hcalls.
Defined.

Lemma binds_called_exactly_on_match_sample :
  wf 4 sample_state ∧
  input_initialized sample_state = true ∧
  dispatches_to nat
    (input_handle_key_down_bind nat sample_keybind_func 65 sample_state 0%nat)
    (key_bind_call (heap sample_state) 65 (view_of sample_state))
    [7; 9]%positive ∧
  dispatches_to nat
    (input_handle_mouse_move_bind 0 nat sample_mousebind_func 10 10
       sample_state 0%nat)
    (mouse_bind_call (heap sample_state) 0 10 10 (view_of sample_state))
    [13%positive] ∧
  dispatches_to nat
    (input_handle_mouse_down_bind nat sample_mousebind_func 1 5 5
       sample_state 0%nat)
    (mouse_bind_call (heap sample_state) 1 5 5 (view_of sample_state))
    [] ∧
  ∃ p s' out,
    input_add_key_bind 65 203 950 BIND_KEYDOWN sample_state = (Some p, s') ∧
    key_bind_entry_point nat sample_keybind_func BIND_KEYDOWN 65 s' 0%nat
    = Some out ∧
    KeyBindCall p 203 65 950 (view_of sample_state) true ∈ out.2.
Proof.
  split; [exact sample_state_wf|]. split; [reflexivity|].
  destruct (binds_called_exactly_on_match 4 0 nat sample_input_handler
              sample_keybind_func sample_mousebind_func sample_state 0%nat
              65 1 10 10 sample_state_wf eq_refl)
    as (Hdown & _ & _ & Hmove & _ & _ & _ & Hreg & _).
  destruct (binds_called_exactly_on_match 4 0 nat sample_input_handler
              sample_keybind_func sample_mousebind_func sample_state 0%nat
              65 1 5 5 sample_state_wf eq_refl)
    as (_ & _ & _ & _ & _ & Hbtn & _).
  split; [exact Hdown|]. split; [exact Hmove|]. split; [exact Hbtn|].
  destruct (Hreg 65 203 950 BIND_KEYDOWN 65 0%nat)
    as (p & s' & ret & w1 & calls & Hadd & _ & _ & _ & _ & Hrun).
  exists p, s'. eexists. split; [exact Hadd|]. split; [exact Hrun|].
  cbn. apply elem_of_app. right. by left.
Defined.

Lemma block_and_cursor_survive_restart_sample :
  wf 4 blocked_state ∧
  block_keys blocked_state = true ∧
  ∃ s1 s3 w' calls,
    input_shutdown 4 blocked_state = Some s1 ∧
    input_get_cursor_pos (input_initialize 4 (Some 1%positive) s1) = (3, 4) ∧
    input_add_hook 4 0 101 (input_initialize 4 (Some 1%positive) s1)
    = Some s3 ∧
    input_handle_keyboard_event 4 nat sample_input_handler 0 65 s3 0%nat
    = Some (false, w', calls).
Proof.
  split; [exact blocked_state_wf|]. split; [reflexivity|].
  destruct (block_and_cursor_survive_restart 4 nat sample_input_handler
              sample_keybind_func sample_mousebind_func blocked_state
              (Some 1%positive) blocked_state_wf)
    as (s1 & Hshut & _ & Hx & Hy & _ & Hblock).
  destruct (Hblock eq_refl ltac:(by eexists) 0%nat 101 65 0%nat ltac:(lia))
    as (s3 & w' & calls & Hadd & Hev).
  exists s1, s3, w', calls. split; [exact Hshut|].
  split; [|split; [exact Hadd|exact Hev]].
  unfold input_get_cursor_pos. by rewrite Hx, Hy.
Defined.

(** The handle of a bind registered before a second
    [input_initialize]: its record is in no list any more, and
    [input_remove_key_bind] on it leaves that record in memory while it
    unlinks and frees the bind registered since with the same key and
    handler. *)
Example stale_key_bind_handle_keeps_record :
  ∃ s1 s3 s4,
    input_add_key_down_bind 65 201 900
      (input_initialize 4 (Some 1%positive) (initial_state 4))
    = (Some 1%positive, s1) ∧
    input_add_key_down_bind 65 201 901
      (input_initialize 4 (Some 1%positive) s1)
    = (Some 2%positive, s3) ∧
    key_down_binds s3 = Some [2%positive] ∧
    input_remove_key_bind (Some 1%positive) s3 = Some s4 ∧
    key_down_binds s4 = Some [] ∧
    is_Some (load_keybind (heap s4) 1) ∧
    heap s4 !! 2%positive = None.
Proof.
  eexists _, _, _.
  split; [vm_compute; reflexivity|]. split; [vm_compute; reflexivity|].
  split; [vm_compute; reflexivity|]. split; [vm_compute; reflexivity|].
  split; [vm_compute; reflexivity|]. split; [|vm_compute; reflexivity].
  vm_compute. by eexists.
Qed.

(** C7, as stated, fails in its last clause: a move bind registered on
    a newly initialised library with userdata 908, and given 999
    through its handle by [input_set_mousebind_param], is called with
    999. *)
Lemma set_param_replaces_registered_userdata :
  ∃ p s1 s2,
    input_add_mouse_move_bind 0 (Some sample_rect) 301 908
      (input_initialize 4 (Some 1%positive) (initial_state 4))
    = Some (Some p, s1) ∧
    input_set_mousebind_param (Some p) 999 s1 = Some s2 ∧
    reachable 4 nat sample_input_handler s2 ∧
    input_handle_mouse_move_bind 0 nat sample_mousebind_func 5 5 s2 0%nat
    = Some (true, 1%nat,
            [MouseBindCall p 301 0 5 5 999 (view_of s2) true]) ∧
    999 ≠ 908.
Proof.
  eexists _, _, _.
  split; [vm_compute; reflexivity|]. split; [vm_compute; reflexivity|].
  split; [|split; [vm_compute; reflexivity|lia]].
  unfold reachable.
  eapply rtc_l; [apply (call_initialize _ _ _ (Some 1%positive))|].
  eapply rtc_l;
    [eapply (call_add_mouse_bind _ _ _ 0 (Some sample_rect) 301 908 BIND_MOVE);
     vm_compute; reflexivity|].
  eapply rtc_l;
    [eapply (call_set_mousebind_param _ _ _ (Some 1%positive) 999);
     vm_compute; reflexivity|].
  apply rtc_refl.
Qed.


(** * The further properties on the sample configuration *)

Lemma reachable_state_shape_sample :
  reachable 4 nat sample_input_handler sample_state ∧
  length (input_hooks sample_state) = 4%nat ∧
  NoDup (nodes_of (input_hooks sample_state ++ bind_lists sample_state)) ∧
  ∃ b, load_keybind (heap sample_state) 8 = Some b ∧
       KeyBind.type b = BIND_KEYDOWN.
Proof.
  split; [exact sample_state_reachable|].
  destruct (reachable_state_shape 4 nat sample_input_handler sample_state
              sample_state_reachable)
    as (Hlen & _ & Hnd & _ & Hkeys & _).
  split; [exact Hlen|]. split; [exact Hnd|].
  apply (Hkeys BIND_KEYDOWN [7; 8; 9]%positive); [reflexivity|].
  apply (bool_decide_unpack _). vm_compute. exact I.
Defined.

Lemma shutdown_releases_every_record_sample :
  wf 4 sample_state ∧
  input_initialized sample_state = true ∧
  ∃ s', input_shutdown 4 sample_state = Some s' ∧
    key_down_binds s' = None ∧
    heap s' !! 7%positive = None ∧
    heap s' !! 20%positive = heap sample_state !! 20%positive ∧
    input_shutdown 4 s' = Some s'.
Proof.
  split; [exact sample_state_wf|]. split; [reflexivity|].
  destruct (shutdown_releases_every_record 4 sample_state sample_state_wf
              eq_refl)
    as (s' & Hrun & _ & _ & Hbinds & Hfreed & Hkept & Hagain).
  exists s'. split; [exact Hrun|].
  split; [by injection Hbinds|].
  split; [|split; [|exact Hagain]].
  - apply Hfreed. apply (bool_decide_unpack _). vm_compute. exact I.
  - apply Hkept. apply (bool_decide_unpack _). vm_compute. exact I.
Defined.

Lemma initialize_forgets_registrations_sample :
  wf 4 sample_state ∧
  heap (input_initialize 4 (Some 1%positive) sample_state)
  = heap sample_state ∧
  key_bind_entry_point nat sample_keybind_func BIND_KEYDOWN 65
    (input_initialize 4 (Some 1%positive) sample_state) 0%nat
  = Some (true, 0%nat, []).
Proof.
  split; [exact sample_state_wf|].
  pose proof (initialize_forgets_registrations 4 0 nat sample_input_handler
                sample_keybind_func sample_mousebind_func sample_state
                1%positive sample_state_wf) as H.
  cbv zeta in H. destruct H as (_ & Hheap & _ & _ & _ & _ & Hkeys & _).
  split; [exact Hheap|exact (Hkeys BIND_KEYDOWN 65 0%nat)].
Defined.

Lemma new_key_bind_is_called_last_sample :
  wf 4 sample_state ∧
  input_initialized sample_state = true ∧
  key_bind_entry_point nat sample_keybind_func BIND_KEYDOWN 65 sample_state
    0%nat
  = Some (true, 2%nat,
          [KeyBindCall 7 201 65 902 (view_of sample_state) true;
           KeyBindCall 9 201 65 904 (view_of sample_state) true]) ∧
  key_bind_entry_point nat sample_keybind_func BIND_KEYDOWN 65
    (input_add_key_bind 65 203 950 BIND_KEYDOWN sample_state).2 0%nat
  = Some (true, 3%nat,
          [KeyBindCall 7 201 65 902 (view_of sample_state) true;
           KeyBindCall 9 201 65 904 (view_of sample_state) true;
           KeyBindCall 14 203 65 950 (view_of sample_state) true]).
Proof.
  split; [exact sample_state_wf|]. split; [reflexivity|].
  assert (key_bind_entry_point nat sample_keybind_func BIND_KEYDOWN 65
            sample_state 0%nat
          = Some (true, 2%nat,
                  [KeyBindCall 7 201 65 902 (view_of sample_state) true;
                   KeyBindCall 9 201 65 904 (view_of sample_state) true]))
    as Hrun by (vm_compute; reflexivity).
  split; [exact Hrun|].
  pose proof (new_key_bind_is_called_last 4 nat sample_keybind_func
                sample_state 65 203 950 BIND_KEYDOWN 65 0%nat _ _ _
                sample_state_wf eq_refl Hrun) as H.
  cbv zeta in H. destruct H as (_ & _ & H).
  etrans; [exact H|]. vm_compute. reflexivity.
Defined.

Lemma key_bind_registration_is_local_sample :
  wf 4 sample_state ∧
  key_bind_entry_point nat sample_keybind_func BIND_KEYUP 65
    (input_add_key_bind 65 203 950 BIND_KEYDOWN sample_state).2 0%nat
  = key_bind_entry_point nat sample_keybind_func BIND_KEYUP 65 sample_state
      0%nat.
Proof.
  split; [exact sample_state_wf|].
  pose proof (key_bind_registration_is_local 4 0 nat sample_input_handler
                sample_keybind_func sample_mousebind_func sample_state
                65 203 950 BIND_KEYDOWN sample_state_wf) as H.
  cbv zeta in H. destruct H as (Hkeys & _).
  apply Hkeys. discriminate.
Defined.

Lemma new_hook_is_called_last_sample :
  wf 4 sample_state ∧
  input_initialized sample_state = true ∧
  (2 < 4)%nat ∧
  input_handle_keyboard_event 4 nat sample_input_handler 2 65 sample_state
    0%nat
  = Some (true, 1%nat,
          [HookCall 4 101 (KeyboardEvent 2 65) (view_of sample_state) true]) ∧
  ∃ s', input_add_hook 4 2 104 sample_state = Some s' ∧
    input_handle_keyboard_event 4 nat sample_input_handler 2 65 s' 0%nat
    = Some (true, 2%nat,
            [HookCall 4 101 (KeyboardEvent 2 65) (view_of sample_state) true;
             HookCall 14 104 (KeyboardEvent 2 65) (view_of sample_state)
               true]).
Proof.
  split; [exact sample_state_wf|]. split; [reflexivity|]. split; [lia|].
  assert (input_handle_keyboard_event 4 nat sample_input_handler 2 65
            sample_state 0%nat
          = Some (true, 1%nat,
                  [HookCall 4 101 (KeyboardEvent 2 65) (view_of sample_state)
                     true]))
    as Hrun by (vm_compute; reflexivity).
  split; [exact Hrun|].
  pose proof (new_hook_is_called_last 4 nat sample_input_handler
                sample_keybind_func sample_mousebind_func sample_state 2 104
                65 0%nat _ _ _ sample_state_wf eq_refl ltac:(lia) Hrun) as H.
  cbv zeta in H. destruct H as (s' & Hadd & H & _).
  exists s'. split; [exact Hadd|].
  etrans; [exact H|]. vm_compute. reflexivity.
Defined.

Lemma key_bind_add_then_remove_sample :
  wf 4 sample_state ∧
  input_initialized sample_state = true ∧
  key_bind_list BIND_KEYDOWN sample_state = Some [7; 8; 9]%positive ∧
  Forall (λ q, key_bind_selected (heap sample_state) 70 250 q = false)
    [7; 8; 9]%positive ∧
  input_remove_key_bind
    (input_add_key_bind 70 250 960 BIND_KEYDOWN sample_state).1
    (input_add_key_bind 70 250 960 BIND_KEYDOWN sample_state).2
  = Some sample_state.
Proof.
  split; [exact sample_state_wf|]. split; [reflexivity|].
  split; [reflexivity|].
  assert (Forall (λ q, key_bind_selected (heap sample_state) 70 250 q = false)
            [7; 8; 9]%positive) as Hnone
    by (repeat constructor; vm_compute; reflexivity).
  split; [exact Hnone|].
  exact (key_bind_add_then_remove 4 sample_state 70 250 960 BIND_KEYDOWN
           [7; 8; 9]%positive sample_state_wf eq_refl eq_refl Hnone).
Defined.

Lemma mouse_bind_handle_removal_keeps_record_sample :
  wf 4 sample_state ∧
  input_initialized sample_state = true ∧
  mouse_up_binds sample_state = Some [10; 11]%positive ∧
  ∃ s' l', input_remove_mouse_bind (Some 10%positive) sample_state = Some s' ∧
    mouse_up_binds s' = Some l' ∧
    10%positive ∈ l' ∧
    is_Some (load_mousebind (heap s') 10).
Proof.
  split; [exact sample_state_wf|]. split; [reflexivity|].
  split; [reflexivity|].
  destruct (mouse_bind_handle_removal_keeps_record 4 sample_state 10
              {| MouseBind.type := BIND_BTNUP; MouseBind.bounds := sample_rect;
                 MouseBind.button := 1; MouseBind.handler := 301;
                 MouseBind.userdata := 905 |}
              [10; 11]%positive sample_state_wf eq_refl
              ltac:(vm_compute; reflexivity) eq_refl)
    as (s' & l' & Hrem & Hl' & Hload & Hin & _).
  exists s', l'. split; [exact Hrem|]. split; [exact Hl'|].
  split; [|by eexists].
  apply Hin. apply (bool_decide_unpack _). vm_compute. exact I.
Defined.

Lemma key_bind_handle_dangles_after_removal_sample :
  wf 4 sample_state ∧
  input_initialized sample_state = true ∧
  key_down_binds sample_state = Some [7; 8; 9]%positive ∧
  ∃ s', input_remove_key_bind (Some 7%positive) sample_state = Some s' ∧
    input_remove_key_bind (Some 7%positive) s' = None.
Proof.
  split; [exact sample_state_wf|]. split; [reflexivity|].
  split; [reflexivity|].
  destruct (key_bind_handle_dangles_after_removal 4 sample_state 7
              {| KeyBind.type := BIND_KEYDOWN; KeyBind.key := 65;
                 KeyBind.handler := 201; KeyBind.userdata := 902 |}
              [7; 8; 9]%positive sample_state_wf eq_refl
              ltac:(vm_compute; reflexivity) eq_refl
              ltac:(apply (bool_decide_unpack _); vm_compute; exact I))
    as (s' & l' & Hrem & _ & _ & _ & Hagain).
  exists s'. split; [exact Hrem|exact Hagain].
Defined.

Lemma removed_key_bind_never_fires_sample :
  wf 4 sample_state ∧
  ∃ s' out,
    input_remove_key_bind_from_list 65 201 BIND_KEYDOWN sample_state
    = Some s' ∧
    key_bind_entry_point nat sample_keybind_func BIND_KEYDOWN 65 s' 0%nat
    = Some out ∧
    Forall (λ c, ∀ node data seen r,
              c ≠ KeyBindCall node 201 65 data seen r) out.2.
Proof.
  split; [exact sample_state_wf|].
  destruct (input_remove_key_bind_from_list 65 201 BIND_KEYDOWN sample_state)
    as [s'|] eqn:Hrem; [|by vm_compute in Hrem].
  destruct (key_bind_entry_point nat sample_keybind_func BIND_KEYDOWN 65 s'
              0%nat) as [[[ret w'] calls]|] eqn:Hrun.
  - exists s', (ret, w', calls). split; [reflexivity|].
    split; [exact Hrun|].
    exact (removed_key_bind_never_fires 4 nat sample_input_handler
             sample_keybind_func sample_mousebind_func sample_state 65 201
             BIND_KEYDOWN s' 0%nat ret w' calls sample_state_wf
             ltac:(discriminate) Hrem Hrun).
  - exfalso. vm_compute in Hrem. injection Hrem as <-.
    by vm_compute in Hrun.
Defined.

Lemma mouse_bind_store_reaches_dispatch_sample :
  wf 4 sample_state ∧
  input_initialized sample_state = true ∧
  mouse_down_binds sample_state = Some [12%positive] ∧
  ∃ s', input_set_mousebind_button (Some 12%positive) 3 sample_state
        = Some s' ∧
    ∃ ret w' calls,
      mouse_bind_entry_point 0 nat sample_mousebind_func BIND_BTNDOWN 3 5 5
        s' 0%nat = Some (ret, w', calls) ∧
      12%positive ∈ call_node <$> calls.
Proof.
  split; [exact sample_state_wf|]. split; [reflexivity|].
  split; [reflexivity|].
  pose (b := {| MouseBind.type := BIND_BTNDOWN;
                MouseBind.bounds := sample_rect; MouseBind.button := 2;
                MouseBind.handler := 301; MouseBind.userdata := 907 |}).
  assert (load_mousebind (heap sample_state) 12 = Some b) as Hb
    by (vm_compute; reflexivity).
  destruct (input_set_mousebind_button (Some 12%positive) 3 sample_state)
    as [s'|] eqn:Hset; [|by vm_compute in Hset].
  exists s'. split; [reflexivity|].
  destruct (mouse_bind_store_reaches_dispatch 4 0 nat sample_input_handler
              sample_keybind_func sample_mousebind_func sample_state 12 b
              [12%positive] s' (MouseBind.with_button 3 b)
              sample_state_wf eq_refl Hb eq_refl
              (or_introl (ex_intro _ 3 (conj Hset eq_refl))))
    as (_ & _ & _ & Hrun).
  destruct (Hrun 3 5 5 0%nat) as (ret & w' & calls & Heq & Hp & _).
  exists ret, w', calls. split; [exact Heq|].
  apply Hp. split; [|vm_compute; reflexivity].
  apply (bool_decide_unpack _). vm_compute. exact I.
Defined.

Lemma new_mouse_bind_is_called_last_sample :
  wf 4 sample_state ∧
  input_initialized sample_state = true ∧
  mouse_bind_entry_point 0 nat sample_mousebind_func BIND_BTNDOWN 2 5 5
    sample_state 0%nat
  = Some (true, 1%nat,
          [MouseBindCall 12 301 2 5 5 907 (view_of sample_state) true]) ∧
  ∃ s',
    input_add_mouse_bind 2 (Some sample_rect) 303 970 BIND_BTNDOWN
      sample_state = Some (Some 14%positive, s') ∧
    mouse_bind_entry_point 0 nat sample_mousebind_func BIND_BTNDOWN 2 5 5 s'
      0%nat
    = Some (true, 2%nat,
            [MouseBindCall 12 301 2 5 5 907 (view_of sample_state) true;
             MouseBindCall 14 303 2 5 5 970 (view_of sample_state) true]).
Proof.
  split; [exact sample_state_wf|]. split; [reflexivity|].
  assert (mouse_bind_entry_point 0 nat sample_mousebind_func BIND_BTNDOWN
            2 5 5 sample_state 0%nat
          = Some (true, 1%nat,
                  [MouseBindCall 12 301 2 5 5 907 (view_of sample_state)
                     true]))
    as Hrun by (vm_compute; reflexivity).
  split; [exact Hrun|].
  pose proof (new_mouse_bind_is_called_last 4 0 nat sample_mousebind_func
                sample_state 2 sample_rect 303 970 BIND_BTNDOWN 2 5 5 0%nat
                _ _ _ sample_state_wf eq_refl Hrun) as H.
  cbv zeta in H. destruct H as (s' & Hadd & _ & H).
  exists s'. split.
  - etrans; [exact Hadd|]. reflexivity.
  - etrans; [exact H|]. vm_compute. reflexivity.
Defined.

Lemma hook_add_then_remove_sample :
  wf 4 sample_state ∧
  input_initialized sample_state = true ∧
  (2 < 4)%nat ∧
  hook_list 2 sample_state = Some [4%positive] ∧
  Forall (λ q, hook_has_handler (heap sample_state) 104 q = false)
    [4%positive] ∧
  input_add_hook 4 2 104 sample_state ≫= input_remove_hook 4 2 104
  = Some sample_state.
Proof.
  split; [exact sample_state_wf|]. split; [reflexivity|]. split; [lia|].
  split; [reflexivity|].
  assert (Forall (λ q, hook_has_handler (heap sample_state) 104 q = false)
            [4%positive]) as Hnone
    by (repeat constructor; vm_compute; reflexivity).
  split; [exact Hnone|].
  exact (hook_add_then_remove 4 sample_state 2 104 [4%positive]
           sample_state_wf eq_refl ltac:(lia) eq_refl Hnone).
Defined.

Lemma key_bind_removal_is_local_sample :
  wf 4 sample_state ∧
  ∃ s',
    input_remove_key_bind_from_list 65 201 BIND_KEYDOWN sample_state
    = Some s' ∧
    key_bind_entry_point nat sample_keybind_func BIND_KEYDOWN 66 s' 0%nat
    = key_bind_entry_point nat sample_keybind_func BIND_KEYDOWN 66
        sample_state 0%nat.
Proof.
  split; [exact sample_state_wf|].
  destruct (input_remove_key_bind_from_list 65 201 BIND_KEYDOWN sample_state)
    as [s'|] eqn:Hrem; [|by vm_compute in Hrem].
  exists s'. split; [reflexivity|].
  destruct (key_bind_removal_is_local 4 0 nat sample_input_handler
              sample_keybind_func sample_mousebind_func sample_state 65 201
              BIND_KEYDOWN s' sample_state_wf Hrem) as (Hsame & _).
  apply Hsame; [discriminate|lia].
Defined.

Lemma mouse_removal_keeps_only_handler_sample :
  wf 4 sample_state ∧
  ∃ s' out,
    input_remove_mouse_bind_from_list 1 301 BIND_BTNUP sample_state
    = Some s' ∧
    mouse_bind_entry_point 0 nat sample_mousebind_func BIND_BTNUP 1 5 5 s'
      0%nat = Some out ∧
    Forall (λ c, ∃ node data r,
              c = MouseBindCall node 301 1 5 5 data (view_of sample_state) r)
      out.2.
Proof.
  split; [exact sample_state_wf|].
  destruct (input_remove_mouse_bind_from_list 1 301 BIND_BTNUP sample_state)
    as [s'|] eqn:Hrem; [|by vm_compute in Hrem].
  destruct (mouse_bind_entry_point 0 nat sample_mousebind_func BIND_BTNUP
              1 5 5 s' 0%nat) as [[[ret w'] calls]|] eqn:Hrun.
  - exists s', (ret, w', calls). split; [reflexivity|].
    split; [exact Hrun|].
    exact (mouse_removal_keeps_only_handler 4 0 nat sample_input_handler
             sample_keybind_func sample_mousebind_func sample_state 1 301
             BIND_BTNUP s' 5 5 0%nat ret w' calls sample_state_wf
             ltac:(discriminate) Hrem Hrun).
  - exfalso. vm_compute in Hrem. injection Hrem as <-.
    by vm_compute in Hrun.
Defined.

Lemma calls_on_reachable_states_return_sample :
  reachable 4 nat sample_input_handler sample_state ∧
  is_Some (input_shutdown 4 sample_state) ∧
  is_Some (input_handle_keyboard_event 4 nat sample_input_handler 0 65
             sample_state 0%nat) ∧
  is_Some (input_remove_key_bind (Some 7%positive) sample_state).
Proof.
  split; [exact sample_state_reachable|].
  destruct (calls_on_reachable_states_return 4 0 nat sample_input_handler
              sample_keybind_func sample_mousebind_func sample_state
              sample_state_reachable)
    as (Hshut & _ & _ & _ & _ & _ & Hkey & _ & _ & _ & Hhandle & _).
  split; [exact Hshut|]. split; [exact (Hkey 0%nat 65 0%nat)|].
  apply Hhandle. vm_compute. by eexists.
Defined.
